(** * Toronto Fast Crime API: a shallow embedding and its verified properties

    The development follows the repository's Python modules:
    - [Numeric]     : the arithmetic the modules share (comparison, Python's
                      [round(x, 1)], [bisect.bisect_left], [list.sort]);
    - [PyString]    : substring test, lower-casing, dictionaries keyed by text;
    - [Ingest]      : [ingest_data.py] ([ingest_csv], [ingest_geojson] and the
                      [crimes] table with its UNIQUE constraint);
    - [Forecasting] : [forecasting.py] ([select_best_forecast]);
    - [Platform]    : numpy and the clock, as the two later modules use them;
    - [Scoring]     : [scoring.py] (percentile curve, percentile lookup,
                      the request-time [calculate_score]);
    - [Benchmarks]  : [generate_grid_benchmarks.py].

    Python floats are modelled by exact rationals [Q].  Calls that leave
    rational arithmetic ([np.exp], the trigonometry of the haversine formula,
    [np.sqrt], the fitted statistical models, date parsing) are fields of
    type classes: every theorem holds whatever these functions return. *)

From Stdlib Require Import String Ascii ZArith QArith Qround Qabs List Bool Lia Lqa.
From Stdlib Require Import Sorting.Sorted Sorting.Permutation.
Import ListNotations.

Local Open Scope Z_scope.
Local Open Scope Q_scope.

(* ================================================================== *)
(** * Shared arithmetic *)
(* ================================================================== *)

Module Numeric.

(** Python's [x < y] on numbers. *)
Definition Qltb (x y : Q) : bool := negb (Qle_bool y x).

(** Round half to even, as Python's [round] does. *)
Definition round_half_even (q : Q) : Z :=
  let f := Qfloor q in
  match Qcompare (q - inject_Z f)%Q (1 # 2)%Q with
  | Lt => f
  | Gt => (f + 1)%Z
  | Eq => if Z.even f then f else (f + 1)%Z
  end.

(** Python's [round(x, 1)]. *)
Definition py_round1 (q : Q) : Q := Qmake (round_half_even (q * 10)) 10.

(** Python's [round(x, 2)]. *)
Definition py_round2 (q : Q) : Q := Qmake (round_half_even (q * 100)) 100.

(** The loop of [bisect.bisect_left]:
    [while lo < hi: mid = (lo + hi) // 2;
       if a[mid] < x: lo = mid + 1 else: hi = mid].
    Every iteration shrinks [hi - lo], so [hi - lo] iterations are enough. *)
Fixpoint bisect_loop (fuel : nat) (a : list Q) (x : Q) (lo hi : nat) : nat :=
  match fuel with
  | O => lo
  | S fuel' =>
      if (lo <? hi)%nat then
        let mid := ((lo + hi) / 2)%nat in
        if Qltb (nth mid a 0) x
        then bisect_loop fuel' a x (mid + 1)%nat hi
        else bisect_loop fuel' a x lo mid
      else lo
  end.

Definition bisect_left (a : list Q) (x : Q) : nat :=
  bisect_loop (length a) a x 0%nat (length a).

(** The number of entries strictly below [x]. *)
Definition count_lt (a : list Q) (x : Q) : nat :=
  length (filter (fun y => Qltb y x) a).

(** [list.sort()] on numbers: insertion into an ascending list. *)
Fixpoint insert_sorted (x : Q) (l : list Q) : list Q :=
  match l with
  | [] => [x]
  | y :: l' => if Qle_bool x y then x :: y :: l' else y :: insert_sorted x l'
  end.

Definition py_sort (l : list Q) : list Q := fold_right insert_sorted [] l.

(** [int(x)] of a number: truncation towards zero. *)
Definition py_int (q : Q) : Z := Z.quot (Qnum q) (Zpos (Qden q)).

(** [np.median]: the middle of the sorted values, or the mean of the two
    middle ones. *)
Definition np_median (l : list Q) : Q :=
  let s := py_sort l in
  let n := length s in
  if Nat.even n
  then (nth (n / 2 - 1) s 0 + nth (n / 2) s 0) / 2
  else nth (n / 2) s 0.

(** Python's [sum] of a list of numbers. *)
Definition Qsum (l : list Q) : Q := fold_left Qplus l 0.

(** Python's [max(0, min(100, v))]. *)
Definition clamp_0_100 (v : Q) : Q :=
  let m := if Qltb 100 v then 100 else v in
  if Qltb 0 m then m else 0.

(** ** Facts *)

Lemma Qltb_lt (x y : Q) : Qltb x y = true <-> x < y.
Proof.
  unfold Qltb. rewrite negb_true_iff.
  split; intro H.
  - apply Qnot_le_lt. intro Hle. apply Qle_bool_iff in Hle. congruence.
  - destruct (Qle_bool y x) eqn:E; [|reflexivity].
    apply Qle_bool_iff in E. exfalso. apply (Qlt_not_le _ _ H E).
Qed.

Lemma Qltb_ge (x y : Q) : Qltb x y = false <-> y <= x.
Proof.
  unfold Qltb. rewrite negb_false_iff. apply Qle_bool_iff.
Qed.

Lemma Qle_bool_false (x y : Q) : Qle_bool x y = false <-> y < x.
Proof.
  rewrite <- Qltb_lt. unfold Qltb. rewrite negb_true_iff. reflexivity.
Qed.

(** Case analysis on a comparison, leaving the order fact in the context. *)
Ltac qcases :=
  repeat match goal with
  | |- context [Qle_bool ?a ?b] =>
      let E := fresh "E" in
      destruct (Qle_bool a b) eqn:E;
      [apply Qle_bool_iff in E | apply Qle_bool_false in E]
  | |- context [Qltb ?a ?b] =>
      let E := fresh "E" in
      destruct (Qltb a b) eqn:E;
      [apply Qltb_lt in E | apply Qltb_ge in E]
  end.

Lemma round_half_even_floor (q : Q) :
  (Qfloor q <= round_half_even q <= Qfloor q + 1)%Z.
Proof.
  unfold round_half_even.
  destruct (Qcompare _ _); [destruct (Z.even _)| |]; lia.
Qed.

(** Rounding never crosses an integer. *)
Lemma round_half_even_lower (q : Q) (n : Z) :
  inject_Z n <= q -> (n <= round_half_even q)%Z.
Proof.
  intro H.
  assert (n <= Qfloor q)%Z.
  { rewrite <- (Qfloor_Z n). now apply Qfloor_resp_le. }
  pose proof (round_half_even_floor q). lia.
Qed.

Lemma round_half_even_upper (q : Q) (n : Z) :
  q <= inject_Z n -> (round_half_even q <= n)%Z.
Proof.
  intro H.
  pose proof (Qfloor_le q) as Hfl.
  assert (Hle : (Qfloor q <= n)%Z).
  { rewrite <- (Qfloor_Z n). now apply Qfloor_resp_le. }
  unfold round_half_even.
  destruct (Qcompare (q - inject_Z (Qfloor q)) (1 # 2)) eqn:E.
  - apply Qeq_alt in E.
    assert (Hlt : inject_Z (Qfloor q) < inject_Z n) by lra.
    rewrite <- Zlt_Qlt in Hlt. destruct (Z.even _); lia.
  - exact Hle.
  - apply Qgt_alt in E.
    assert (Hlt : inject_Z (Qfloor q) < inject_Z n) by lra.
    rewrite <- Zlt_Qlt in Hlt. lia.
Qed.

Lemma py_round1_bounds (q : Q) : 0 <= q <= 100 -> 0 <= py_round1 q <= 100.
Proof.
  intros [H0 H100]. unfold py_round1.
  assert (L : (0 <= round_half_even (q * 10))%Z).
  { apply round_half_even_lower.
    change (inject_Z 0) with (0 # 1). lra. }
  assert (U : (round_half_even (q * 10) <= 1000)%Z).
  { apply round_half_even_upper.
    change (inject_Z 1000) with (1000 # 1). lra. }
  unfold Qle. simpl. lia.
Qed.

(** *** Binary search *)

Lemma midpoint_between (lo hi : nat) :
  (lo < hi)%nat -> (lo <= (lo + hi) / 2 < hi)%nat.
Proof.
  intro H.
  pose proof (Nat.div_mod_eq (lo + hi) 2).
  assert (H2 : (2 <> 0)%nat) by discriminate.
  pose proof (Nat.mod_upper_bound (lo + hi) 2 H2).
  generalize dependent ((lo + hi) / 2)%nat.
  generalize dependent ((lo + hi) mod 2)%nat. intros. lia.
Qed.

Lemma bisect_loop_range (a : list Q) (x : Q) (fuel lo hi : nat) :
  (lo <= hi)%nat ->
  (lo <= bisect_loop fuel a x lo hi <= hi)%nat.
Proof.
  revert lo hi. induction fuel as [|fuel IH]; intros lo hi Hle; cbn [bisect_loop].
  - lia.
  - destruct (Nat.ltb_spec lo hi) as [Hlt|Hge]; [|lia].
    assert (Hmid : (lo <= (lo + hi) / 2 < hi)%nat) by now apply midpoint_between.
    set (mid := ((lo + hi) / 2)%nat) in *. clearbody mid.
    destruct (Qltb _ x).
    + assert (H : (mid + 1 <= hi)%nat) by lia.
      specialize (IH (mid + 1)%nat hi H). lia.
    + assert (H : (lo <= mid)%nat) by lia.
      specialize (IH lo mid H). lia.
Qed.

Lemma bisect_left_le_length (a : list Q) (x : Q) :
  (bisect_left a x <= length a)%nat.
Proof.
  unfold bisect_left.
  pose proof (bisect_loop_range a x (length a) 0 (length a)). lia.
Qed.

(** An ascending list is ascending by index. *)
Lemma sorted_nth (a : list Q) :
  Sorted Qle a ->
  forall i j, (i <= j < length a)%nat -> nth i a 0 <= nth j a 0.
Proof.
  intro HS. apply Sorted_StronglySorted in HS.
  2:{ intros u v w. apply Qle_trans. }
  induction HS as [|y l HS IH HF]; intros i j Hij; simpl in Hij.
  - lia.
  - destruct i as [|i], j as [|j]; simpl; try lia.
    + apply Qle_refl.
    + rewrite Forall_forall in HF. apply HF. apply nth_In. lia.
    + apply IH. lia.
Qed.

(** A cut point of the list is the number of entries below [x]. *)
Lemma count_lt_cut (a : list Q) (x : Q) (k : nat) :
  (k <= length a)%nat ->
  (forall i, (i < k)%nat -> nth i a 0 < x) ->
  (forall i, (k <= i < length a)%nat -> x <= nth i a 0) ->
  count_lt a x = k.
Proof.
  unfold count_lt. revert k.
  induction a as [|y a IH]; intros k Hk Hlo Hhi; simpl in *.
  - lia.
  - destruct k as [|k].
    + assert (Hy : Qltb y x = false).
      { apply Qltb_ge. apply (Hhi 0%nat). lia. }
      rewrite Hy. apply (IH 0%nat); [lia | intros; lia |].
      intros i Hi. apply (Hhi (S i)). lia.
    + assert (Hy : Qltb y x = true).
      { apply Qltb_lt. apply (Hlo 0%nat). lia. }
      rewrite Hy. simpl. f_equal. apply IH; [lia | |].
      * intros i Hi. apply (Hlo (S i)). lia.
      * intros i Hi. apply (Hhi (S i)). lia.
Qed.

Lemma bisect_loop_cut (a : list Q) (x : Q) :
  Sorted Qle a ->
  forall fuel lo hi,
    (lo <= hi <= length a)%nat ->
    (hi - lo <= fuel)%nat ->
    (forall i, (i < lo)%nat -> nth i a 0 < x) ->
    (forall i, (hi <= i < length a)%nat -> x <= nth i a 0) ->
    let r := bisect_loop fuel a x lo hi in
    (forall i, (i < r)%nat -> nth i a 0 < x) /\
    (forall i, (r <= i < length a)%nat -> x <= nth i a 0).
Proof.
  intro HS. pose proof (sorted_nth a HS) as Hnth.
  induction fuel as [|fuel IH]; intros lo hi Hle Hfuel Hlo Hhi;
    cbn [bisect_loop].
  - split; [exact Hlo|]. intros i Hi. apply Hhi. lia.
  - destruct (Nat.ltb_spec lo hi) as [Hlt|Hge].
    2:{ split; [exact Hlo|]. intros i Hi. apply Hhi. lia. }
    assert (Hmid : (lo <= (lo + hi) / 2 < hi)%nat) by now apply midpoint_between.
    set (mid := ((lo + hi) / 2)%nat) in *. clearbody mid.
    destruct (Qltb (nth mid a 0) x) eqn:E.
    + apply Qltb_lt in E. apply IH; try lia; [|exact Hhi].
      intros i Hi. apply Qle_lt_trans with (nth mid a 0); [|exact E].
      apply Hnth. lia.
    + apply Qltb_ge in E. apply IH; try lia; [exact Hlo|].
      intros i Hi. apply Qle_trans with (nth mid a 0); [exact E|].
      apply Hnth. lia.
Qed.

(** On an ascending list [bisect_left] counts the entries strictly below
    the key. *)
Lemma bisect_left_count_lt (a : list Q) (x : Q) :
  Sorted Qle a -> bisect_left a x = count_lt a x.
Proof.
  intro HS. symmetry. unfold bisect_left.
  assert (Hlo : forall i, (i < 0)%nat -> nth i a 0 < x) by (intros; lia).
  assert (Hhi : forall i, (length a <= i < length a)%nat -> x <= nth i a 0)
    by (intros; lia).
  assert (Hle : (0 <= length a <= length a)%nat) by lia.
  assert (Hfuel : (length a - 0 <= length a)%nat) by lia.
  destruct (bisect_loop_cut a x HS (length a) 0%nat (length a)
              Hle Hfuel Hlo Hhi) as [H1 H2].
  apply count_lt_cut; [|exact H1|exact H2].
  apply bisect_loop_range. lia.
Qed.

(** *** Rounding respects equality of rationals *)



(** *** Sorting *)

Lemma insert_sorted_length (x : Q) (l : list Q) :
  length (insert_sorted x l) = S (length l).
Proof.
  induction l as [|y l IH]; simpl; [reflexivity|].
  destruct (Qle_bool x y); simpl; congruence.
Qed.

Lemma py_sort_length (l : list Q) : length (py_sort l) = length l.
Proof.
  induction l as [|x l IH]; simpl; [reflexivity|].
  rewrite insert_sorted_length. congruence.
Qed.

Lemma insert_sorted_perm (x : Q) (l : list Q) :
  Permutation (x :: l) (insert_sorted x l).
Proof.
  induction l as [|y l IH]; simpl; [reflexivity|].
  destruct (Qle_bool x y); [reflexivity|].
  rewrite perm_swap. now constructor.
Qed.

Lemma py_sort_perm (l : list Q) : Permutation l (py_sort l).
Proof.
  induction l as [|x l IH]; simpl; [constructor|].
  rewrite <- insert_sorted_perm. now constructor.
Qed.

Lemma insert_sorted_sorted (x : Q) (l : list Q) :
  Sorted Qle l -> Sorted Qle (insert_sorted x l).
Proof.
  induction 1 as [|y l HS IH Hhd]; simpl.
  - repeat constructor.
  - destruct (Qle_bool x y) eqn:E.
    + apply Qle_bool_iff in E. repeat constructor; assumption.
    + apply Qle_bool_false in E. constructor; [exact IH|].
      destruct l as [|z l]; simpl.
      * constructor. now apply Qlt_le_weak.
      * inversion Hhd; subst.
        destruct (Qle_bool x z); constructor;
          [now apply Qlt_le_weak | assumption].
Qed.

Lemma py_sort_sorted (l : list Q) : Sorted Qle (py_sort l).
Proof.
  induction l as [|x l IH]; simpl; [constructor|].
  now apply insert_sorted_sorted.
Qed.

End Numeric.

(* ================================================================== *)
(** * Python strings *)
(* ================================================================== *)

Module PyString.
Local Open Scope string_scope.

(** [sub in s] *)
Fixpoint contains (sub s : string) : bool :=
  if String.prefix sub s then true
  else match s with
       | EmptyString => false
       | String _ s' => contains sub s'
       end.

Definition lower_ascii (c : ascii) : ascii :=
  let n := nat_of_ascii c in
  if ((65 <=? n) && (n <=? 90))%nat then ascii_of_nat (n + 32) else c.

(** [s.lower()] on ASCII text *)
Fixpoint lower (s : string) : string :=
  match s with
  | EmptyString => EmptyString
  | String c s' => String (lower_ascii c) (lower s')
  end.

(** [d.get(key)] on a dictionary kept in insertion order *)
Fixpoint lookup {A} (key : string) (d : list (string * A)) : option A :=
  match d with
  | [] => None
  | (k, v) :: d' => if String.eqb k key then Some v else lookup key d'
  end.

End PyString.

(* ================================================================== *)
(** * ingest_data.py *)
(* ================================================================== *)

Module Ingest.
Import Numeric PyString.
Local Open Scope string_scope.

(** Filename keywords and the categories they stand for, in the order of the
    source's dictionary. *)
Definition CATEGORY_MAPPING : list (string * string) :=
  [ ("assault", "Assault");
    ("auto_theft", "Auto Theft");
    ("bicycle", "Bicycle Theft");
    ("break_and_enter", "Break and Enter");
    ("homicide", "Homicide");
    ("robbery", "Robbery");
    ("shooting", "Shooting");
    ("theft_from_motor_vehicle", "Theft From Motor Vehicle");
    ("theft_over", "Theft Over");
    ("hate_crime", "Hate Crime") ].

(** ** The [crimes] table *)

(** The nine values of one [INSERT]. *)
Record Record9 := mkRecord {
  rec_event_unique_id : string;
  rec_date : string;
  rec_lat : Q;
  rec_lon : Q;
  rec_category : string;
  rec_type : string;
  rec_premises_type : string;
  rec_neighbourhood : string;
  rec_source_file : string
}.

(** A row of the table: the autoincremented key and the inserted values. *)
Record Incident := mkIncident {
  id : nat;
  columns : Record9
}.

Definition event_unique_id (r : Incident) : string := rec_event_unique_id (columns r).
Definition date (r : Incident) : string := rec_date (columns r).
Definition lat (r : Incident) : Q := rec_lat (columns r).
Definition lon (r : Incident) : Q := rec_lon (columns r).
Definition category (r : Incident) : string := rec_category (columns r).

(** The table in insertion order.  Nothing deletes from it, so the next key
    is one more than the number of rows. *)
Definition Table := list Incident.

(** [UNIQUE(event_unique_id)]: is the key taken? *)
Definition has_event (tbl : Table) (eid : string) : bool :=
  existsb (fun r => String.eqb (event_unique_id r) eid) tbl.

(** [INSERT OR IGNORE INTO crimes (...) VALUES (...)] for one record. *)
Definition insert_or_ignore (tbl : Table) (rec : Record9) : Table :=
  if has_event tbl (rec_event_unique_id rec) then tbl
  else (tbl ++ [mkIncident (S (length tbl)) rec])%list.

(** [cursor.executemany] of that statement. *)
Definition executemany (tbl : Table) (records : list Record9) : Table :=
  fold_left insert_or_ignore records tbl.

(** ** Cells of a data frame *)

(** What [row.get(column)] gives: [None] when the file has no such column,
    NaN for an empty cell, a value otherwise. *)
Inductive Cell (A : Type) :=
| NoColumn
| NaN
| Val (a : A).
Arguments NoColumn {A}.
Arguments NaN {A}.
Arguments Val {A} a.

(** [pd.isna] *)
Definition isna {A} (c : Cell A) : bool :=
  match c with Val _ => false | _ => true end.

(** [if pd.isna(x): x = y] *)
Definition or_else {A} (x y : Cell A) : Cell A := if isna x then y else x.

(** [str(x)] of a text cell *)
Definition str_cell (c : Cell string) : string :=
  match c with
  | NoColumn => "None"
  | NaN => "nan"
  | Val s => s
  end.

Record CsvRow := mkCsvRow {
  LAT_WGS84 : Cell Q;
  Latitude : Cell Q;
  LONG_WGS84 : Cell Q;
  Longitude : Cell Q;
  OCC_DATE : Cell string;
  OCC_date : Cell string;
  REPORT_DATE : Cell string;
  OCC_HOUR : Cell Q;
  MCI_CATEGORY : Cell string;
  OFFENCE : Cell string;
  PRIMARY_OFFENCE : Cell string;
  PREMISES_TYPE : Cell string;
  NEIGHBOURHOOD_158 : Cell string;
  NEIGHBOURHOOD_140 : Cell string;
  EVENT_UNIQUE_ID : Cell string;
  OBJECTID : Cell string
}.

(** ** GeoJSON features *)

Record Geometry := mkGeometry {
  geom_type : option string;
  coordinates : option (list Q)
}.

Record Properties := mkProperties {
  prop_OCC_DATE : option string;
  prop_HOMICIDE_TYPE : option string;
  prop_EVENT_UNIQUE_ID : option string;
  prop_NEIGHBOURHOOD_158 : option string
}.

Record Feature := mkFeature {
  properties : Properties;
  geometry : Geometry
}.

(** [str(x)] of an optional property *)
Definition str_opt (o : option string) : string :=
  match o with Some s => s | None => "None" end.

(** ** Dates *)

(** [dateutil] and [datetime]: the lenient parser (nothing when it raises),
    [dt.replace(hour=h, minute=0, second=0)] (nothing when it raises) and
    [str(dt)]. *)
Class DateLibrary := {
  datetime : Type;
  dateutil_parse : string -> option datetime;
  replace_hour : datetime -> Z -> option datetime;
  datetime_str : datetime -> string
}.

Section Ingestion.
Context {dates : DateLibrary}.

Definition parse_date (date_str : string) : option datetime :=
  dateutil_parse date_str.

(** The fallback category: the first keyword found in the lowered file name. *)
Fixpoint first_keyword (mapping : list (string * string)) (base_name : string)
  : string :=
  match mapping with
  | [] => "Other"
  | (key, val) :: mapping' =>
      if contains key base_name then val else first_keyword mapping' base_name
  end.

Definition file_category_of (file_name : string) : string :=
  first_keyword CATEGORY_MAPPING (lower file_name).

(** The body of the loop over the rows of a CSV file: the record to insert, or
    nothing when the row is skipped. *)
Definition csv_record (file_name : string) (row : CsvRow) : option Record9 :=
  let file_category := file_category_of file_name in
  let lat := or_else (LAT_WGS84 row) (Latitude row) in
  let lon := or_else (LONG_WGS84 row) (Longitude row) in
  match lat, lon with
  | Val lat, Val lon =>
      if Qeq_bool lat 0 || Qeq_bool lon 0 then None
      else
        let date_str :=
          or_else (or_else (OCC_DATE row) (OCC_date row)) (REPORT_DATE row) in
        match parse_date (str_cell date_str) with
        | None => None
        | Some dt =>
            let dt :=
              match OCC_HOUR row with
              | Val occ_hour =>
                  match replace_hour dt (py_int occ_hour) with
                  | Some dt' => dt'
                  | None => dt
                  end
              | _ => dt
              end in
            let category :=
              match MCI_CATEGORY row with
              | Val c => if String.eqb c "NonMCI" then file_category else c
              | _ => file_category
              end in
            let crime_type :=
              match or_else (OFFENCE row) (PRIMARY_OFFENCE row) with
              | Val t => t
              | _ => category
              end in
            let premises :=
              match PREMISES_TYPE row with Val p => p | _ => "Unknown" end in
            let hood :=
              match or_else (NEIGHBOURHOOD_158 row) (NEIGHBOURHOOD_140 row) with
              | Val h => h
              | _ => "Unknown"
              end in
            let event_id := or_else (EVENT_UNIQUE_ID row) (OBJECTID row) in
            Some (mkRecord (str_cell event_id) (datetime_str dt) lat lon
                           category crime_type premises hood file_name)
        end
  | _, _ => None
  end.

Fixpoint csv_records (file_name : string) (rows : list CsvRow) : list Record9 :=
  match rows with
  | [] => []
  | row :: rows' =>
      match csv_record file_name row with
      | Some rec => rec :: csv_records file_name rows'
      | None => csv_records file_name rows'
      end
  end.

(** [ingest_csv] on a file that was read: [file_name] is its base name. *)
Definition ingest_csv (file_name : string) (rows : list CsvRow) (tbl : Table)
  : Table :=
  executemany tbl (csv_records file_name rows).

(** The body of the loop over the features of a GeoJSON file. *)
Definition geojson_record (file_name : string) (feature : Feature)
  : option Record9 :=
  let props := properties feature in
  let geom := geometry feature in
  match geom_type geom with
  | Some "Point" =>
      match coordinates geom with
      | Some (lon :: lat :: _) =>
          let dt := parse_date (str_opt (prop_OCC_DATE props)) in
          let category :=
            match prop_HOMICIDE_TYPE props with
            | Some "" | None => "Homicide"
            | Some c => c
            end in
          let crime_type := category in
          let hood :=
            match prop_NEIGHBOURHOOD_158 props with
            | Some h => h
            | None => "Unknown"
            end in
          Some (mkRecord (str_opt (prop_EVENT_UNIQUE_ID props))
                         (match dt with
                          | Some d => datetime_str d
                          | None => "None"
                          end)
                         lat lon category crime_type "Unknown" hood file_name)
      | _ => None
      end
  | _ => None
  end.

Fixpoint geojson_records (file_name : string) (features : list Feature)
  : list Record9 :=
  match features with
  | [] => []
  | f :: features' =>
      match geojson_record file_name f with
      | Some rec => rec :: geojson_records file_name features'
      | None => geojson_records file_name features'
      end
  end.

Definition ingest_geojson (file_name : string) (features : list Feature)
                          (tbl : Table) : Table :=
  executemany tbl (geojson_records file_name features).

(** What the specification asks of a stored row: coordinates that are not
    zero and a date that is the text of a parsed occurrence date. *)
Definition well_located (rec : Record9) : Prop :=
  ~ rec_lat rec == 0 /\ ~ rec_lon rec == 0.

Definition well_dated (rec : Record9) : Prop :=
  exists dt : datetime, rec_date rec = datetime_str dt.

End Ingestion.

(** ** Facts about the table *)

Lemma has_event_app (tbl tbl' : Table) (eid : string) :
  has_event (tbl ++ tbl')%list eid = has_event tbl eid || has_event tbl' eid.
Proof. unfold has_event. apply existsb_app. Qed.

Lemma insert_or_ignore_keeps (tbl : Table) (rec : Record9) (eid : string) :
  has_event tbl eid = true -> has_event (insert_or_ignore tbl rec) eid = true.
Proof.
  intro H. unfold insert_or_ignore.
  destruct (has_event tbl (rec_event_unique_id rec)); [exact H|].
  rewrite has_event_app, H. reflexivity.
Qed.

Lemma insert_or_ignore_present (tbl : Table) (rec : Record9) :
  has_event (insert_or_ignore tbl rec) (rec_event_unique_id rec) = true.
Proof.
  unfold insert_or_ignore.
  destruct (has_event tbl (rec_event_unique_id rec)) eqn:E; [exact E|].
  rewrite has_event_app. apply orb_true_iff. right.
  unfold has_event, event_unique_id. simpl.
  rewrite String.eqb_refl. reflexivity.
Qed.

Lemma executemany_keeps (records : list Record9) (tbl : Table) (eid : string) :
  has_event tbl eid = true -> has_event (executemany tbl records) eid = true.
Proof.
  unfold executemany. revert tbl.
  induction records as [|rec records IH]; intros tbl H; simpl; [exact H|].
  apply IH. now apply insert_or_ignore_keeps.
Qed.

(** After a bulk insert every submitted key is in the table. *)
Lemma executemany_present (records : list Record9) (tbl : Table) (rec : Record9) :
  In rec records ->
  has_event (executemany tbl records) (rec_event_unique_id rec) = true.
Proof.
  revert tbl. induction records as [|r records IH]; intros tbl Hin.
  - destruct Hin.
  - destruct Hin as [->|Hin].
    + change (executemany tbl (rec :: records))
        with (executemany (insert_or_ignore tbl rec) records).
      apply executemany_keeps, insert_or_ignore_present.
    + apply (IH (insert_or_ignore tbl r) Hin).
Qed.

(** A bulk insert of keys that are all taken changes nothing. *)
Lemma executemany_all_taken (records : list Record9) (tbl : Table) :
  (forall rec, In rec records ->
               has_event tbl (rec_event_unique_id rec) = true) ->
  executemany tbl records = tbl.
Proof.
  unfold executemany.
  induction records as [|r records IH]; intro H; simpl; [reflexivity|].
  unfold insert_or_ignore at 2. rewrite (H r (or_introl eq_refl)).
  apply IH. intros rec Hin. apply H. now right.
Qed.

(** A row found after a bulk insert was there before or was submitted. *)
Lemma executemany_origin (records : list Record9) (tbl : Table) (row : Incident) :
  In row (executemany tbl records) ->
  In row tbl \/ In (columns row) records.
Proof.
  unfold executemany. revert tbl.
  induction records as [|r records IH]; intros tbl H; simpl in *.
  - now left.
  - apply IH in H. destruct H as [H|H]; [|now right; right].
    unfold insert_or_ignore in H.
    destruct (has_event tbl (rec_event_unique_id r)); [now left|].
    apply in_app_or in H. destruct H as [H|[<-|[]]]; [now left|].
    right. left. reflexivity.
Qed.

Section IngestionFacts.
Context {dates : DateLibrary}.

Lemma csv_records_In (file_name : string) (rows : list CsvRow) (rec : Record9) :
  In rec (csv_records file_name rows) ->
  exists row, In row rows /\ csv_record file_name row = Some rec.
Proof.
  induction rows as [|row rows IH]; simpl; [intros []|].
  destruct (csv_record file_name row) as [rec'|] eqn:E.
  - intros [<-|H].
    + exists row. split; [now left|exact E].
    + destruct (IH H) as [row' [Hin Hrec]]. exists row'. split; [now right|exact Hrec].
  - intro H. destruct (IH H) as [row' [Hin Hrec]].
    exists row'. split; [now right|exact Hrec].
Qed.

(** The tabular path keeps a row only with non-zero coordinates and a parsed
    date. *)
Lemma csv_record_valid (file_name : string) (row : CsvRow) (rec : Record9) :
  csv_record file_name row = Some rec -> well_located rec /\ well_dated rec.
Proof.
  unfold csv_record, well_located, well_dated.
  destruct (or_else (LAT_WGS84 row) (Latitude row)) as [| |la]; try discriminate.
  destruct (or_else (LONG_WGS84 row) (Longitude row)) as [| |lo]; try discriminate.
  destruct (Qeq_bool la 0) eqn:Ela; [discriminate|].
  destruct (Qeq_bool lo 0) eqn:Elo; [discriminate|]. simpl.
  destruct (parse_date _) as [dt|]; [|discriminate].
  intro H. injection H as <-. simpl.
  apply Qeq_bool_neq in Ela, Elo.
  split; [split; assumption|]. eexists. reflexivity.
Qed.

Lemma ingest_csv_rows_valid (file_name : string) (rows : list CsvRow)
                            (tbl : Table) (r : Incident) :
  In r (ingest_csv file_name rows tbl) ->
  In r tbl \/ (well_located (columns r) /\ well_dated (columns r)).
Proof.
  intro H. apply executemany_origin in H. destruct H as [H|H]; [now left|].
  right. apply csv_records_In in H. destruct H as [row [_ Hrec]].
  now apply csv_record_valid in Hrec.
Qed.

(** C8.  Tabular ingestion is idempotent: a second run over the same file
    leaves the table as the first run left it, and a record whose
    [event_unique_id] is already in the table is skipped, the table being
    returned as it was (no error, no overwrite). *)
Theorem ingest_csv_idempotent (file_name : string) (rows : list CsvRow)
                              (tbl : Table) :
  ingest_csv file_name rows (ingest_csv file_name rows tbl)
    = ingest_csv file_name rows tbl
  /\ (forall rec, has_event tbl (rec_event_unique_id rec) = true ->
                  insert_or_ignore tbl rec = tbl).
Proof.
  split.
  - unfold ingest_csv. apply executemany_all_taken.
    intros rec Hin. now apply executemany_present.
  - intros rec H. unfold insert_or_ignore. rewrite H. reflexivity.
Qed.

(** C1.  The GeoJSON path stores what the tabular path drops: a point feature
    at [0, 0] is inserted with [lat = 0] and [lon = 0], and a feature without
    a parsable date is inserted with whatever text the failed parse leaves
    (the text [None] when the parser rejects it). *)
Theorem ingest_geojson_keeps_invalid_rows :
  let at_origin :=
    mkFeature (mkProperties (Some "2024-03-01") None (Some "GO-1") None)
              (mkGeometry (Some "Point") (Some [0; 0])) in
  let undated :=
    mkFeature (mkProperties None None (Some "GO-2") None)
              (mkGeometry (Some "Point") (Some [-(7938 # 100); 4365 # 100])) in
  (exists d, ingest_geojson "Homicides.geojson" [at_origin] []
     = [mkIncident 1 (mkRecord "GO-1" d 0 0 "Homicide" "Homicide"
                               "Unknown" "Unknown" "Homicides.geojson")])
  /\ ingest_geojson "Homicides.geojson" [undated] []
     = [mkIncident 1 (mkRecord "GO-2"
                               (match dateutil_parse "None" with
                                | Some d => datetime_str d
                                | None => "None"
                                end)
                               (4365 # 100) (-(7938 # 100))
                               "Homicide" "Homicide"
                               "Unknown" "Unknown" "Homicides.geojson")].
Proof.
  split.
  - eexists. reflexivity.
  - reflexivity.
Qed.

End IngestionFacts.

End Ingest.

(* ================================================================== *)
(** * forecasting.py *)
(* ================================================================== *)

Module Forecasting.
Import Numeric.

(** One entry of the yearly history, [{year, safety_score, incident_count}].
    The year is the integer the source reads back with [int(h['year'])]. *)
Record HistoryEntry := mkHistory {
  year : Z;
  safety_score : Q;
  incident_count : Z
}.

(** The dictionary a fitted model returns. *)
Record ModelFit := mkFit {
  fit_predicted_score : Q;
  fit_rmse : Q;
  fit_confidence_interval : Q
}.

Inductive TrendDirection := Improving | Declining | Stable.

(** [confidence_interval] is the number [0] on the two early returns and a
    string made of a sign prefix and the model's interval otherwise. *)
Inductive ConfidenceInterval :=
| CINumber (n : Q)
| CIPlusMinus (ci : Q).

Record Forecast := mkForecast {
  predicted_score : Q;
  trend_direction : TrendDirection;
  model_used : string;
  rmse : Q;
  confidence_interval : ConfidenceInterval
}.

(** A model that was fitted, tagged with its name: [{'model': name, **forecast}]. *)
Record NamedFit := mkNamed {
  model : string;
  fit : ModelFit
}.

(** The numerical libraries behind the models (statsmodels, scikit-learn,
    numpy).  Each fit yields the raw forecast value and the root mean squared
    error of the fit, or nothing when the library raises. *)
Class StatsLibrary := {
  (** [ExponentialSmoothing(series, trend='add').fit()] *)
  holt_model : list Q -> option (Q * Q);
  (** [seasonal_decompose(series, period=...)] and the line through its trend;
      nothing also when fewer than two trend points are valid *)
  seasonal_trend_model : list Q -> nat -> option (Q * Q);
  (** [LinearRegression().fit(years, scores)], predicted at the given year *)
  linear_regression_model : list Z -> list Q -> Z -> option (Q * Q);
  (** the same on [PolynomialFeatures(degree)] *)
  polynomial_model : nat -> list Z -> list Q -> Z -> option (Q * Q);
  (** [np.sqrt] *)
  np_sqrt : Q -> Q
}.

(** The dictionary every model builds from its forecast and its error:
    [round(max(0, min(100, forecast_val)), 1)], [round(rmse, 2)],
    [round(1.96 * rmse, 1)]. *)
Definition fit_result (forecast_val rmse_val : Q) : ModelFit :=
  {| fit_predicted_score := py_round1 (clamp_0_100 forecast_val);
     fit_rmse := py_round2 rmse_val;
     fit_confidence_interval := py_round1 ((196 # 100) * rmse_val) |}.

Definition series_of (history : list HistoryEntry) : list Q :=
  map safety_score history.

Definition years_of (history : list HistoryEntry) : list Z :=
  map year history.

(** [l[-n:]] *)
Definition last_n {A} (n : nat) (l : list A) : list A :=
  skipn (length l - n) l.

(** [l[i-n:i]] for [n <= i] *)
Definition window_before {A} (n i : nat) (l : list A) : list A :=
  firstn n (skipn (i - n) l).

(** sklearn's [mean_squared_error]. *)
Definition mean_squared_error (y_true y_pred : list Q) : Q :=
  Qsum (map (fun p => (fst p - snd p) * (fst p - snd p)) (combine y_true y_pred))
  / inject_Z (Z.of_nat (length y_true)).

Section Models.
Context {lib : StatsLibrary}.

Definition fit_holt (history : list HistoryEntry) : option ModelFit :=
  if (length history <? 3)%nat then None
  else match holt_model (series_of history) with
       | Some (forecast_val, e) => Some (fit_result forecast_val e)
       | None => None
       end.

Definition fit_linear_regression (history : list HistoryEntry) : option ModelFit :=
  if (length history <? 3)%nat then None
  else
    let years := years_of history in
    let next_year := (last years 0 + 1)%Z in
    match linear_regression_model years (series_of history) next_year with
    | Some (forecast_val, e) => Some (fit_result forecast_val e)
    | None => None
    end.

Definition fit_polynomial (history : list HistoryEntry) : option ModelFit :=
  if (length history <? 4)%nat then None
  else
    let years := years_of history in
    let next_year := (last years 0 + 1)%Z in
    match polynomial_model 2 years (series_of history) next_year with
    | Some (forecast_val, e) => Some (fit_result forecast_val e)
    | None => None
    end.

Definition fit_seasonal_decompose (history : list HistoryEntry) : option ModelFit :=
  if (length history <? 6)%nat then None
  else
    let series := series_of history in
    match seasonal_trend_model series (Nat.min 3 (length series / 2)) with
    | Some (forecast_val, e) => Some (fit_result forecast_val e)
    | None => None
    end.

Definition fit_moving_average (history : list HistoryEntry) : option ModelFit :=
  let window := 3%nat in
  if (length history <? window)%nat then None
  else
    let series := series_of history in
    let recent := last_n window series in
    let forecast_val := Qsum recent / inject_Z (Z.of_nat (length recent)) in
    let predictions :=
      map (fun i => Qsum (window_before window i series) / inject_Z (Z.of_nat window))
          (seq window (length series - window)) in
    let e := match predictions with
             | [] => 5
             | _ => np_sqrt (mean_squared_error (skipn window series) predictions)
             end in
    Some (fit_result forecast_val e).

(** The active models, in the order of the source's list. *)
Definition models : list (string * (list HistoryEntry -> option ModelFit)) :=
  [ ("Seasonal Decomp"%string, fit_seasonal_decompose);
    ("Holt (Exp Smoothing)"%string, fit_holt);
    ("Polynomial Reg"%string, fit_polynomial);
    ("Linear Regression"%string, fit_linear_regression);
    ("Moving Average"%string, fit_moving_average) ].

(** The loop that collects the models that produced a forecast. *)
Fixpoint run_models (ms : list (string * (list HistoryEntry -> option ModelFit)))
                    (history : list HistoryEntry) : list NamedFit :=
  match ms with
  | [] => []
  | (name, fit_func) :: ms' =>
      match fit_func history with
      | Some forecast => mkNamed name forecast :: run_models ms' history
      | None => run_models ms' history
      end
  end.

(** [min(results, key=lambda x: x['rmse'])]: the first entry of least error. *)
Fixpoint min_by_rmse (best : NamedFit) (rest : list NamedFit) : NamedFit :=
  match rest with
  | [] => best
  | r :: rest' =>
      if Qltb (fit_rmse (fit r)) (fit_rmse (fit best))
      then min_by_rmse r rest'
      else min_by_rmse best rest'
  end.

Definition empty_entry : HistoryEntry := mkHistory 0 0 0.

(** [history[-1]['safety_score']] *)
Definition current_score_of (history : list HistoryEntry) : Q :=
  safety_score (last history empty_entry).

(** [history[-2]['safety_score'] if len(history) > 1 else current] *)
Definition previous_score_of (history : list HistoryEntry) : Q :=
  if (1 <? length history)%nat
  then safety_score (nth (length history - 2) history empty_entry)
  else current_score_of history.

(** The heuristic that gives a strong recent swing priority over the model:
    the prediction after the override, and the forced trend if any. *)
Definition trend_override (recent_diff predicted current : Q)
  : Q * option TrendDirection :=
  if Qltb 10 recent_diff then
    if Qltb predicted current then (current, Some Improving)
    else (predicted, None)
  else if Qltb recent_diff (-10) then
    if Qltb current predicted then (current, Some Declining)
    else (predicted, None)
  else (predicted, None).

Definition final_trend (override : option TrendDirection) (predicted current : Q)
  : TrendDirection :=
  match override with
  | Some t => t
  | None =>
      if Qltb (current + 2) predicted then Improving
      else if Qltb predicted (current - 2) then Declining
      else Stable
  end.

Definition select_best_forecast (history : list HistoryEntry) : Forecast :=
  if (length history <? 3)%nat then
    let last_score := match history with
                      | [] => 50
                      | _ => current_score_of history
                      end in
    mkForecast last_score Stable "Insufficient Data" 0 (CINumber 0)
  else
    match run_models models history with
    | [] =>
        mkForecast (current_score_of history) Stable "Fallback" 0 (CINumber 0)
    | r :: results =>
        let best := min_by_rmse r results in
        let current := current_score_of history in
        let previous := previous_score_of history in
        let recent_diff := current - previous in
        let (predicted, override) :=
          trend_override recent_diff (fit_predicted_score (fit best)) current in
        mkForecast predicted
                   (final_trend override predicted current)
                   (model (best) ++
                      match override with
                      | Some _ => " (Adjusted)"
                      | None => ""
                      end)%string
                   (fit_rmse (fit best))
                   (CIPlusMinus (fit_confidence_interval (fit best)))
    end.

End Models.

(** ** Facts *)

(** A library whose every fit forecasts [v] with error [e]; the models are
    then told apart by their data requirements alone. *)
Definition constant_library (v e : Q) : StatsLibrary :=
  {| holt_model := fun _ => Some (v, e);
     seasonal_trend_model := fun _ _ => Some (v, e);
     linear_regression_model := fun _ _ _ => Some (v, e);
     polynomial_model := fun _ _ _ _ => Some (v, e);
     np_sqrt := fun x => x |}.

(** The two-year history of the specification's example. *)
Definition history_2023_2024 : list HistoryEntry :=
  [ mkHistory 2023 60 0; mkHistory 2024 75 0 ].

Definition history_2022_2024 : list HistoryEntry :=
  [ mkHistory 2022 58 0; mkHistory 2023 60 0; mkHistory 2024 75 0 ].

Lemma short_history_insufficient (lib : StatsLibrary) (history : list HistoryEntry) :
  (0 < length history < 3)%nat ->
  select_best_forecast history
  = mkForecast (current_score_of history) Stable "Insufficient Data" 0 (CINumber 0).
Proof.
  intro H. unfold select_best_forecast.
  destruct (Nat.ltb_spec (length history) 3) as [_|Hge]; [|lia].
  destruct history; [simpl in H; lia|reflexivity].
Qed.

(** C6 (as the code has it).  Once the history has at least three entries and
    some model produced a forecast, a rise of more than 10 points in the last
    year together with a selected prediction below the current score returns
    the current score, [Improving], and the model's name followed by
    " (Adjusted)"; a fall of more than 10 points with a prediction above the
    current score returns the current score and [Declining] in the same way.
    The two-entry history 2023: 60, 2024: 75 is too short for any model: it
    returns 75 with [Stable] and the name "Insufficient Data". *)
Theorem select_best_forecast_override (lib : StatsLibrary) :
  (forall (history : list HistoryEntry) (r : NamedFit) (results : list NamedFit),
      (3 <= length history)%nat ->
      run_models models history = r :: results ->
      let best := min_by_rmse r results in
      let current := current_score_of history in
      let diff := current - previous_score_of history in
      (10 < diff -> fit_predicted_score (fit best) < current ->
       select_best_forecast history
       = mkForecast current Improving (model best ++ " (Adjusted)")
                    (fit_rmse (fit best))
                    (CIPlusMinus (fit_confidence_interval (fit best))))
      /\
      (diff < -10 -> current < fit_predicted_score (fit best) ->
       select_best_forecast history
       = mkForecast current Declining (model best ++ " (Adjusted)")
                    (fit_rmse (fit best))
                    (CIPlusMinus (fit_confidence_interval (fit best)))))
  /\ select_best_forecast history_2023_2024
     = mkForecast 75 Stable "Insufficient Data" 0 (CINumber 0).
Proof.
  split; [|reflexivity].
  intros history r results Hlen Hrun best current diff.
  unfold select_best_forecast.
  destruct (Nat.ltb_spec (length history) 3) as [Hlt|_]; [lia|].
  rewrite Hrun. fold best current. unfold trend_override.
  fold diff.
  split; intros Hdiff Hpred.
  - apply Qltb_lt in Hdiff, Hpred. rewrite Hdiff, Hpred. reflexivity.
  - assert (H10 : Qltb 10 diff = false) by (apply Qltb_ge; lra).
    apply Qltb_lt in Hdiff, Hpred. rewrite H10, Hdiff, Hpred. reflexivity.
Qed.

(** The override at work: three years 58, 60, 75 and models that all
    forecast 55. *)
Lemma select_best_forecast_override_witness :
  let lib := constant_library 55 1 in
  (3 <= length history_2022_2024)%nat
  /\ 10 < current_score_of history_2022_2024 - previous_score_of history_2022_2024
  /\ select_best_forecast history_2022_2024
     = mkForecast 75 Improving "Holt (Exp Smoothing) (Adjusted)" (100 # 100)
                  (CIPlusMinus (20 # 10)).
Proof.
  intro lib.
  split; [simpl; lia|].
  split; [reflexivity|].
  destruct (select_best_forecast_override lib) as [H _].
  destruct (H history_2022_2024
              (hd (mkNamed "" (mkFit 0 0 0)) (run_models models history_2022_2024))
              (tl (run_models models history_2022_2024))
              ltac:(simpl; lia) eq_refl) as [Hup _].
  rewrite Hup; reflexivity.
Defined.

(** C6 as stated fails on its own example: with every model forecasting 55,
    the history 2023: 60, 2024: 75 is answered before any model or override
    runs, with [Stable] and "Insufficient Data". *)
Lemma select_best_forecast_two_entries :
  select_best_forecast (lib := constant_library 55 1) history_2023_2024
  = mkForecast 75 Stable "Insufficient Data" 0 (CINumber 0)
  /\ trend_direction
       (select_best_forecast (lib := constant_library 55 1) history_2023_2024)
     <> Improving.
Proof.
  split; [reflexivity|discriminate].
Qed.

End Forecasting.

(* ================================================================== *)
(** * What the scoring code and the grid generator take from outside *)
(* ================================================================== *)

Module Platform.

(** numpy on floats.  [great_circle_km lat lon lat' lon'] is the haversine
    formula both modules spell out with [np.sin], [np.cos], [np.arctan2] and
    [np.sqrt] and the radius 6371. *)
Class NumPy := {
  np_exp : Q -> Q;
  np_cos_radians : Q -> Q;
  great_circle_km : Q -> Q -> Q -> Q -> Q
}.

(** The clock and what pandas reads from a stored date text at that time. *)
Class Clock := {
  (** SQLite's [date('now', '-N years')] *)
  sql_date_years_ago : nat -> string;
  (** [pd.Timestamp.now(tz='UTC').year] *)
  now_year : Z;
  (** [(now - pd.to_datetime(text, format='mixed', utc=True)).days];
      nothing when [to_datetime] raises *)
  pd_days_old : string -> option Z;
  (** the hour of the date in Toronto time *)
  local_hour : string -> Z
}.

End Platform.

(* ================================================================== *)
(** * scoring.py *)
(* ================================================================== *)

Module Scoring.
Import Numeric PyString Platform.
Local Open Scope string_scope.

(** Weights of the crime categories, in the order of the source's dictionary. *)
Definition WEIGHTS : list (string * Q) :=
  [ ("Homicide", 100);
    ("Shooting", 50);
    ("Assault", 15);
    ("Robbery", 10);
    ("Break and Enter", 8);
    ("Auto Theft", 6);
    ("Theft Over", 4);
    ("Theft From Motor Vehicle", 3);
    ("Bicycle Theft", 2);
    ("NonMCI", 2);
    ("Other", 1) ].

(** [benchmarks.json] as loaded; a missing file or key reads as empty. *)
Record Baseline := mkBaseline {
  overall_distribution : list Q;
  by_category : list (string * list Q)
}.

Definition no_baseline : Baseline := mkBaseline [] [].

Definition percentile_to_safety_score (percentile : Q) : Q :=
  if Qle_bool percentile 50 then
    100 - (percentile / 50) * 10
  else if Qle_bool percentile 80 then
    let progress := (percentile - 50) / 30 in
    90 - (progress * 20)
  else if Qle_bool percentile 95 then
    let progress := (percentile - 80) / 15 in
    70 - (progress * 30)
  else
    let progress := (percentile - 95) / 5 in
    40 - (progress * 40).

(** Returns [(safety_score, percentile)]. *)
Definition calculate_percentile_score (raw_score : Q) (distribution : list Q)
  : Q * Q :=
  match distribution with
  | [] => (50, 50)
  | _ =>
      if Qle_bool raw_score 0 then (100, 0)
      else
        let idx := bisect_left distribution raw_score in
        let percentile :=
          (inject_Z (Z.of_nat idx) / inject_Z (Z.of_nat (length distribution)))
          * 100 in
        let safety_score := percentile_to_safety_score percentile in
        (py_round1 safety_score, py_round1 percentile)
  end.


(** Limits and continuity of a function on the rationals. *)
Definition left_limit (f : Q -> Q) (b v : Q) : Prop :=
  forall eps, 0 < eps ->
  exists delta, 0 < delta /\
    forall p, b - delta < p -> p < b -> Qabs (f p - v) < eps.

Definition continuous_at (f : Q -> Q) (b : Q) : Prop :=
  forall eps, 0 < eps ->
  exists delta, 0 < delta /\
    forall p, Qabs (p - b) < delta -> Qabs (f p - f b) < eps.

(** ** The data frame of a query *)

(** A fetched incident with the two columns the pre-processing adds. *)
Record Row := mkRow {
  incident : Ingest.Incident;
  days_old : Z;
  weight : Q
}.

Definition row_category (r : Row) : string := Ingest.category (incident r).
Definition row_date (r : Row) : string := Ingest.date (incident r).
Definition row_type (r : Row) : string := Ingest.rec_type (Ingest.columns (incident r)).

Inductive Trend := Up | Down | Stable.

Record CategoryEntry := mkCategoryEntry {
  entry_safety_score : Q;
  category_percentile : Q;
  entry_incident_count : nat;
  city_avg_incidents : Z;
  trend : Trend;
  weighted_impact : Q;
  top_subtypes : list (string * Z)
}.

(** pandas beyond filtering and summing: [value_counts().head(n)] of a text
    column, and the [insights] dictionary (safety clock, weekly and monthly
    patterns, peak hours, primary risk, neighbourhood, premises) built from
    the current rows and the category breakdown. *)
Class Pandas := {
  value_counts_head : nat -> list string -> list (string * Z);
  Insights : Type;
  insights_of : list Row -> list (string * CategoryEntry) -> Insights
}.

Record TemporalBreakdown := mkTemporal {
  day_safety_score : Q;
  night_safety_score : Q
}.

Record RiskTags := mkRiskTags {
  negative : list string;
  positive : list string
}.

Record Benchmark := mkBenchmark {
  status : string;
  city_percentile : Z;
  city_average_score : Q
}.

(** The response; an empty dictionary for [insights] or [forecast] is
    [None]. *)
Record ScoreResponse {pandas : Pandas} := mkResponse {
  current_score : Q;
  overall_percentile : Q;
  history : list Forecasting.HistoryEntry;
  category_breakdown : list (string * CategoryEntry);
  insights : option Insights;
  temporal_breakdown : TemporalBreakdown;
  risk_tags : RiskTags;
  benchmark : Benchmark;
  forecast : option Forecasting.Forecast
}.

(** [df['category'].map(WEIGHTS).fillna(1)] *)
Definition weight_of (category : string) : Q :=
  match lookup category WEIGHTS with
  | Some w => w
  | None => 1
  end.

(** [sorted(history, key=lambda x: int(x['year']))]: a stable sort. *)
Fixpoint insert_by_year (h : Forecasting.HistoryEntry)
                        (l : list Forecasting.HistoryEntry)
  : list Forecasting.HistoryEntry :=
  match l with
  | [] => [h]
  | h' :: l' =>
      if (Forecasting.year h <=? Forecasting.year h')%Z
      then h :: h' :: l'
      else h' :: insert_by_year h l'
  end.

Definition sorted_by_year (l : list Forecasting.HistoryEntry)
  : list Forecasting.HistoryEntry :=
  fold_right insert_by_year [] l.

Section Engine.
Context {numpy : NumPy} {clock : Clock} {stats : Forecasting.StatsLibrary}
        {pandas : Pandas}.
Variable BENCHMARKS : Baseline.

(** The response every early return gives. *)
Definition base_response : ScoreResponse :=
  {| current_score := 100;
     overall_percentile := 0;
     history := [];
     category_breakdown := [];
     insights := None;
     temporal_breakdown := mkTemporal 100 100;
     risk_tags := mkRiskTags [] [];
     benchmark := mkBenchmark "N/A" 0 50;
     forecast := None |}.

(** The bounding-box query over the last ten years. *)
Definition fetch_candidates (tbl : Ingest.Table) (lat lon radius_km : Q)
  : list Ingest.Incident :=
  let lat_delta := radius_km / 111 in
  let lon_delta := radius_km / (111 * np_cos_radians lat) in
  let min_lat := lat - lat_delta in
  let max_lat := lat + lat_delta in
  let min_lon := lon - lon_delta in
  let max_lon := lon + lon_delta in
  filter (fun r =>
            Qle_bool min_lat (Ingest.lat r) && Qle_bool (Ingest.lat r) max_lat
            && (Qle_bool min_lon (Ingest.lon r) && Qle_bool (Ingest.lon r) max_lon)
            && String.leb (sql_date_years_ago 10) (Ingest.date r))
         tbl.

(** [df[df['distance'] <= radius_km]] *)
Definition within_radius (lat lon radius_km : Q) (df : list Ingest.Incident)
  : list Ingest.Incident :=
  filter (fun r =>
            Qle_bool (great_circle_km lat lon (Ingest.lat r) (Ingest.lon r))
                     radius_km)
         df.

(** The pre-processing: dates read by pandas (the whole call raises if one
    does not parse), ages in days, weights. *)
Fixpoint preprocess (df : list Ingest.Incident) : option (list Row) :=
  match df with
  | [] => Some []
  | r :: df' =>
      match pd_days_old (Ingest.date r), preprocess df' with
      | Some d, Some rows =>
          Some (mkRow r d (weight_of (Ingest.category r)) :: rows)
      | _, _ => None
      end
  end.

(** [df[df['days_old'] <= 365]] *)
Definition current_rows (df : list Row) : list Row :=
  filter (fun r => (days_old r <=? 365)%Z) df.

(** The [score] column of the current rows: weight times
    [exp(-0.15 * years_old)]. *)
Definition score (r : Row) : Q :=
  let years_old := inject_Z (days_old r) / (36525 # 100) in
  let time_factor := np_exp (- (15 # 100) * years_old) in
  weight r * time_factor.

Definition overall_dist : list Q := overall_distribution BENCHMARKS.

(** Step 1: the current score and its percentile. *)
Definition current_score_and_percentile (df_current : list Row) : Q * Q :=
  match df_current with
  | [] => (100, 0)
  | _ =>
      let total_raw_risk := Qsum (map score df_current) in
      calculate_percentile_score total_raw_risk overall_dist
  end.

(** Step 2: one entry per trailing year. *)
Definition history_entry (df : list Row) (i : nat) : Forecasting.HistoryEntry :=
  let start_days := (Z.of_nat i * 365)%Z in
  let end_days := ((Z.of_nat i + 1) * 365)%Z in
  let year_label := (now_year - Z.of_nat i)%Z in
  let year_df :=
    filter (fun r => (start_days <=? days_old r)%Z && (days_old r <? end_days)%Z)
           df in
  match year_df with
  | [] => Forecasting.mkHistory year_label 100 0
  | _ =>
      let year_raw_risk := Qsum (map weight year_df) in
      let year_safety := fst (calculate_percentile_score year_raw_risk overall_dist) in
      Forecasting.mkHistory year_label year_safety (Z.of_nat (length year_df))
  end.

Definition history_of (df : list Row) : list Forecasting.HistoryEntry :=
  map (history_entry df) (seq 0 10).

(** Step 4: the body of the loop over [WEIGHTS.keys()]; nothing when the
    category has no current row. *)
Definition category_entry (df_current : list Row) (cat : string) (w : Q)
  : option CategoryEntry :=
  let cat_df := filter (fun r => String.eqb (row_category r) cat) df_current in
  let count := length cat_df in
  if (count =? 0)%nat then None
  else
    let cat_raw_risk := Qsum (map score cat_df) in
    let cat_dist :=
      match lookup cat (by_category BENCHMARKS) with
      | Some d => d
      | None => []
      end in
    let sp := calculate_percentile_score cat_raw_risk cat_dist in
    let city_avg :=
      match cat_dist with
      | [] => 0%Z
      | _ =>
          let non_zero_cat := filter (fun x => Qltb 0 x) cat_dist in
          let city_avg_raw :=
            match non_zero_cat with
            | [] => 0
            | _ => np_median non_zero_cat
            end in
          if Qltb 0 w then py_int (city_avg_raw / w / (9 # 10)) else 0%Z
      end in
    let recent_count :=
      length (filter (fun r => (days_old r <=? 365)%Z) cat_df) in
    let prev_count :=
      length (filter (fun r => (365 <? days_old r)%Z && (days_old r <=? 730)%Z)
                     cat_df) in
    let trend :=
      if (prev_count =? 0)%nat then
        if (0 <? recent_count)%nat then Up else Stable
      else
        let change :=
          (inject_Z (Z.of_nat recent_count) - inject_Z (Z.of_nat prev_count))
          / inject_Z (Z.of_nat prev_count) in
        if Qltb (2 # 10) change then Up
        else if Qltb change (- (2 # 10)) then Down
        else Stable in
    Some {| entry_safety_score := fst sp;
            category_percentile := snd sp;
            entry_incident_count := count;
            city_avg_incidents := city_avg;
            trend := trend;
            weighted_impact := py_round1 cat_raw_risk;
            top_subtypes := value_counts_head 3 (map row_type cat_df) |}.

Fixpoint breakdown_loop (weights : list (string * Q)) (df_current : list Row)
  : list (string * CategoryEntry) :=
  match weights with
  | [] => []
  | (cat, w) :: weights' =>
      match category_entry df_current cat w with
      | Some e => (cat, e) :: breakdown_loop weights' df_current
      | None => breakdown_loop weights' df_current
      end
  end.

Definition category_breakdown_of (df_current : list Row)
  : list (string * CategoryEntry) :=
  match df_current with
  | [] => []
  | _ => breakdown_loop WEIGHTS df_current
  end.

(** Step 5, the temporal breakdown: day is the local hours 6 to 17. *)
Definition is_day (r : Row) : bool :=
  let hour := local_hour (row_date r) in
  (6 <=? hour)%Z && (hour <? 18)%Z.

Definition temporal_breakdown_of (df_current : list Row) : TemporalBreakdown :=
  match df_current with
  | [] => mkTemporal 100 100
  | _ =>
      let day_risk := Qsum (map score (filter is_day df_current)) in
      let night_risk :=
        Qsum (map score (filter (fun r => negb (is_day r)) df_current)) in
      mkTemporal (fst (calculate_percentile_score (day_risk * 2) overall_dist))
                 (fst (calculate_percentile_score (night_risk * 2) overall_dist))
  end.

(** Step 6: the risk tags. *)
Definition risk_tags_of (current_score : Q) (temporal : TemporalBreakdown)
                        (breakdown : list (string * CategoryEntry)) : RiskTags :=
  let tags :=
    ((if Qle_bool 80 current_score then ["High Safety Area"]
      else if Qle_bool current_score 40 then ["High Crime Area"]
      else [])
     ++ (if Qltb (night_safety_score temporal) (day_safety_score temporal - 20)
         then ["Nighttime Risk"] else [])
     ++ map (fun ce => String.append "High " (fst ce))
            (filter (fun ce => Qltb (entry_safety_score (snd ce)) 50) breakdown))%list in
  mkRiskTags (filter (fun t => contains "High" t || contains "Risk" t) tags)
             (filter (fun t => contains "Safe" t) tags).

(** Step 7: the benchmark summary. *)
Definition benchmark_of (current_score : Q) : Benchmark :=
  let percentile := 100 - current_score in
  let status :=
    if Qle_bool 90 current_score then "Very High Safety"
    else if Qle_bool 80 current_score then "High Safety"
    else if Qle_bool 60 current_score then "Moderate Safety"
    else if Qle_bool 40 current_score then "Low Safety"
    else "Very Low Safety" in
  mkBenchmark status (py_int percentile) 50.

(** The response built from the rows within the radius. *)
Definition respond (df : list Row) : ScoreResponse :=
  let df_current := current_rows df in
  let sp := current_score_and_percentile df_current in
  let history := history_of df in
  let breakdown := category_breakdown_of df_current in
  let temporal := temporal_breakdown_of df_current in
  {| current_score := fst sp;
     overall_percentile := snd sp;
     history := history;
     category_breakdown := breakdown;
     insights := match df_current with
                 | [] => None
                 | _ => Some (insights_of df_current breakdown)
                 end;
     temporal_breakdown := temporal;
     risk_tags := risk_tags_of (fst sp) temporal breakdown;
     benchmark := benchmark_of (fst sp);
     forecast := Some (Forecasting.select_best_forecast (sorted_by_year history)) |}.

(** [calculate_score(lat, lon, radius_km)] against the table; nothing when
    pandas cannot read a candidate's date and the call raises. *)
Definition calculate_score (tbl : Ingest.Table) (lat lon radius_km : Q)
  : option ScoreResponse :=
  match fetch_candidates tbl lat lon radius_km with
  | [] => Some base_response
  | df =>
      match within_radius lat lon radius_km df with
      | [] => Some base_response
      | df' =>
          match preprocess df' with
          | Some rows => Some (respond rows)
          | None => None
          end
      end
  end.

(** The rows the response is built from: the candidates within the radius,
    pre-processed. *)
Definition rows_in_radius (tbl : Ingest.Table) (lat lon radius_km : Q)
  : option (list Row) :=
  preprocess (within_radius lat lon radius_km
                            (fetch_candidates tbl lat lon radius_km)).

End Engine.

(** ** Facts about the percentile curve *)


(** The four pieces with their slopes written out. *)
Definition curve_pieces (p : Q) : Q :=
  if Qle_bool p 50 then 100 - (1 # 5) * p
  else if Qle_bool p 80 then 90 - (2 # 3) * (p - 50)
  else if Qle_bool p 95 then 70 - 2 * (p - 80)
  else 40 - 8 * (p - 95).

Lemma percentile_to_safety_score_pieces (p : Q) :
  percentile_to_safety_score p == curve_pieces p.
Proof.
  unfold percentile_to_safety_score, curve_pieces.
  destruct (Qle_bool p 50); [field|].
  destruct (Qle_bool p 80); [field|].
  destruct (Qle_bool p 95); field.
Qed.

Lemma percentile_to_safety_score_monotone (p q : Q) :
  p <= q -> percentile_to_safety_score q <= percentile_to_safety_score p.
Proof.
  intro H. rewrite !percentile_to_safety_score_pieces.
  unfold curve_pieces. qcases; lra.
Qed.

(** The curve never falls faster than 8 points per percentile point. *)
Lemma percentile_to_safety_score_lipschitz (p q : Q) :
  Qabs (percentile_to_safety_score p - percentile_to_safety_score q)
  <= 8 * Qabs (p - q).
Proof.
  apply Qabs_Qle_condition.
  pose proof (Qle_Qabs (p - q)) as H1.
  pose proof (Qle_Qabs (q - p)) as H2.
  assert (Hs : Qabs (q - p) == Qabs (p - q)).
  { rewrite <- Qabs_opp. apply Qabs_wd. ring. }
  rewrite Hs in H2. clear Hs.
  generalize dependent (Qabs (p - q)). intros d H1 H2.
  rewrite !percentile_to_safety_score_pieces.
  unfold curve_pieces. qcases; split; lra.
Qed.

Lemma percentile_to_safety_score_continuous (b : Q) :
  continuous_at percentile_to_safety_score b.
Proof.
  intros eps Heps. exists ((1 # 8) * eps). split; [lra|].
  intros p Hp.
  apply Qle_lt_trans with (8 * Qabs (p - b));
    [apply percentile_to_safety_score_lipschitz|lra].
Qed.

Lemma continuous_left_limit (f : Q -> Q) (b : Q) :
  continuous_at f b -> left_limit f b (f b).
Proof.
  intros Hc eps Heps. destruct (Hc eps Heps) as [delta [Hd H]].
  exists delta. split; [exact Hd|].
  intros p H1 H2. apply H.
  apply Qabs_Qlt_condition. split; lra.
Qed.

Lemma percentile_to_safety_score_range (p : Q) :
  0 <= p <= 100 -> 0 <= percentile_to_safety_score p <= 100.
Proof.
  intros [H0 H100]. rewrite !percentile_to_safety_score_pieces.
  unfold curve_pieces. qcases; split; lra.
Qed.

Lemma left_limit_of_continuous (f : Q -> Q) (b v : Q) :
  continuous_at f b -> f b == v -> left_limit f b v.
Proof.
  intros Hc Hv eps Heps.
  destruct (continuous_left_limit f b Hc eps Heps) as [delta [Hd H]].
  exists delta. split; [exact Hd|].
  intros p H1 H2. specialize (H p H1 H2).
  assert (E : f p - v == f p - f b) by (rewrite Hv; reflexivity).
  rewrite (Qabs_wd _ _ E). exact H.
Qed.

(** ** Facts about the percentile lookup *)

Lemma percent_of_share_bounds (i n : nat) :
  (i <= n)%nat -> (0 < n)%nat ->
  0 <= inject_Z (Z.of_nat i) / inject_Z (Z.of_nat n) * 100 <= 100.
Proof.
  intros Hi Hn.
  assert (Hn' : 0 < inject_Z (Z.of_nat n)).
  { change 0 with (inject_Z 0). rewrite <- Zlt_Qlt. lia. }
  assert (Hi0 : 0 <= inject_Z (Z.of_nat i)).
  { change 0 with (inject_Z 0). rewrite <- Zle_Qle. lia. }
  assert (Hin : inject_Z (Z.of_nat i) <= inject_Z (Z.of_nat n)).
  { rewrite <- Zle_Qle. lia. }
  assert (H0 : 0 <= inject_Z (Z.of_nat i) / inject_Z (Z.of_nat n)).
  { apply Qle_shift_div_l; [exact Hn'|]. lra. }
  assert (H1 : inject_Z (Z.of_nat i) / inject_Z (Z.of_nat n) <= 1).
  { apply Qle_shift_div_r; [exact Hn'|]. lra. }
  generalize dependent (inject_Z (Z.of_nat i) / inject_Z (Z.of_nat n)).
  intros; lra.
Qed.

(** C5.  The percentile-to-safety curve is non-increasing on [0, 100]; it is
    100 at 0, tends to 90 from the left of 50 and is 90 at 50, tends to 70
    from the left of 80 and is 70 at 80, tends to 40 from the left of 95 and
    is 40 at 95, and is 0 at 100; it is continuous at the breakpoints 50, 80
    and 95. *)
Theorem percentile_to_safety_score_curve :
  (forall p q, 0 <= p -> p <= q -> q <= 100 ->
               percentile_to_safety_score q <= percentile_to_safety_score p)
  /\ percentile_to_safety_score 0 == 100
  /\ left_limit percentile_to_safety_score 50 90
  /\ percentile_to_safety_score 50 == 90
  /\ left_limit percentile_to_safety_score 80 70
  /\ percentile_to_safety_score 80 == 70
  /\ left_limit percentile_to_safety_score 95 40
  /\ percentile_to_safety_score 95 == 40
  /\ percentile_to_safety_score 100 == 0
  /\ continuous_at percentile_to_safety_score 50
  /\ continuous_at percentile_to_safety_score 80
  /\ continuous_at percentile_to_safety_score 95.
Proof.
  split.
  { intros p q _ H _. now apply percentile_to_safety_score_monotone. }
  repeat match goal with |- _ /\ _ => split end;
    first [ reflexivity
          | apply percentile_to_safety_score_continuous
          | apply left_limit_of_continuous;
            [apply percentile_to_safety_score_continuous | reflexivity] ].
Qed.

Lemma percentile_to_safety_score_curve_witness :
  0 <= 20 /\ 20 <= 60 /\ 60 <= 100
  /\ percentile_to_safety_score 60 <= percentile_to_safety_score 20.
Proof.
  assert (H0 : 0 <= 20) by (unfold Qle; simpl; lia).
  assert (H1 : 20 <= 60) by (unfold Qle; simpl; lia).
  assert (H2 : 60 <= 100) by (unfold Qle; simpl; lia).
  split; [exact H0|]. split; [exact H1|]. split; [exact H2|].
  exact (proj1 percentile_to_safety_score_curve 20 60 H0 H1 H2).
Defined.

(** C10.  Whatever the raw score and the reference distribution (sorted or
    not), both components of the percentile lookup lie between 0 and 100. *)
Theorem calculate_percentile_score_range (raw_score : Q) (distribution : list Q) :
  0 <= fst (calculate_percentile_score raw_score distribution) <= 100
  /\ 0 <= snd (calculate_percentile_score raw_score distribution) <= 100.
Proof.
  unfold calculate_percentile_score.
  destruct distribution as [|d distribution].
  { simpl. repeat split; unfold Qle; simpl; lia. }
  destruct (Qle_bool raw_score 0).
  { simpl. repeat split; unfold Qle; simpl; lia. }
  set (l := d :: distribution).
  assert (Hp := percent_of_share_bounds (bisect_left l raw_score) (length l)
                  (bisect_left_le_length l raw_score)
                  ltac:(simpl; lia)).
  cbn [fst snd]. split.
  - apply py_round1_bounds. now apply percentile_to_safety_score_range.
  - now apply py_round1_bounds.
Qed.




(** ** Facts about the response *)

Lemma filter_nothing {A} (f : A -> bool) (l : list A) :
  (forall x, In x l -> f x = false) -> filter f l = [].
Proof.
  induction l as [|x l IH]; intro H; simpl; [reflexivity|].
  rewrite (H x (or_introl eq_refl)). apply IH. intros y Hy. apply H. now right.
Qed.

Lemma filter_everything {A} (f : A -> bool) (l : list A) :
  (forall x, In x l -> f x = true) -> filter f l = l.
Proof.
  induction l as [|x l IH]; intro H; simpl; [reflexivity|].
  rewrite (H x (or_introl eq_refl)). f_equal. apply IH.
  intros y Hy. apply H. now right.
Qed.

Lemma lookup_In {A} (key : string) (d : list (string * A)) (v : A) :
  lookup key d = Some v -> In (key, v) d.
Proof.
  induction d as [|[k v'] d IH]; simpl; [discriminate|].
  destruct (String.eqb_spec k key) as [->|Hne].
  - intro H. injection H as ->. now left.
  - intro H. right. now apply IH.
Qed.

Lemma lookup_not_key {A} (key : string) (d : list (string * A)) :
  ~ In key (map fst d) -> lookup key d = None.
Proof.
  induction d as [|[k v] d IH]; simpl; [reflexivity|].
  intro H. destruct (String.eqb_spec k key) as [->|Hne].
  - exfalso. apply H. now left.
  - apply IH. intro Hin. apply H. now right.
Qed.

Section EngineFacts.
Context {numpy : NumPy} {clock : Clock} {stats : Forecasting.StatsLibrary}
        {pandas : Pandas}.
Variable BENCHMARKS : Baseline.

Lemma current_rows_age (df : list Row) (r : Row) :
  In r (current_rows df) -> (days_old r <= 365)%Z.
Proof.
  unfold current_rows. rewrite filter_In. intros [_ H]. lia.
Qed.

(** A category gets an entry exactly when it has a current row. *)
Lemma category_entry_present (df_current : list Row) (cat : string) (w : Q) :
  (exists e, category_entry BENCHMARKS df_current cat w = Some e)
  <-> (exists r, In r df_current /\ row_category r = cat).
Proof.
  unfold category_entry.
  set (cat_df := filter (fun r => String.eqb (row_category r) cat) df_current).
  destruct cat_df as [|r cat_df'] eqn:E; simpl length; cbn [Nat.eqb].
  - split; [intros [e He]; discriminate|].
    intros [r [Hin Hcat]]. exfalso.
    assert (Hr : In r cat_df).
    { unfold cat_df. apply filter_In. split; [exact Hin|].
      now apply String.eqb_eq. }
    rewrite E in Hr. destruct Hr.
  - split; [|intros _; eexists; reflexivity].
    intros _. exists r.
    assert (Hr : In r cat_df) by (rewrite E; now left).
    unfold cat_df in Hr. apply filter_In in Hr. destruct Hr as [Hin Hcat].
    split; [exact Hin|]. now apply String.eqb_eq.
Qed.

(** On rows no older than 365 days the prior window is empty, so the trend
    of every entry is [Up]. *)
Lemma category_entry_trend (df_current : list Row) (cat : string) (w : Q)
                           (e : CategoryEntry) :
  (forall r, In r df_current -> (days_old r <= 365)%Z) ->
  category_entry BENCHMARKS df_current cat w = Some e ->
  trend e = Up.
Proof.
  intros Hage. unfold category_entry.
  set (cat_df := filter (fun r => String.eqb (row_category r) cat) df_current).
  assert (Hcat : forall r, In r cat_df -> (days_old r <= 365)%Z).
  { intros r Hr. apply Hage. unfold cat_df in Hr.
    now apply filter_In in Hr. }
  destruct (Nat.eqb_spec (length cat_df) 0) as [|Hne]; [discriminate|].
  intro H. injection H as <-. cbn [trend].
  rewrite (filter_nothing (fun r => (365 <? days_old r)%Z && (days_old r <=? 730)%Z)).
  2:{ intros r Hr. specialize (Hcat r Hr).
      apply andb_false_iff. left. apply Z.ltb_ge. exact Hcat. }
  rewrite filter_everything.
  2:{ intros r Hr. specialize (Hcat r Hr). now apply Z.leb_le. }
  cbn [length Nat.eqb].
  destruct (Nat.ltb_spec 0 (length cat_df)); [reflexivity|lia].
Qed.

Lemma breakdown_loop_In (weights : list (string * Q)) (df_current : list Row)
                        (cat : string) (e : CategoryEntry) :
  In (cat, e) (breakdown_loop BENCHMARKS weights df_current)
  <-> exists w, In (cat, w) weights
                /\ category_entry BENCHMARKS df_current cat w = Some e.
Proof.
  induction weights as [|[c w] weights IH]; simpl.
  - split; [intros []|intros [w [[] _]]].
  - destruct (category_entry BENCHMARKS df_current c w) as [e'|] eqn:E; simpl.
    + rewrite IH. split.
      * intros [H|[w' [Hin He]]].
        -- injection H as -> ->. exists w. split; [now left|exact E].
        -- exists w'. split; [now right|exact He].
      * intros [w' [[H|Hin] He]].
        -- injection H as -> ->. left. congruence.
        -- right. exists w'. split; assumption.
    + rewrite IH. split.
      * intros [w' [Hin He]]. exists w'. split; [now right|exact He].
      * intros [w' [[H|Hin] He]].
        -- injection H as -> ->. congruence.
        -- exists w'. split; assumption.
Qed.

Lemma breakdown_loop_keys (weights : list (string * Q)) (df_current : list Row)
                          (cat : string) :
  In cat (map fst (breakdown_loop BENCHMARKS weights df_current)) ->
  In cat (map fst weights).
Proof.
  intro H. apply in_map_iff in H. destruct H as [[c e] [Hc Hin]].
  simpl in Hc. subst c. apply breakdown_loop_In in Hin.
  destruct Hin as [w [Hin _]]. apply in_map_iff. exists (cat, w). now split.
Qed.

Lemma category_breakdown_of_In (df_current : list Row) (cat : string)
                               (e : CategoryEntry) :
  In (cat, e) (category_breakdown_of BENCHMARKS df_current)
  <-> In (cat, e) (breakdown_loop BENCHMARKS WEIGHTS df_current).
Proof.
  destruct df_current as [|r df]; [|reflexivity].
  split; [intros []|]. intro H. apply breakdown_loop_In in H.
  destruct H as [w [_ He]].
  assert (Hex : exists e, category_entry BENCHMARKS [] cat w = Some e)
    by (now exists e).
  apply category_entry_present in Hex. destruct Hex as [r [[] _]].
Qed.

(** The keys of the breakdown: the categories of the weight table that have
    a current row. *)
Lemma category_breakdown_of_keys (df_current : list Row) (cat : string) :
  (exists e, In (cat, e) (category_breakdown_of BENCHMARKS df_current))
  <-> (In cat (map fst WEIGHTS)
       /\ exists r, In r df_current /\ row_category r = cat).
Proof.
  split.
  - intros [e He]. apply category_breakdown_of_In, breakdown_loop_In in He.
    destruct He as [w [Hin He]]. split.
    + apply in_map_iff. exists (cat, w). now split.
    + apply (category_entry_present df_current cat w). now exists e.
  - intros [Hkey Hrow]. apply in_map_iff in Hkey.
    destruct Hkey as [[c w] [Hc Hin]]. simpl in Hc. subst c.
    apply (category_entry_present df_current cat w) in Hrow.
    destruct Hrow as [e He]. exists e.
    apply category_breakdown_of_In, breakdown_loop_In. exists w. now split.
Qed.

Lemma category_breakdown_of_outside (df_current : list Row) (cat : string) :
  ~ In cat (map fst WEIGHTS) ->
  lookup cat (category_breakdown_of BENCHMARKS df_current) = None.
Proof.
  intro H. apply lookup_not_key. intro Hin. apply H.
  destruct df_current as [|r df]; [destruct Hin|].
  now apply breakdown_loop_keys in Hin.
Qed.

Lemma category_breakdown_of_trend (df : list Row) :
  Forall (fun ce => trend (snd ce) = Up)
         (category_breakdown_of BENCHMARKS (current_rows df)).
Proof.
  apply Forall_forall. intros [cat e] Hin.
  apply category_breakdown_of_In, breakdown_loop_In in Hin.
  destruct Hin as [w [_ He]]. simpl.
  apply (category_entry_trend (current_rows df) cat w e); [|exact He].
  intros r Hr. now apply current_rows_age in Hr.
Qed.

(** A response is produced whenever pandas reads the dates of the rows in
    the radius, and it is built from those rows. *)
Lemma calculate_score_rows (tbl : Ingest.Table) (lat lon radius_km : Q)
                           (rows : list Row) :
  rows_in_radius tbl lat lon radius_km = Some rows ->
  exists resp,
    calculate_score BENCHMARKS tbl lat lon radius_km = Some resp
    /\ category_breakdown resp
       = category_breakdown_of BENCHMARKS (current_rows rows).
Proof.
  unfold rows_in_radius, calculate_score.
  destruct (fetch_candidates tbl lat lon radius_km) as [|c df] eqn:Ec.
  { simpl. intro H. injection H as <-. eexists. split; reflexivity. }
  destruct (within_radius lat lon radius_km (c :: df)) as [|c' df'] eqn:Ew.
  { simpl. intro H. injection H as <-. eexists. split; reflexivity. }
  intros ->. eexists. split; reflexivity.
Qed.

End EngineFacts.

(** ** An environment to run examples in

    Rational stand-ins for numpy (the exponential by its tangent at 0, the
    cosine by 18/25, the great-circle distance by 111 km per degree along each
    axis: exact for an age of zero and a distance of zero), a clock stopped
    on 2026-11-03 that reads the two dates the examples use, and a pandas
    without subtypes or insights. *)

Definition example_numpy : NumPy :=
  {| np_exp := fun x => 1 + x;
     np_cos_radians := fun _ => 18 # 25;
     great_circle_km := fun lat lon lat' lon' =>
       111 * (Qabs (lat' - lat) + Qabs (lon' - lon)) |}.

Definition ten_days_ago : string := "2026-10-24 00:00:00".
Definition four_hundred_days_ago : string := "2025-09-29 00:00:00".

Definition example_clock : Clock :=
  {| sql_date_years_ago := fun n =>
       if (n =? 10)%nat then "2016-11-03" else "2025-11-03";
     now_year := 2026;
     pd_days_old := fun text =>
       if String.eqb text ten_days_ago then Some 10%Z
       else if String.eqb text four_hundred_days_ago then Some 400%Z
       else None;
     local_hour := fun _ => 12%Z |}.

Definition example_pandas : Pandas :=
  {| value_counts_head := fun _ _ => [];
     Insights := unit;
     insights_of := fun _ _ => tt |}.

Definition example_stats : Forecasting.StatsLibrary :=
  Forecasting.constant_library 100 0.

(** An incident at Toronto's city hall. *)
Definition city_hall_lat : Q := 436532 # 10000.
Definition city_hall_lon : Q := - (793832 # 10000).

Definition incident_at_city_hall (key : nat) (eid date category : string)
  : Ingest.Incident :=
  Ingest.mkIncident key
    (Ingest.mkRecord eid date city_hall_lat city_hall_lon category category
                     "Unknown" "Unknown" "example.csv").

(** One assault ten days ago and five assaults four hundred days ago. *)
Definition assaults_table : Ingest.Table :=
  [ incident_at_city_hall 1 "A-1" ten_days_ago "Assault";
    incident_at_city_hall 2 "A-2" four_hundred_days_ago "Assault";
    incident_at_city_hall 3 "A-3" four_hundred_days_ago "Assault";
    incident_at_city_hall 4 "A-4" four_hundred_days_ago "Assault";
    incident_at_city_hall 5 "A-5" four_hundred_days_ago "Assault";
    incident_at_city_hall 6 "A-6" four_hundred_days_ago "Assault" ].

(** An assault and a hate crime, both ten days ago. *)
Definition hate_crime_table : Ingest.Table :=
  [ incident_at_city_hall 1 "A-1" ten_days_ago "Assault";
    incident_at_city_hall 2 "H-1" ten_days_ago "Hate Crime" ].

(** C3.  The trend of every entry of the category breakdown is [Up],
    whatever the counts of the two windows: the loop counts the prior window
    (365 to 730 days) on the rows of the last 365 days, where it is empty.
    With one assault in the last year and five in the year before, where the
    claim asks for [Down], the response says [Up]. *)
Theorem category_breakdown_trend_always_up :
  (forall (numpy : NumPy) (clock : Clock) (stats : Forecasting.StatsLibrary)
          (pandas : Pandas) (B : Baseline) (tbl : Ingest.Table)
          (lat lon radius_km : Q),
      match calculate_score B tbl lat lon radius_km with
      | Some resp =>
          Forall (fun ce => trend (snd ce) = Up) (category_breakdown resp)
      | None => True
      end)
  /\ (option_map (fun rows => length (filter (fun r => (365 <? days_old r)%Z) rows))
                 (rows_in_radius (numpy := example_numpy) (clock := example_clock)
                                 assaults_table city_hall_lat city_hall_lon (8 # 10))
      = Some 5%nat
      /\ option_map (fun resp =>
                       map (fun ce => (fst ce, entry_incident_count (snd ce),
                                       trend (snd ce)))
                           (category_breakdown resp))
                    (calculate_score (numpy := example_numpy)
                                     (clock := example_clock)
                                     (stats := example_stats)
                                     (pandas := example_pandas)
                                     no_baseline assaults_table
                                     city_hall_lat city_hall_lon (8 # 10))
         = Some [("Assault", 1%nat, Up)]).
Proof.
  split.
  - intros numpy clock stats pandas B tbl lat lon radius_km.
    destruct (rows_in_radius tbl lat lon radius_km) as [rows|] eqn:E.
    + destruct (calculate_score_rows B tbl lat lon radius_km rows E)
        as [resp [-> Hb]].
      rewrite Hb. apply category_breakdown_of_trend.
    + unfold rows_in_radius in E. unfold calculate_score.
      destruct (fetch_candidates tbl lat lon radius_km) as [|c df];
        [discriminate|].
      destruct (within_radius lat lon radius_km (c :: df)) as [|c' df'];
        [discriminate|].
      rewrite E. exact I.
  - split; vm_compute; reflexivity.
Qed.

(** C4 (as the code has it).  Whenever pandas reads the dates of the rows in
    the radius, a response is returned whose category breakdown has an entry
    for exactly the categories of the severity-weight table that occur among
    the rows of the last 365 days; a category outside the table, such as
    "Hate Crime", never has one. *)
Theorem category_breakdown_weighted_categories
    (numpy : NumPy) (clock : Clock) (stats : Forecasting.StatsLibrary)
    (pandas : Pandas) (B : Baseline) (tbl : Ingest.Table)
    (lat lon radius_km : Q) (rows : list Row) :
  rows_in_radius tbl lat lon radius_km = Some rows ->
  exists resp,
    calculate_score B tbl lat lon radius_km = Some resp
    /\ (forall cat,
           (exists e, In (cat, e) (category_breakdown resp))
           <-> (In cat (map fst WEIGHTS)
                /\ exists r, In r (current_rows rows) /\ row_category r = cat))
    /\ lookup "Hate Crime" (category_breakdown resp) = None.
Proof.
  intro E.
  destruct (calculate_score_rows B tbl lat lon radius_km rows E)
    as [resp [Hr Hb]].
  exists resp. split; [exact Hr|]. rewrite Hb. split.
  - intro cat. apply category_breakdown_of_keys.
  - apply category_breakdown_of_outside.
    simpl. intros H. repeat (destruct H as [H|H]; [discriminate|]). exact H.
Qed.

Lemma category_breakdown_weighted_categories_witness :
  exists resp,
    calculate_score (numpy := example_numpy) (clock := example_clock)
                    (stats := example_stats) (pandas := example_pandas)
                    no_baseline hate_crime_table
                    city_hall_lat city_hall_lon (8 # 10) = Some resp
    /\ (exists e, In ("Assault", e) (category_breakdown resp))
    /\ lookup "Hate Crime" (category_breakdown resp) = None.
Proof.
  destruct (category_breakdown_weighted_categories
              example_numpy example_clock example_stats example_pandas
              no_baseline hate_crime_table city_hall_lat city_hall_lon (8 # 10)
              (map (fun r => mkRow r 10 (weight_of (Ingest.category r)))
                   hate_crime_table)
              ltac:(vm_compute; reflexivity))
    as [resp [Hr [Hkeys Hhate]]].
  exists resp. split; [exact Hr|]. split; [|exact Hhate].
  apply Hkeys. split.
  - simpl. auto.
  - eexists. split; [left; reflexivity|reflexivity].
Defined.

(** C4 as stated fails for a category outside the weight table: a hate crime
    ten days ago at the query point is among the current rows, and the
    breakdown of the response has the key "Assault" only. *)
Lemma hate_crime_has_no_entry :
  option_map (fun rows => map row_category (current_rows rows))
             (rows_in_radius (numpy := example_numpy) (clock := example_clock)
                             hate_crime_table city_hall_lat city_hall_lon (8 # 10))
  = Some ["Assault"; "Hate Crime"]
  /\ option_map (fun resp => map fst (category_breakdown resp))
                (calculate_score (numpy := example_numpy) (clock := example_clock)
                                 (stats := example_stats) (pandas := example_pandas)
                                 no_baseline hate_crime_table
                                 city_hall_lat city_hall_lon (8 # 10))
     = Some ["Assault"].
Proof.
  split; vm_compute; reflexivity.
Qed.

(** C7.  When no incident of the last ten years lies within the radius, the
    response is the all-safe default: score 100, percentile 0, no category
    breakdown, no insights, day and night safety scores of 100. *)
Theorem calculate_score_no_incident
    (numpy : NumPy) (clock : Clock) (stats : Forecasting.StatsLibrary)
    (pandas : Pandas) (B : Baseline) (tbl : Ingest.Table)
    (lat lon radius_km : Q) :
  (forall r, In r tbl ->
             String.leb (sql_date_years_ago 10) (Ingest.date r) = true ->
             radius_km < great_circle_km lat lon (Ingest.lat r) (Ingest.lon r)) ->
  exists resp,
    calculate_score B tbl lat lon radius_km = Some resp
    /\ current_score resp = 100
    /\ overall_percentile resp = 0
    /\ category_breakdown resp = []
    /\ insights resp = None
    /\ day_safety_score (temporal_breakdown resp) = 100
    /\ night_safety_score (temporal_breakdown resp) = 100.
Proof.
  intro Hfar. exists base_response.
  split; [|repeat split].
  unfold calculate_score.
  destruct (fetch_candidates tbl lat lon radius_km) as [|c df] eqn:Ec;
    [reflexivity|].
  rewrite <- Ec.
  assert (Hw : within_radius lat lon radius_km
                 (fetch_candidates tbl lat lon radius_km) = []).
  { unfold within_radius. apply filter_nothing. intros r Hr.
    unfold fetch_candidates in Hr. apply filter_In in Hr.
    destruct Hr as [Hin Hq]. apply andb_true_iff in Hq.
    destruct Hq as [_ Hdate].
    apply Qle_bool_false. now apply Hfar. }
  rewrite Hw. reflexivity.
Qed.

(** A query at latitude 0, longitude 0 against a table of Toronto incidents. *)
Lemma calculate_score_no_incident_witness :
  exists resp,
    calculate_score (numpy := example_numpy) (clock := example_clock)
                    (stats := example_stats) (pandas := example_pandas)
                    no_baseline assaults_table 0 0 (8 # 10) = Some resp
    /\ current_score resp = 100
    /\ overall_percentile resp = 0
    /\ category_breakdown resp = []
    /\ insights resp = None
    /\ day_safety_score (temporal_breakdown resp) = 100
    /\ night_safety_score (temporal_breakdown resp) = 100.
Proof.
  apply (calculate_score_no_incident example_numpy example_clock example_stats
           example_pandas no_baseline assaults_table 0 0 (8 # 10)).
  intros r Hin _.
  repeat (destruct Hin as [<-|Hin]; [vm_compute; reflexivity|]).
  destruct Hin.
Defined.

End Scoring.

(* ================================================================== *)
(** * generate_grid_benchmarks.py *)
(* ================================================================== *)

Module Benchmarks.
Import Numeric PyString Platform.
Local Open Scope string_scope.

Definition GRID_RESOLUTION_KM : Q := 2 # 10.
Definition RADIUS_KM : Q := 8 # 10.

(** The module's own copy of the weights. *)
Definition WEIGHTS : list (string * Q) :=
  [ ("Homicide", 100);
    ("Shooting", 50);
    ("Assault", 15);
    ("Robbery", 10);
    ("Break and Enter", 8);
    ("Auto Theft", 6);
    ("Theft Over", 4);
    ("Theft From Motor Vehicle", 3);
    ("Bicycle Theft", 2);
    ("NonMCI", 2);
    ("Other", 1) ].

(** A row of the generator's data frame: the four fetched columns and the two
    the pre-processing adds. *)
Record Row := mkRow {
  date : string;
  category : string;
  lat : Q;
  lon : Q;
  days_old : Z;
  weight : Q
}.

(** What is written to [benchmarks.json] (the time stamp apart). *)
Record BenchmarkFile := mkBenchmarkFile {
  total_points : nat;
  data_records : nat;
  overall_distribution : list Q;
  by_category : list (string * list Q)
}.

(** [np.arange(start, stop, step)]: [ceil((stop - start) / step)] values
    from [start] on, [step] apart. *)
Definition np_arange (start stop step : Q) : list Q :=
  map (fun i => start + inject_Z (Z.of_nat i) * step)
      (seq 0 (Z.to_nat (Qceiling ((stop - start) / step)))).

(** [d[key] = d.get(key, 0) + v] on a dictionary kept in insertion order. *)
Fixpoint add_to (key : string) (v : Q) (d : list (string * Q))
  : list (string * Q) :=
  match d with
  | [] => [(key, v)]
  | (k, x) :: d' =>
      if String.eqb k key then (k, x + v) :: d' else (k, x) :: add_to key v d'
  end.

(** [d[key].append(v)] *)
Fixpoint append_to (key : string) (v : Q) (d : list (string * list Q))
  : list (string * list Q) :=
  match d with
  | [] => []
  | (k, l) :: d' =>
      if String.eqb k key then (k, (l ++ [v])%list) :: d'
      else (k, l) :: append_to key v d'
  end.

Section Generator.
Context {numpy : NumPy} {clock : Clock}.

Definition weight_of (category : string) : Q :=
  match lookup category WEIGHTS with
  | Some w => w
  | None => 1
  end.

Definition score (r : Row) : Q :=
  let years_old := inject_Z (days_old r) / (36525 # 100) in
  let time_factor := np_exp (- (15 # 100) * years_old) in
  weight r * time_factor.

(** [nearby.groupby('category')['score'].sum().to_dict()] *)
Definition category_sums (nearby : list Row) : list (string * Q) :=
  fold_left (fun d r => add_to (category r) (score r) d) nearby [].

(** Returns the total score and the scores by category. *)
Definition calculate_raw_score (df : list Row) (lat0 lon0 radius_km : Q)
  : Q * list (string * Q) :=
  let lat_delta := 1 # 100 in
  let lon_delta := 15 # 1000 in
  let subset :=
    filter (fun r =>
              Qle_bool (lat0 - lat_delta) (lat r)
              && Qle_bool (lat r) (lat0 + lat_delta)
              && Qle_bool (lon0 - lon_delta) (lon r)
              && Qle_bool (lon r) (lon0 + lon_delta))
           df in
  match subset with
  | [] => (0, [])
  | _ =>
      let nearby :=
        filter (fun r =>
                  Qle_bool (great_circle_km lat0 lon0 (lat r) (lon r)) radius_km)
               subset in
      match nearby with
      | [] => (0, [])
      | _ => (Qsum (map score nearby), category_sums nearby)
      end
  end.

(** The query over the last year. *)
Definition fetch_last_year (tbl : Ingest.Table) : list Ingest.Incident :=
  filter (fun r => String.leb (sql_date_years_ago 1) (Ingest.date r)) tbl.

(** The pre-processing; nothing when pandas cannot read a date. *)
Fixpoint preprocess (df : list Ingest.Incident) : option (list Row) :=
  match df with
  | [] => Some []
  | r :: df' =>
      match pd_days_old (Ingest.date r), preprocess df' with
      | Some d, Some rows =>
          Some (mkRow (Ingest.date r) (Ingest.category r)
                      (Ingest.lat r) (Ingest.lon r)
                      d (weight_of (Ingest.category r)) :: rows)
      | _, _ => None
      end
  end.

Definition lats : list Q :=
  np_arange (4358 # 100) (4385 # 100) (GRID_RESOLUTION_KM / 111).

Definition lons : list Q :=
  np_arange (- (7964 # 100)) (- (7912 # 100))
            (GRID_RESOLUTION_KM / (111 * np_cos_radians (437 # 10))).

(** [[(lat, lon) for lat in lats for lon in lons]] *)
Definition grid_points : list (Q * Q) :=
  flat_map (fun la => map (fun lo => (la, lo)) lons) lats.

(** The two accumulators of the loop over the grid. *)
Definition Accumulators : Type := (list Q * list (string * list Q))%type.

Definition initial : Accumulators :=
  ([], map (fun cw => (fst cw, [])) WEIGHTS).

(** [for cat in WEIGHTS.keys(): category_scores[cat].append(cat_breakdown.get(cat, 0))] *)
Fixpoint append_categories (keys : list string) (cat_breakdown : list (string * Q))
                           (category_scores : list (string * list Q))
  : list (string * list Q) :=
  match keys with
  | [] => category_scores
  | cat :: keys' =>
      let val := match lookup cat cat_breakdown with
                 | Some v => v
                 | None => 0
                 end in
      append_categories keys' cat_breakdown (append_to cat val category_scores)
  end.

(** One iteration of the loop over the grid points. *)
Definition visit (df : list Row) (acc : Accumulators) (point : Q * Q)
  : Accumulators :=
  let '(raw_scores, category_scores) := acc in
  let '(sc, cat_breakdown) :=
    calculate_raw_score df (fst point) (snd point) RADIUS_KM in
  ((raw_scores ++ [sc])%list,
   append_categories (map fst WEIGHTS) cat_breakdown category_scores).

(** [generate_benchmarks()] against the table: the file it writes, or nothing
    when the last year holds no record (the early return) or pandas cannot
    read a date. *)
Definition generate_benchmarks (tbl : Ingest.Table) : option BenchmarkFile :=
  match fetch_last_year tbl with
  | [] => None
  | fetched =>
      match preprocess fetched with
      | None => None
      | Some df =>
          let '(raw_scores, category_scores) :=
            fold_left (visit df) grid_points initial in
          Some {| total_points := length grid_points;
                  data_records := length df;
                  overall_distribution := py_sort raw_scores;
                  by_category :=
                    map (fun cl => (fst cl, py_sort (snd cl))) category_scores |}
      end
  end.

End Generator.

(** ** Facts *)

Lemma weights_agree : WEIGHTS = Scoring.WEIGHTS.
Proof. reflexivity. Qed.

Lemma weights_keys_nodup : NoDup (map fst WEIGHTS).
Proof.
  simpl. repeat constructor; simpl; intro H;
    repeat (destruct H as [H|H]; [discriminate|]); exact H.
Qed.

Lemma append_to_keys (key : string) (v : Q) (d : list (string * list Q)) :
  map fst (append_to key v d) = map fst d.
Proof.
  induction d as [|[k l] d IH]; simpl; [reflexivity|].
  destruct (String.eqb k key); simpl; congruence.
Qed.

(** With distinct keys, [append_to] changes the one list under the key. *)
Lemma append_to_map (key : string) (v : Q) (d : list (string * list Q)) :
  NoDup (map fst d) ->
  append_to key v d
  = map (fun cl => if String.eqb (fst cl) key
                   then (fst cl, (snd cl ++ [v])%list) else cl) d.
Proof.
  induction d as [|[k l] d IH]; intro Hnd; simpl; [reflexivity|].
  inversion Hnd as [|? ? Hk Hnd']; subst.
  destruct (String.eqb_spec k key) as [->|Hne].
  - f_equal. symmetry. rewrite <- (map_id d) at 2.
    apply map_ext_in. intros [k' l'] Hin. simpl.
    destruct (String.eqb_spec k' key) as [->|]; [|reflexivity].
    exfalso. apply Hk. apply in_map_iff. exists (key, l'). now split.
  - f_equal. now apply IH.
Qed.

(** One pass over distinct keys appends one value to every list whose key
    is among them. *)
Lemma append_categories_map (keys : list string) (bd : list (string * Q))
                            (d : list (string * list Q)) :
  NoDup keys -> NoDup (map fst d) ->
  append_categories keys bd d
  = map (fun cl =>
           if existsb (String.eqb (fst cl)) keys
           then (fst cl,
                 (snd cl ++ [match lookup (fst cl) bd with
                             | Some v => v
                             | None => 0
                             end])%list)
           else cl) d.
Proof.
  revert d. induction keys as [|cat keys IH]; intros d Hk Hd; simpl.
  - symmetry. apply map_id.
  - inversion Hk as [|? ? Hcat Hk']; subst.
    rewrite IH; [|exact Hk'|now rewrite append_to_keys].
    rewrite (append_to_map _ _ _ Hd), map_map.
    apply map_ext_in. intros [c l] _. simpl.
    destruct (String.eqb_spec c cat) as [->|Hne]; simpl.
    + assert (Hno : existsb (String.eqb cat) keys = false).
      { destruct (existsb (String.eqb cat) keys) eqn:E; [|reflexivity].
        apply existsb_exists in E. destruct E as [x [Hx Heq]].
        apply String.eqb_eq in Heq. subst x. contradiction. }
      rewrite Hno. reflexivity.
    + reflexivity.
Qed.

Lemma flat_map_pairs_length {A B} (l : list A) (l' : list B) :
  length (flat_map (fun a => map (fun b => (a, b)) l') l)
  = (length l * length l')%nat.
Proof.
  induction l as [|a l IH]; simpl; [reflexivity|].
  rewrite length_app, length_map, IH. reflexivity.
Qed.

Section GeneratorFacts.
Context {numpy : NumPy} {clock : Clock}.

(** What the loop has built after [k] grid points. *)
Definition built (k : nat) (acc : Accumulators) : Prop :=
  length (fst acc) = k
  /\ map fst (snd acc) = map fst WEIGHTS
  /\ Forall (fun cl => length (snd cl) = k) (snd acc).

Lemma initial_built : built 0 initial.
Proof.
  unfold built, initial. cbn [fst snd]. split; [reflexivity|]. split.
  - rewrite map_map. reflexivity.
  - apply Forall_forall. intros cl Hin. apply in_map_iff in Hin.
    destruct Hin as [cw [<- _]]. reflexivity.
Qed.

Lemma visit_built (df : list Row) (k : nat) (acc : Accumulators)
                  (point : Q * Q) :
  built k acc -> built (S k) (visit df acc point).
Proof.
  destruct acc as [raw_scores category_scores].
  intros [Hraw [Hkeys Hlen]]. cbn [fst snd] in *.
  unfold visit.
  destruct (calculate_raw_score df (fst point) (snd point) RADIUS_KM)
    as [sc cat_breakdown].
  assert (Hnd : NoDup (map fst category_scores)).
  { rewrite Hkeys. apply weights_keys_nodup. }
  rewrite (append_categories_map _ _ _ weights_keys_nodup Hnd).
  unfold built. cbn [fst snd]. split; [|split].
  - rewrite length_app. simpl. lia.
  - rewrite map_map. rewrite <- Hkeys. apply map_ext. intros [c l]. simpl.
    destruct (existsb _ _); reflexivity.
  - apply Forall_forall. intros cl Hin. apply in_map_iff in Hin.
    destruct Hin as [[c l] [<- Hin]]. cbn [fst snd].
    assert (Hc : existsb (String.eqb c) (map fst WEIGHTS) = true).
    { apply existsb_exists. exists c. split; [|apply String.eqb_refl].
      rewrite <- Hkeys. apply in_map_iff. exists (c, l). now split. }
    rewrite Hc. cbn [snd]. rewrite length_app. simpl.
    rewrite Forall_forall in Hlen. specialize (Hlen (c, l) Hin).
    simpl in Hlen. lia.
Qed.

Lemma loop_built (df : list Row) (points : list (Q * Q)) (k : nat)
                 (acc : Accumulators) :
  built k acc ->
  built (k + length points) (fold_left (visit df) points acc).
Proof.
  revert k acc. induction points as [|pt points IH]; intros k acc H; simpl.
  - now rewrite Nat.add_0_r.
  - rewrite <- Nat.add_succ_comm. apply IH. now apply visit_built.
Qed.

Lemma grid_points_length :
  length grid_points = (length lats * length lons)%nat.
Proof. apply flat_map_pairs_length. Qed.

(** C9.  Whatever the incidents, the file the generator writes has an
    [overall_distribution] with one score per grid point (the grid being the
    cartesian product of the latitude and longitude steps), sorted ascending,
    and under each category of the weight table an array of that same length,
    sorted ascending.  The file is written whenever the last year holds a
    record and pandas reads the dates. *)
Theorem generate_benchmarks_distributions (tbl : Ingest.Table) :
  (forall b, generate_benchmarks tbl = Some b ->
     total_points b = (length lats * length lons)%nat
     /\ length (overall_distribution b) = total_points b
     /\ Sorted Qle (overall_distribution b)
     /\ map fst (by_category b) = map fst WEIGHTS
     /\ Forall (fun cl => length (snd cl) = total_points b
                          /\ Sorted Qle (snd cl))
               (by_category b))
  /\ (forall df, fetch_last_year tbl <> [] ->
                 preprocess (fetch_last_year tbl) = Some df ->
                 exists b, generate_benchmarks tbl = Some b).
Proof.
  unfold generate_benchmarks. split.
  - intros b.
    destruct (fetch_last_year tbl) as [|r fetched]; [discriminate|].
    destruct (preprocess (r :: fetched)) as [df|]; [|discriminate].
    pose proof (loop_built df grid_points 0 initial initial_built) as H.
    destruct (fold_left (visit df) grid_points initial)
      as [raw_scores category_scores].
    destruct H as [Hraw [Hkeys Hlen]]. cbn [fst snd] in *.
    intro Hb. injection Hb as <-. cbn.
    split; [apply grid_points_length|].
    split; [rewrite py_sort_length; exact Hraw|].
    split; [apply py_sort_sorted|].
    split; [rewrite map_map; exact Hkeys|].
    apply Forall_forall. intros cl Hin. apply in_map_iff in Hin.
    destruct Hin as [[c l] [<- Hin]]. cbn [fst snd].
    rewrite Forall_forall in Hlen. specialize (Hlen (c, l) Hin).
    simpl in Hlen.
    split; [rewrite py_sort_length; exact Hlen|apply py_sort_sorted].
  - intros df Hne Hpre.
    destruct (fetch_last_year tbl) as [|r fetched]; [congruence|].
    rewrite Hpre.
    destruct (fold_left (visit df) grid_points initial). eexists. reflexivity.
Qed.

End GeneratorFacts.

(** The generator run on a table with one incident of the last year. *)
Lemma generate_benchmarks_distributions_witness :
  exists b,
    generate_benchmarks (numpy := Scoring.example_numpy)
                        (clock := Scoring.example_clock)
                        Scoring.assaults_table = Some b
    /\ length (overall_distribution b) = total_points b
    /\ Sorted Qle (overall_distribution b)
    /\ Forall (fun cl => length (snd cl) = total_points b
                         /\ Sorted Qle (snd cl))
              (by_category b).
Proof.
  destruct (generate_benchmarks_distributions
              (numpy := Scoring.example_numpy) (clock := Scoring.example_clock)
              Scoring.assaults_table) as [Hprops Hwrites].
  destruct (Hwrites
              [mkRow Scoring.ten_days_ago "Assault" Scoring.city_hall_lat
                     Scoring.city_hall_lon 10 15]
              ltac:(vm_compute; discriminate)
              ltac:(vm_compute; reflexivity)) as [b Hb].
  exists b. split; [exact Hb|].
  destruct (Hprops b Hb) as [_ [H1 [H2 [_ H3]]]].
  repeat split; assumption.
Defined.

End Benchmarks.

(* ================================================================== *)
(** * ingest_data.py: the whole run and what the table keeps *)
(* ================================================================== *)

Module IngestProperties.
Import Numeric PyString Ingest.
Local Open Scope string_scope.

(** The database file: no [crimes] table yet, or the table. *)
Definition Database := option Table.

(** [CREATE TABLE IF NOT EXISTS crimes (...)] *)
Definition create_table (db : Database) : Table :=
  match db with
  | Some tbl => tbl
  | None => []
  end.

(** A date library for examples: a date is its text, every text but the
    empty one and the two texts of a missing cell parses, hours 0 to 23 can
    be set. *)
Definition example_dates : DateLibrary :=
  {| datetime := string;
     dateutil_parse := fun s =>
       if String.eqb s "" || String.eqb s "None" || String.eqb s "nan"
       then None else Some s;
     replace_hour := fun d h =>
       if (0 <=? h)%Z && (h <? 24)%Z then Some d else None;
     datetime_str := fun d => d |}.

Section Run.
Context {dates : DateLibrary}.

(** The ingestion part of [main()]: the schema, every CSV file, then every
    GeoJSON file.  A file is its base name and its content. *)
Definition main (csv_files : list (string * list CsvRow))
                (geo_files : list (string * list Feature))
                (db : Database) : Table :=
  let tbl := create_table db in
  let tbl := fold_left (fun t f => ingest_csv (fst f) (snd f) t) csv_files tbl in
  fold_left (fun t f => ingest_geojson (fst f) (snd f) t) geo_files tbl.

(** A stored row as the specification of the tabular path wants it. *)
Definition valid_row (r : Incident) : Prop :=
  well_located (columns r) /\ well_dated (columns r).

(** The records of a run, file by file. *)
Definition batches (csv_files : list (string * list CsvRow))
                   (geo_files : list (string * list Feature))
  : list (list Record9) :=
  (map (fun f => csv_records (fst f) (snd f)) csv_files
   ++ map (fun f => geojson_records (fst f) (snd f)) geo_files)%list.

End Run.

(** ** Facts about bulk inserts *)

Lemma insert_or_ignore_extends (tbl : Table) (rec : Record9) :
  exists added, insert_or_ignore tbl rec = (tbl ++ added)%list
                /\ (length added <= 1)%nat.
Proof.
  unfold insert_or_ignore.
  destruct (has_event tbl (rec_event_unique_id rec)).
  - exists []. rewrite app_nil_r. split; [reflexivity|simpl; lia].
  - eexists. split; [reflexivity|simpl; lia].
Qed.

Lemma executemany_extends (records : list Record9) (tbl : Table) :
  exists added, executemany tbl records = (tbl ++ added)%list
                /\ (length added <= length records)%nat.
Proof.
  unfold executemany. revert tbl.
  induction records as [|rec records IH]; intro tbl; simpl.
  - exists []. rewrite app_nil_r. split; [reflexivity|simpl; lia].
  - destruct (insert_or_ignore_extends tbl rec) as [a1 [E1 L1]].
    destruct (IH (insert_or_ignore tbl rec)) as [a2 [E2 L2]].
    exists (a1 ++ a2)%list. rewrite E2, E1, <- app_assoc.
    split; [reflexivity|]. rewrite length_app. lia.
Qed.

Lemma has_event_false_notin (tbl : Table) (eid : string) :
  has_event tbl eid = false -> ~ In eid (map event_unique_id tbl).
Proof.
  intros H Hin. apply in_map_iff in Hin. destruct Hin as [r [<- Hr]].
  assert (Ht : has_event tbl (event_unique_id r) = true).
  { unfold has_event. apply existsb_exists. exists r.
    split; [exact Hr|apply String.eqb_refl]. }
  congruence.
Qed.

Lemma insert_or_ignore_unique (tbl : Table) (rec : Record9) :
  NoDup (map event_unique_id tbl) ->
  NoDup (map event_unique_id (insert_or_ignore tbl rec)).
Proof.
  intro H. unfold insert_or_ignore.
  destruct (has_event tbl (rec_event_unique_id rec)) eqn:E; [exact H|].
  rewrite map_app. simpl.
  apply NoDup_app_remove_l with (l := []). simpl.
  apply Permutation_NoDup with (l := rec_event_unique_id rec :: map event_unique_id tbl).
  - change (rec_event_unique_id rec :: map event_unique_id tbl)
      with ([rec_event_unique_id rec] ++ map event_unique_id tbl)%list.
    apply Permutation_app_comm.
  - constructor; [|exact H]. now apply has_event_false_notin.
Qed.

Lemma executemany_unique (records : list Record9) (tbl : Table) :
  NoDup (map event_unique_id tbl) ->
  NoDup (map event_unique_id (executemany tbl records)).
Proof.
  unfold executemany. revert tbl.
  induction records as [|rec records IH]; intros tbl H; simpl; [exact H|].
  apply IH. now apply insert_or_ignore_unique.
Qed.

(** ** Facts about a sequence of bulk inserts *)

Definition run_batches (bs : list (list Record9)) (tbl : Table) : Table :=
  fold_left executemany bs tbl.

Lemma run_batches_keeps (bs : list (list Record9)) (tbl : Table) (eid : string) :
  has_event tbl eid = true -> has_event (run_batches bs tbl) eid = true.
Proof.
  unfold run_batches. revert tbl.
  induction bs as [|b bs IH]; intros tbl H; simpl; [exact H|].
  apply IH. now apply executemany_keeps.
Qed.

Lemma run_batches_present (bs : list (list Record9)) (tbl : Table)
                          (b : list Record9) (rec : Record9) :
  In b bs -> In rec b ->
  has_event (run_batches bs tbl) (rec_event_unique_id rec) = true.
Proof.
  revert tbl. induction bs as [|b' bs IH]; intros tbl Hb Hrec; [destruct Hb|].
  destruct Hb as [->|Hb].
  - change (run_batches (b :: bs) tbl) with (run_batches bs (executemany tbl b)).
    apply run_batches_keeps. now apply executemany_present.
  - apply (IH (executemany tbl b') Hb Hrec).
Qed.

Lemma run_batches_all_taken (bs : list (list Record9)) (tbl : Table) :
  (forall b rec, In b bs -> In rec b ->
                 has_event tbl (rec_event_unique_id rec) = true) ->
  run_batches bs tbl = tbl.
Proof.
  unfold run_batches.
  induction bs as [|b bs IH]; intro H; simpl; [reflexivity|].
  rewrite executemany_all_taken.
  - apply IH. intros b' rec Hb Hrec. apply (H b' rec); [now right|exact Hrec].
  - intros rec Hrec. apply (H b rec); [now left|exact Hrec].
Qed.

Section RunFacts.
Context {dates : DateLibrary}.

(** The run is the bulk inserts of its files, one after the other. *)
Lemma main_batches (csv_files : list (string * list CsvRow))
                   (geo_files : list (string * list Feature)) (db : Database) :
  main csv_files geo_files db
  = run_batches (batches csv_files geo_files) (create_table db).
Proof.
  unfold main, run_batches, batches. rewrite fold_left_app.
  assert (Hc : forall fs t,
             fold_left (fun t f => ingest_csv (fst f) (snd f) t) fs t
             = fold_left executemany
                 (map (fun f => csv_records (fst f) (snd f)) fs) t).
  { induction fs as [|f fs IH]; intro t; simpl; [reflexivity|]. apply IH. }
  assert (Hg : forall fs t,
             fold_left (fun t f => ingest_geojson (fst f) (snd f) t) fs t
             = fold_left executemany
                 (map (fun f => geojson_records (fst f) (snd f)) fs) t).
  { induction fs as [|f fs IH]; intro t; simpl; [reflexivity|]. apply IH. }
  rewrite Hc, Hg. reflexivity.
Qed.

End RunFacts.

(** ** Example inputs *)

(** A CSV row with coordinates, a date, a category and a key, every other
    column being absent from the file. *)
Definition csv_row (la lo : Q) (occ_date mci eid : string) : CsvRow :=
  {| LAT_WGS84 := Val la; Latitude := NoColumn;
     LONG_WGS84 := Val lo; Longitude := NoColumn;
     OCC_DATE := Val occ_date; OCC_date := NoColumn; REPORT_DATE := NoColumn;
     OCC_HOUR := NoColumn;
     MCI_CATEGORY := Val mci;
     OFFENCE := NoColumn; PRIMARY_OFFENCE := NoColumn;
     PREMISES_TYPE := NoColumn;
     NEIGHBOURHOOD_158 := NoColumn; NEIGHBOURHOOD_140 := NoColumn;
     EVENT_UNIQUE_ID := Val eid; OBJECTID := NoColumn |}.

(** Three rows: a robbery, the same event again, and a row the police file
    marks "NonMCI". *)
Definition robbery_rows : list CsvRow :=
  [ csv_row (4365 # 100) (- (7938 # 100)) "2024-03-01" "Robbery" "GO-10";
    csv_row (4365 # 100) (- (7938 # 100)) "2024-03-01" "Robbery" "GO-10";
    csv_row (4370 # 100) (- (7940 # 100)) "2024-04-02" "NonMCI" "GO-11" ].

Definition stored_robbery : Incident :=
  mkIncident 1 (mkRecord "GO-10" "2024-03-01" (4365 # 100) (- (7938 # 100))
                         "Robbery" "Robbery" "Unknown" "Unknown" "Robbery.csv").

(** ** Properties *)

Lemma csv_records_length {dates : DateLibrary} (f : string) (rows : list CsvRow) :
  (length (csv_records f rows) <= length rows)%nat.
Proof.
  induction rows as [|row rows IH]; simpl; [lia|].
  destruct (csv_record f row); simpl; lia.
Qed.

Lemma geojson_records_length {dates : DateLibrary} (f : string)
                             (features : list Feature) :
  (length (geojson_records f features) <= length features)%nat.
Proof.
  induction features as [|x features IH]; simpl; [lia|].
  destruct (geojson_record f x); simpl; lia.
Qed.

Lemma run_batches_extends (bs : list (list Record9)) (tbl : Table) :
  exists added,
    run_batches bs tbl = (tbl ++ added)%list
    /\ (length added <= list_sum (map (@length Record9) bs))%nat.
Proof.
  unfold run_batches. revert tbl.
  induction bs as [|b bs IH]; intro tbl; simpl.
  - exists []. rewrite app_nil_r. split; [reflexivity|simpl; lia].
  - destruct (executemany_extends b tbl) as [a1 [E1 L1]].
    destruct (IH (executemany tbl b)) as [a2 [E2 L2]].
    exists (a1 ++ a2)%list. rewrite E2, E1, <- app_assoc.
    split; [reflexivity|]. rewrite length_app. lia.
Qed.

Lemma run_batches_unique (bs : list (list Record9)) (tbl : Table) :
  NoDup (map event_unique_id tbl) ->
  NoDup (map event_unique_id (run_batches bs tbl)).
Proof.
  unfold run_batches. revert tbl.
  induction bs as [|b bs IH]; intros tbl H; simpl; [exact H|].
  apply IH. now apply executemany_unique.
Qed.

(** X1.  Running the whole ingestion again over the same CSV and GeoJSON
    files leaves the table exactly as the first run left it. *)
Theorem main_idempotent {dates : DateLibrary}
    (csv_files : list (string * list CsvRow))
    (geo_files : list (string * list Feature)) (db : Database) :
  main csv_files geo_files (Some (main csv_files geo_files db))
  = main csv_files geo_files db.
Proof.
  rewrite (main_batches csv_files geo_files (Some _)). simpl create_table.
  rewrite main_batches. apply run_batches_all_taken.
  intros b rec Hb Hrec. now apply (run_batches_present _ _ b).
Qed.

(** X2.  Ingestion only appends: the rows already in the table stay where
    they are, unchanged, and at most one row is added per CSV row and per
    GeoJSON feature read. *)
Theorem main_appends {dates : DateLibrary}
    (csv_files : list (string * list CsvRow))
    (geo_files : list (string * list Feature)) (db : Database) :
  exists added,
    main csv_files geo_files db = (create_table db ++ added)%list
    /\ (length added
        <= list_sum (map (fun f => length (snd f)) csv_files)
           + list_sum (map (fun f => length (snd f)) geo_files))%nat.
Proof.
  rewrite main_batches.
  destruct (run_batches_extends (batches csv_files geo_files) (create_table db))
    as [added [E L]].
  exists added. split; [exact E|].
  eapply Nat.le_trans; [exact L|]. clear E L added.
  unfold batches. rewrite map_app, list_sum_app, !map_map.
  apply Nat.add_le_mono.
  - induction csv_files as [|f fs IH]; simpl; [lia|].
    pose proof (csv_records_length (fst f) (snd f)). lia.
  - induction geo_files as [|f fs IH]; simpl; [lia|].
    pose proof (geojson_records_length (fst f) (snd f)). lia.
Qed.

(** X3.  The uniqueness of [event_unique_id] is kept: if no two rows of the
    table share a key before a run, none do after it, whatever the files
    hold. *)
Theorem main_keeps_keys_unique {dates : DateLibrary}
    (csv_files : list (string * list CsvRow))
    (geo_files : list (string * list Feature)) (db : Database) :
  NoDup (map event_unique_id (create_table db)) ->
  NoDup (map event_unique_id (main csv_files geo_files db)).
Proof.
  intro H. rewrite main_batches. now apply run_batches_unique.
Qed.

Lemma main_keeps_keys_unique_witness :
  NoDup (map event_unique_id
             (main (dates := example_dates)
                   [("Robbery.csv", robbery_rows)] [] (Some [stored_robbery]))).
Proof.
  apply (main_keeps_keys_unique (dates := example_dates)).
  simpl. constructor; [intros []|constructor].
Defined.

(** X4.  The tabular path keeps the table valid: if every row has non-zero
    coordinates and a date that is the text of a parsed date, so has every
    row after [ingest_csv]. *)
Theorem ingest_csv_keeps_rows_valid {dates : DateLibrary}
    (file_name : string) (rows : list CsvRow) (tbl : Table) :
  Forall valid_row tbl ->
  Forall valid_row (ingest_csv file_name rows tbl).
Proof.
  intro H. apply Forall_forall. intros r Hr.
  apply executemany_origin in Hr. destruct Hr as [Hr|Hr].
  - rewrite Forall_forall in H. now apply H.
  - apply csv_records_In in Hr. destruct Hr as [row [_ Hrec]].
    now apply csv_record_valid in Hrec.
Qed.

Lemma ingest_csv_keeps_rows_valid_witness :
  Forall (valid_row (dates := example_dates))
         (ingest_csv (dates := example_dates) "Robbery.csv" robbery_rows
                     [stored_robbery]).
Proof.
  apply (ingest_csv_keeps_rows_valid (dates := example_dates)).
  constructor; [|constructor].
  split.
  - split; intro H; discriminate H.
  - exists "2024-03-01". reflexivity.
Defined.

Lemma file_category_not_NonMCI (file_name : string) :
  file_category_of file_name <> "NonMCI".
Proof.
  unfold file_category_of, CATEGORY_MAPPING, first_keyword.
  repeat match goal with
         | |- context [if ?c then _ else _] => destruct c
         end; discriminate.
Qed.

(** X5.  The tabular path never stores the category "NonMCI": a row marked
    so, like a row without a category, gets the category of its file. *)
Theorem csv_records_never_NonMCI {dates : DateLibrary}
    (file_name : string) (rows : list CsvRow) :
  Forall (fun rec => rec_category rec <> "NonMCI"
                     /\ rec_source_file rec = file_name)
         (csv_records file_name rows).
Proof.
  apply Forall_forall. intros rec Hin.
  apply csv_records_In in Hin. destruct Hin as [row [_ Hrec]].
  unfold csv_record in Hrec.
  destruct (or_else (LAT_WGS84 row) (Latitude row)) as [| |la]; try discriminate.
  destruct (or_else (LONG_WGS84 row) (Longitude row)) as [| |lo]; try discriminate.
  destruct (Qeq_bool la 0 || Qeq_bool lo 0); [discriminate|].
  destruct (parse_date _) as [dt|]; [|discriminate].
  injection Hrec as <-. cbn [rec_category rec_source_file].
  split; [|reflexivity].
  destruct (MCI_CATEGORY row) as [| |c]; try apply file_category_not_NonMCI.
  destruct (String.eqb_spec c "NonMCI") as [->|Hne];
    [apply file_category_not_NonMCI|exact Hne].
Qed.




End IngestProperties.

(* ================================================================== *)
(** * ingest_data.py: the paginated download *)
(* ================================================================== *)

Module Download.

(** The ArcGIS limit the source asks for per request. *)
Definition RECORD_COUNT : nat := 2000.

Section Pagination.
(** A feature as the service returns it. *)
Variable Feature : Type.

(** The feature service: the features of the page that starts at an offset,
    or nothing when the request raises, the status is not 200 or the body is
    not JSON.  A body without a [features] key is the empty page. *)
Variable service : nat -> option (list Feature).

(** The [while True] loop of [download_csv], with the number of requests it
    may make; nothing when that number is used up before the loop ends. *)
Fixpoint download_loop (requests : nat) (offset : nat) (all_features : list Feature)
  : option (list Feature) :=
  match requests with
  | O => None
  | S requests' =>
      match service offset with
      | None => Some all_features
      | Some [] => Some all_features
      | Some features =>
          let all_features := all_features ++ features in
          if (length features <? RECORD_COUNT)%nat then Some all_features
          else download_loop requests' (offset + length features) all_features
      end
  end.

(** The features [download_csv] accumulates before it writes the file. *)
Definition download_all (requests : nat) : option (list Feature) :=
  download_loop requests 0 [].

(** A service that serves a fixed data set page by page. *)
Definition serves (data : list Feature) : Prop :=
  forall offset, service offset = Some (firstn RECORD_COUNT (skipn offset data)).

Lemma firstn_then_page (n m : nat) (l : list Feature) :
  (firstn n l ++ firstn m (skipn n l))%list = firstn (n + m) l.
Proof.
  revert l. induction n as [|n IH]; intro l; simpl; [reflexivity|].
  destruct l as [|x l]; simpl.
  - now rewrite firstn_nil.
  - f_equal. apply IH.
Qed.

Lemma download_loop_complete (data : list Feature) :
  serves data ->
  forall requests offset,
    (offset <= length data)%nat ->
    (length data - offset < requests * RECORD_COUNT)%nat ->
    download_loop requests offset (firstn offset data) = Some data.
Proof.
  intro Hs. induction requests as [|requests IH]; intros offset Hle Hfuel.
  - simpl in Hfuel. lia.
  - cbn [download_loop]. rewrite Hs.
    assert (Hrc : RECORD_COUNT = 2000%nat) by reflexivity.
    pose proof (firstn_then_page offset RECORD_COUNT data) as Hsplit.
    assert (Hpage : length (firstn RECORD_COUNT (skipn offset data))
                    = Nat.min RECORD_COUNT (length data - offset)).
    { rewrite length_firstn, length_skipn. reflexivity. }
    destruct (firstn RECORD_COUNT (skipn offset data)) as [|x page'] eqn:Ep.
    + cbn [length] in Hpage.
      assert (offset = length data) by lia. subst offset.
      now rewrite firstn_all.
    + rewrite <- Ep in *.
      set (page := firstn RECORD_COUNT (skipn offset data)) in *.
      clearbody page. clear Ep.
      destruct (Nat.ltb_spec (length page) RECORD_COUNT) as [Hshort|Hfull].
      * rewrite Hsplit. f_equal. apply firstn_all2. lia.
      * replace (length page) with RECORD_COUNT by lia.
        rewrite Hsplit. apply IH; lia.
Qed.

End Pagination.

(** X7.  Against a service that serves a fixed data set in pages of 2000
    from any offset, the download collects exactly that data set, every
    record once and in order, as soon as it may make more than
    [length data / 2000] requests. *)
Theorem download_all_complete
    (Feature : Type) (service : nat -> option (list Feature))
    (data : list Feature) (requests : nat) :
  serves Feature service data ->
  (length data < requests * RECORD_COUNT)%nat ->
  download_all Feature service requests = Some data.
Proof.
  intros Hs Hfuel. unfold download_all.
  apply (download_loop_complete Feature service data Hs requests 0%nat);
    simpl; lia.
Qed.

Lemma download_all_complete_witness :
  download_all nat (fun offset => Some (firstn RECORD_COUNT (skipn offset [7; 8; 9]%nat))) 1
  = Some [7; 8; 9]%nat.
Proof.
  apply (download_all_complete nat _ [7; 8; 9]%nat 1).
  - intro offset. reflexivity.
  - unfold RECORD_COUNT. simpl. lia.
Defined.

End Download.

(* ================================================================== *)
(** * forecasting.py: what the selection guarantees *)
(* ================================================================== *)

Module ForecastingProperties.
Import Numeric Forecasting.
Local Open Scope string_scope.

(** Safety scores between 0 and 100, as the scoring engine produces them. *)
Definition scores_in_range (history : list HistoryEntry) : Prop :=
  Forall (fun h => 0 <= safety_score h <= 100) history.

(** The names the source gives its models. *)
Definition model_names : list string :=
  [ "Seasonal Decomp"; "Holt (Exp Smoothing)"; "Polynomial Reg";
    "Linear Regression"; "Moving Average" ].

(** ** Facts *)

Lemma append_empty (s : string) : s ++ "" = s.
Proof.
  induction s as [|c s IH]; simpl; [reflexivity|now rewrite IH].
Qed.

Lemma clamp_0_100_bounds (v : Q) : 0 <= clamp_0_100 v <= 100.
Proof.
  unfold clamp_0_100. qcases; split; lra.
Qed.

Lemma fit_result_range (v e : Q) :
  0 <= fit_predicted_score (fit_result v e) <= 100.
Proof.
  unfold fit_result. cbn. apply py_round1_bounds, clamp_0_100_bounds.
Qed.

Lemma min_by_rmse_In (best : NamedFit) (rest : list NamedFit) :
  In (min_by_rmse best rest) (best :: rest).
Proof.
  revert best. induction rest as [|r rest IH]; intro best; simpl.
  - now left.
  - destruct (Qltb _ _).
    + right. apply IH.
    + destruct (IH best) as [H|H]; [now left|now right; right].
Qed.

Lemma min_by_rmse_least (best : NamedFit) (rest : list NamedFit) :
  fit_rmse (fit (min_by_rmse best rest)) <= fit_rmse (fit best)
  /\ forall r, In r rest ->
       fit_rmse (fit (min_by_rmse best rest)) <= fit_rmse (fit r).
Proof.
  revert best. induction rest as [|r rest IH]; intro best; simpl.
  - split; [apply Qle_refl|intros r []].
  - destruct (Qltb (fit_rmse (fit r)) (fit_rmse (fit best))) eqn:E.
    + apply Qltb_lt in E. destruct (IH r) as [H1 H2]. split.
      * apply Qle_trans with (fit_rmse (fit r)); [exact H1|].
        now apply Qlt_le_weak.
      * intros r' [<-|Hr']; [exact H1|now apply H2].
    + apply Qltb_ge in E. destruct (IH best) as [H1 H2]. split; [exact H1|].
      intros r' [<-|Hr']; [|now apply H2].
      now apply Qle_trans with (fit_rmse (fit best)).
Qed.

Section SelectionFacts.
Context {lib : StatsLibrary}.

Lemma run_models_In (ms : list (string * (list HistoryEntry -> option ModelFit)))
                    (history : list HistoryEntry) (nf : NamedFit) :
  In nf (run_models ms history)
  <-> exists fit_func, In (model nf, fit_func) ms
                       /\ fit_func history = Some (fit nf).
Proof.
  induction ms as [|[name f] ms IH]; simpl.
  - split; [intros []|intros [f [[] _]]].
  - destruct (f history) as [forecast|] eqn:E; simpl; rewrite IH; split.
    + intros [<-|[f' [Hin Hf]]].
      * exists f. split; [now left|exact E].
      * exists f'. split; [now right|exact Hf].
    + intros [f' [[H|Hin] Hf]].
      * injection H as -> ->. left. destruct nf as [m ft]. simpl in *.
        congruence.
      * right. exists f'. now split.
    + intros [f' [Hin Hf]]. exists f'. split; [now right|exact Hf].
    + intros [f' [[H|Hin] Hf]].
      * injection H as -> ->. congruence.
      * exists f'. now split.
Qed.

Ltac active_model_goals :=
  refine (conj _ (conj _ (conj _ (conj _ _))));
  [ simpl; auto 10
  | lia
  | intro; first [lia | discriminate]
  | intro; first [lia | discriminate]
  | apply fit_result_range ].

(** A fitted model among the active ones: its name, its data requirement,
    and the range of its forecast. *)
Lemma active_model (history : list HistoryEntry) (nf : NamedFit) :
  In nf (run_models models history) ->
  In (model nf) model_names
  /\ (3 <= length history)%nat
  /\ (model nf = "Seasonal Decomp" -> (6 <= length history)%nat)
  /\ (model nf = "Polynomial Reg" -> (4 <= length history)%nat)
  /\ 0 <= fit_predicted_score (fit nf) <= 100.
Proof.
  intro H. apply run_models_In in H. destruct H as [f [Hin Hf]].
  unfold models in Hin. simpl in Hin.
  destruct Hin as [H|[H|[H|[H|[H|[]]]]]]; injection H as Hname <-;
    rewrite <- Hname; unfold model_names.
  - unfold fit_seasonal_decompose in Hf.
    destruct (Nat.ltb_spec (length history) 6); [discriminate|].
    destruct (seasonal_trend_model _ _) as [[v e]|]; [|discriminate].
    injection Hf as <-.
    active_model_goals.
  - unfold fit_holt in Hf.
    destruct (Nat.ltb_spec (length history) 3); [discriminate|].
    destruct (holt_model _) as [[v e]|]; [|discriminate].
    injection Hf as <-.
    active_model_goals.
  - unfold fit_polynomial in Hf.
    destruct (Nat.ltb_spec (length history) 4); [discriminate|].
    destruct (polynomial_model _ _ _ _) as [[v e]|]; [|discriminate].
    injection Hf as <-.
    active_model_goals.
  - unfold fit_linear_regression in Hf.
    destruct (Nat.ltb_spec (length history) 3); [discriminate|].
    destruct (linear_regression_model _ _ _) as [[v e]|]; [|discriminate].
    injection Hf as <-.
    active_model_goals.
  - unfold fit_moving_average in Hf.
    destruct (Nat.ltb_spec (length history) 3); [discriminate|].
    injection Hf as <-.
    active_model_goals.
Qed.

(** With three entries or more the moving average always competes. *)
Lemma moving_average_competes (history : list HistoryEntry) :
  (3 <= length history)%nat ->
  exists nf, In nf (run_models models history).
Proof.
  intro H.
  destruct (fit_moving_average history) as [ft|] eqn:E.
  - exists (mkNamed "Moving Average" ft). apply run_models_In.
    exists fit_moving_average. split; [|exact E].
    unfold models. simpl. auto 10.
  - unfold fit_moving_average in E.
    destruct (Nat.ltb_spec (length history) 3); [lia|discriminate].
Qed.

Lemma current_score_in_range (history : list HistoryEntry) :
  history <> [] -> scores_in_range history ->
  0 <= current_score_of history <= 100.
Proof.
  intros Hne Hr. unfold current_score_of, scores_in_range in *.
  rewrite Forall_forall in Hr. apply Hr.
  destruct (exists_last Hne) as [l [x ->]].
  rewrite last_last. apply in_or_app. right. now left.
Qed.

(** The shape of the answer once the models ran. *)
Lemma select_best_forecast_selected (history : list HistoryEntry) :
  (3 <= length history)%nat ->
  exists best,
    In best (run_models models history)
    /\ (forall nf, In nf (run_models models history) ->
                   fit_rmse (fit best) <= fit_rmse (fit nf))
    /\ rmse (select_best_forecast history) = fit_rmse (fit best)
    /\ confidence_interval (select_best_forecast history)
       = CIPlusMinus (fit_confidence_interval (fit best))
    /\ (model_used (select_best_forecast history) = model best
        \/ model_used (select_best_forecast history)
           = model best ++ " (Adjusted)")
    /\ (predicted_score (select_best_forecast history)
        = fit_predicted_score (fit best)
        \/ predicted_score (select_best_forecast history)
           = current_score_of history).
Proof.
  intro Hlen. unfold select_best_forecast.
  destruct (Nat.ltb_spec (length history) 3) as [|_]; [lia|].
  destruct (moving_average_competes history Hlen) as [nf0 Hnf0].
  destruct (run_models models history) as [|r results]; [destruct Hnf0|].
  exists (min_by_rmse r results).
  split; [apply min_by_rmse_In|].
  split.
  { destruct (min_by_rmse_least r results) as [H1 H2].
    intros nf [<-|Hin]; [exact H1|exact (H2 nf Hin)]. }
  unfold trend_override.
  destruct (Qltb 10 _); [destruct (Qltb _ (current_score_of history))|
    destruct (Qltb _ (-10)); [destruct (Qltb (current_score_of history) _)|]];
    cbn; rewrite ?append_empty;
    repeat split; auto.
Qed.

End SelectionFacts.

(** A library with unequal errors: Holt forecasts 55 with error 3, the linear
    regression 60 with error 1, the other fits fail. *)
Definition uneven_library : StatsLibrary :=
  {| holt_model := fun _ => Some (55, 3);
     seasonal_trend_model := fun _ _ => None;
     linear_regression_model := fun _ _ _ => Some (60, 1);
     polynomial_model := fun _ _ _ _ => None;
     np_sqrt := fun x => x |}.

Definition rising_history : list HistoryEntry :=
  [ mkHistory 2022 58 4; mkHistory 2023 60 3; mkHistory 2024 75 1 ].

Lemma rising_history_in_range : scores_in_range rising_history.
Proof.
  repeat constructor; simpl; unfold Qle; simpl; lia.
Qed.

(** X8.  With three history entries or more, the reported [rmse] is the
    least error among the models that produced a forecast, and [model_used]
    is the name of a model with that error, with or without " (Adjusted)". *)
Theorem select_best_forecast_least_rmse {lib : StatsLibrary}
    (history : list HistoryEntry) :
  (3 <= length history)%nat ->
  (forall nf, In nf (run_models models history) ->
              rmse (select_best_forecast history) <= fit_rmse (fit nf))
  /\ exists best,
       In best (run_models models history)
       /\ rmse (select_best_forecast history) = fit_rmse (fit best)
       /\ (model_used (select_best_forecast history) = model best
           \/ model_used (select_best_forecast history)
              = model best ++ " (Adjusted)").
Proof.
  intro Hlen.
  destruct (select_best_forecast_selected history Hlen)
    as [best [Hin [Hmin [Hr [_ [Hm _]]]]]].
  split.
  - intros nf Hnf. rewrite Hr. now apply Hmin.
  - exists best. repeat split; assumption.
Qed.

Lemma select_best_forecast_least_rmse_witness :
  rmse (select_best_forecast (lib := uneven_library) rising_history) = 100 # 100
  /\ model_used (select_best_forecast (lib := uneven_library) rising_history)
     = "Linear Regression (Adjusted)".
Proof.
  destruct (select_best_forecast_least_rmse (lib := uneven_library)
              rising_history ltac:(simpl; lia)) as [_ [best _]].
  split; reflexivity.
Defined.

(** X9.  With three history entries or more some model always produces a
    forecast (the moving average needs nothing else), so the answer is never
    the "Fallback" or the "Insufficient Data" one: [model_used] is one of the
    five model names, with or without " (Adjusted)". *)
Theorem select_best_forecast_never_falls_back {lib : StatsLibrary}
    (history : list HistoryEntry) :
  (3 <= length history)%nat ->
  model_used (select_best_forecast history) <> "Fallback"
  /\ model_used (select_best_forecast history) <> "Insufficient Data"
  /\ exists name, In name model_names
       /\ (model_used (select_best_forecast history) = name
           \/ model_used (select_best_forecast history)
              = name ++ " (Adjusted)").
Proof.
  intro Hlen.
  destruct (select_best_forecast_selected history Hlen)
    as [best [Hin [_ [_ [_ [Hm _]]]]]].
  destruct (active_model history best Hin) as [Hname _].
  assert (Hnames : forall name, In name model_names ->
            name <> "Fallback" /\ name <> "Insufficient Data"
            /\ name ++ " (Adjusted)" <> "Fallback"
            /\ name ++ " (Adjusted)" <> "Insufficient Data").
  { intros name H. unfold model_names in H. simpl in H.
    repeat (destruct H as [<-|H]; [repeat split; discriminate|]).
    destruct H. }
  destruct (Hnames _ Hname) as [H1 [H2 [H3 H4]]].
  split; [destruct Hm as [->| ->]; assumption|].
  split; [destruct Hm as [->| ->]; assumption|].
  exists (model best). split; assumption.
Qed.

Lemma select_best_forecast_never_falls_back_witness :
  model_used (select_best_forecast (lib := constant_library 55 1) rising_history)
  <> "Fallback".
Proof.
  exact (proj1 (select_best_forecast_never_falls_back
                  (lib := constant_library 55 1) rising_history
                  ltac:(simpl; lia))).
Defined.

(** X10.  If every safety score of the history lies between 0 and 100, so
    does the predicted score, whatever the models return (an empty history
    is answered 50). *)
Theorem select_best_forecast_in_range {lib : StatsLibrary}
    (history : list HistoryEntry) :
  scores_in_range history ->
  0 <= predicted_score (select_best_forecast history) <= 100.
Proof.
  intro Hr.
  destruct (Nat.ltb_spec (length history) 3) as [Hshort|Hlen].
  - unfold select_best_forecast.
    destruct (Nat.ltb_spec (length history) 3) as [_|]; [|lia].
    destruct history as [|h history]; cbn [predicted_score].
    + split; unfold Qle; simpl; lia.
    + apply current_score_in_range; [discriminate|exact Hr].
  - destruct (select_best_forecast_selected history Hlen)
      as [best [Hin [_ [_ [_ [_ [-> | ->]]]]]]].
    + now apply (active_model history best).
    + apply current_score_in_range; [|exact Hr].
      destruct history; [simpl in Hlen; lia|discriminate].
Qed.

Lemma select_best_forecast_in_range_witness :
  0 <= predicted_score (select_best_forecast (lib := uneven_library)
                                             rising_history) <= 100.
Proof.
  exact (select_best_forecast_in_range (lib := uneven_library) rising_history
           rising_history_in_range).
Defined.

(** X11.  On a non-empty history the reported trend never contradicts the
    reported prediction: [Improving] comes with a prediction not below the
    current score, [Declining] with one not above it, and [Stable] with one
    within 2 points of it. *)
Theorem trend_agrees_with_prediction {lib : StatsLibrary}
    (history : list HistoryEntry) :
  history <> [] ->
  let f := select_best_forecast history in
  let current := current_score_of history in
  match trend_direction f with
  | Improving => current <= predicted_score f
  | Declining => predicted_score f <= current
  | Stable => Qabs (predicted_score f - current) <= 2
  end.
Proof.
  intros Hne f current. subst f. unfold select_best_forecast.
  assert (Hzero : Qabs (current - current) <= 2).
  { apply Qabs_Qle_condition. split; lra. }
  destruct (length history <? 3)%nat.
  { destruct history; [congruence|].
    cbn [trend_direction predicted_score]. exact Hzero. }
  destruct (run_models models history) as [|r results].
  { cbn [trend_direction predicted_score]. exact Hzero. }
  fold current. unfold trend_override, final_trend.
  set (p := fit_predicted_score (fit (min_by_rmse r results))).
  set (d := current - previous_score_of history).
  clearbody p d.
  destruct (Qltb 10 d).
  { destruct (Qltb p current) eqn:E1; cbn [trend_direction predicted_score].
    - apply Qle_refl.
    - apply Qltb_ge in E1.
      destruct (Qltb (current + 2) p) eqn:E2;
        [apply Qltb_lt in E2; lra|apply Qltb_ge in E2].
      destruct (Qltb p (current - 2)) eqn:E3;
        [apply Qltb_lt in E3; lra|apply Qltb_ge in E3].
      apply Qabs_Qle_condition. split; lra. }
  destruct (Qltb d (-10)).
  { destruct (Qltb current p) eqn:E1; cbn [trend_direction predicted_score].
    - apply Qle_refl.
    - apply Qltb_ge in E1.
      destruct (Qltb (current + 2) p) eqn:E2;
        [apply Qltb_lt in E2; lra|apply Qltb_ge in E2].
      destruct (Qltb p (current - 2)) eqn:E3;
        [apply Qltb_lt in E3; lra|apply Qltb_ge in E3].
      apply Qabs_Qle_condition. split; lra. }
  cbn [trend_direction predicted_score].
  destruct (Qltb (current + 2) p) eqn:E2;
    [apply Qltb_lt in E2; lra|apply Qltb_ge in E2].
  destruct (Qltb p (current - 2)) eqn:E3;
    [apply Qltb_lt in E3; lra|apply Qltb_ge in E3].
  apply Qabs_Qle_condition. split; lra.
Qed.

Lemma trend_agrees_with_prediction_witness :
  trend_direction (select_best_forecast (lib := uneven_library) rising_history)
  = Improving
  /\ current_score_of rising_history
     <= predicted_score (select_best_forecast (lib := uneven_library)
                                              rising_history).
Proof.
  split; [reflexivity|].
  exact (trend_agrees_with_prediction (lib := uneven_library) rising_history
           ltac:(discriminate)).
Defined.

(** X12.  A model is never reported on fewer points than it requires: the
    seasonal decomposition is used only on 6 entries or more, the polynomial
    regression only on 4 or more. *)
Theorem selected_model_has_enough_data {lib : StatsLibrary}
    (history : list HistoryEntry) :
  (3 <= length history)%nat ->
  let used := model_used (select_best_forecast history) in
  ((used = "Seasonal Decomp" \/ used = "Seasonal Decomp (Adjusted)") ->
   (6 <= length history)%nat)
  /\ ((used = "Polynomial Reg" \/ used = "Polynomial Reg (Adjusted)") ->
      (4 <= length history)%nat).
Proof.
  intros Hlen used. subst used.
  destruct (select_best_forecast_selected history Hlen)
    as [best [Hin [_ [_ [_ [Hm _]]]]]].
  destruct (active_model history best Hin) as [Hname [_ [H6 [H4 _]]]].
  unfold model_names in Hname. simpl in Hname.
  split; intro Hused.
  - destruct Hname as [E|[E|[E|[E|[E|[]]]]]]; rewrite <- E in *;
      try (apply H6; reflexivity);
      exfalso; destruct Hm as [Hm|Hm]; rewrite Hm in Hused; simpl in Hused;
      destruct Hused as [H|H]; discriminate H.
  - destruct Hname as [E|[E|[E|[E|[E|[]]]]]]; rewrite <- E in *;
      try (apply H4; reflexivity);
      exfalso; destruct Hm as [Hm|Hm]; rewrite Hm in Hused; simpl in Hused;
      destruct Hused as [H|H]; discriminate H.
Qed.

Lemma selected_model_has_enough_data_witness :
  (3 <= length rising_history)%nat
  /\ model_used (select_best_forecast (lib := constant_library 55 1)
                                      rising_history)
     <> "Seasonal Decomp".
Proof.
  split; [simpl; lia|].
  intro Hused.
  pose proof (proj1 (selected_model_has_enough_data
                       (lib := constant_library 55 1) rising_history
                       ltac:(simpl; lia)) (or_introl Hused)) as H.
  simpl in H. lia.
Defined.

End ForecastingProperties.

(* ================================================================== *)
(** * scoring.py: what a response guarantees *)
(* ================================================================== *)

Module ScoringProperties.
Import Numeric PyString Platform Scoring.
Local Open Scope string_scope.

(** ** Rounding and counting are monotone *)

Ltac compare_fact H :=
  first [apply Qeq_alt in H | apply Qlt_alt in H | apply Qgt_alt in H].

Lemma round_half_even_monotone (x y : Q) :
  x <= y -> (round_half_even x <= round_half_even y)%Z.
Proof.
  intro H.
  pose proof (Qfloor_resp_le x y H) as Hf.
  pose proof (round_half_even_floor x) as Hx.
  pose proof (round_half_even_floor y) as Hy.
  destruct (Z.eq_dec (Qfloor x) (Qfloor y)) as [E|NE]; [|lia].
  clear Hx Hy Hf.
  unfold round_half_even. rewrite E.
  destruct (Qcompare (x - inject_Z (Qfloor y)) (1 # 2)) eqn:Cx;
    destruct (Qcompare (y - inject_Z (Qfloor y)) (1 # 2)) eqn:Cy;
    try (destruct (Z.even (Qfloor y))); try lia;
    compare_fact Cx; compare_fact Cy; exfalso; lra.
Qed.

Lemma py_round1_monotone (x y : Q) : x <= y -> py_round1 x <= py_round1 y.
Proof.
  intro H. unfold py_round1, Qle. simpl.
  assert (Hm : (round_half_even (x * 10) <= round_half_even (y * 10))%Z).
  { apply round_half_even_monotone. lra. }
  lia.
Qed.

Lemma count_lt_monotone (a : list Q) (x y : Q) :
  x <= y -> (count_lt a x <= count_lt a y)%nat.
Proof.
  intro H. unfold count_lt.
  induction a as [|z a IH]; simpl; [lia|].
  destruct (Qltb z x) eqn:Ex.
  - apply Qltb_lt in Ex.
    assert (Ey : Qltb z y = true) by (apply Qltb_lt; lra).
    rewrite Ey. simpl. lia.
  - destruct (Qltb z y); simpl; lia.
Qed.

(** The bounds of the lookup, from the bounds of its parts. *)
Lemma lookup_bounds (raw_score : Q) (distribution : list Q) :
  0 <= fst (calculate_percentile_score raw_score distribution) <= 100
  /\ 0 <= snd (calculate_percentile_score raw_score distribution) <= 100.
Proof.
  unfold calculate_percentile_score.
  destruct distribution as [|d distribution].
  { simpl. repeat split; unfold Qle; simpl; lia. }
  destruct (Qle_bool raw_score 0).
  { simpl. repeat split; unfold Qle; simpl; lia. }
  pose proof (percent_of_share_bounds
                (bisect_left (d :: distribution) raw_score)
                (length (d :: distribution))
                (bisect_left_le_length _ _) ltac:(simpl; lia)) as Hp.
  cbn [fst snd]. split.
  - apply py_round1_bounds. now apply percentile_to_safety_score_range.
  - now apply py_round1_bounds.
Qed.

(** X13.  On an ascending reference distribution the lookup is monotone: a
    higher raw score never gets a higher safety score nor a lower
    percentile. *)
Theorem calculate_percentile_score_monotone
    (raw1 raw2 : Q) (distribution : list Q) :
  Sorted Qle distribution -> raw1 <= raw2 ->
  fst (calculate_percentile_score raw2 distribution)
    <= fst (calculate_percentile_score raw1 distribution)
  /\ snd (calculate_percentile_score raw1 distribution)
     <= snd (calculate_percentile_score raw2 distribution).
Proof.
  intros HS Hle.
  pose proof (lookup_bounds raw2 distribution) as [[_ Hs2] [Hp2 _]].
  unfold calculate_percentile_score in *.
  destruct distribution as [|d distribution].
  { split; apply Qle_refl. }
  set (l := d :: distribution) in *.
  destruct (Qle_bool raw1 0) eqn:E1.
  - destruct (Qle_bool raw2 0) eqn:E2; [split; apply Qle_refl|].
    cbn [fst snd] in *. split; assumption.
  - apply Qle_bool_false in E1.
    assert (E2 : Qle_bool raw2 0 = false) by (apply Qle_bool_false; lra).
    rewrite E2. cbn [fst snd].
    rewrite !(bisect_left_count_lt l _ HS).
    pose proof (count_lt_monotone l raw1 raw2 Hle) as Hc.
    assert (Hn : 0 < inject_Z (Z.of_nat (length l))).
    { change 0 with (inject_Z 0). rewrite <- Zlt_Qlt. unfold l. simpl. lia. }
    assert (Hp : inject_Z (Z.of_nat (count_lt l raw1))
                 / inject_Z (Z.of_nat (length l)) * 100
                 <= inject_Z (Z.of_nat (count_lt l raw2))
                    / inject_Z (Z.of_nat (length l)) * 100).
    { apply Qmult_le_compat_r; [|unfold Qle; simpl; lia].
      unfold Qdiv. apply Qmult_le_compat_r.
      - rewrite <- Zle_Qle. lia.
      - apply Qlt_le_weak. now apply Qinv_lt_0_compat. }
    split.
    + apply py_round1_monotone.
      now apply percentile_to_safety_score_monotone.
    + now apply py_round1_monotone.
Qed.

Lemma calculate_percentile_score_monotone_witness :
  fst (calculate_percentile_score 6 [1; 2; 2; 5; 8])
    <= fst (calculate_percentile_score 3 [1; 2; 2; 5; 8])
  /\ snd (calculate_percentile_score 3 [1; 2; 2; 5; 8])
     <= snd (calculate_percentile_score 6 [1; 2; 2; 5; 8]).
Proof.
  apply calculate_percentile_score_monotone.
  - repeat constructor; unfold Qle; simpl; lia.
  - unfold Qle; simpl; lia.
Defined.

(** ** The two shapes of a response *)

Definition in_range (q : Q) : Prop := 0 <= q <= 100.

Lemma preprocess_nil {clock : Clock} (df : list Ingest.Incident) :
  preprocess df = Some [] -> df = [].
Proof.
  destruct df as [|r df]; [reflexivity|]. simpl.
  destruct (pd_days_old _); [|discriminate].
  destruct (preprocess df); discriminate.
Qed.

Section ResponseFacts.
Context {numpy : NumPy} {clock : Clock} {stats : Forecasting.StatsLibrary}
        {pandas : Pandas}.
Variable B : Baseline.

(** With rows in the radius the response is built from them. *)
Lemma calculate_score_respond (tbl : Ingest.Table) (lat lon radius_km : Q)
                              (rows : list Row) :
  rows_in_radius tbl lat lon radius_km = Some rows -> rows <> [] ->
  calculate_score B tbl lat lon radius_km = Some (respond B rows).
Proof.
  unfold rows_in_radius, calculate_score. intros E Hne.
  destruct (fetch_candidates tbl lat lon radius_km) as [|c df].
  { simpl in E. congruence. }
  destruct (within_radius lat lon radius_km (c :: df)) as [|c' df'].
  { simpl in E. congruence. }
  rewrite E. reflexivity.
Qed.

(** A response is the default one or is built from the rows in the radius. *)
Lemma calculate_score_shape (tbl : Ingest.Table) (lat lon radius_km : Q)
                            (resp : ScoreResponse) :
  calculate_score B tbl lat lon radius_km = Some resp ->
  resp = base_response
  \/ exists rows, rows_in_radius tbl lat lon radius_km = Some rows
                  /\ rows <> [] /\ resp = respond B rows.
Proof.
  unfold rows_in_radius, calculate_score.
  destruct (fetch_candidates tbl lat lon radius_km) as [|c df].
  { intro H. injection H as <-. now left. }
  destruct (within_radius lat lon radius_km (c :: df)) as [|c' df'] eqn:Ew.
  { intro H. injection H as <-. now left. }
  destruct (preprocess (c' :: df')) as [rows|] eqn:Ep; [|discriminate].
  intro H. injection H as <-. right. exists rows.
  split; [reflexivity|]. split; [|reflexivity].
  intros ->. apply preprocess_nil in Ep. discriminate.
Qed.

Lemma current_score_and_percentile_range (df_current : list Row) :
  in_range (fst (current_score_and_percentile B df_current))
  /\ in_range (snd (current_score_and_percentile B df_current)).
Proof.
  unfold current_score_and_percentile, in_range.
  destruct df_current; [|apply lookup_bounds].
  simpl. repeat split; unfold Qle; simpl; lia.
Qed.

Lemma history_entry_range (df : list Row) (i : nat) :
  in_range (Forecasting.safety_score (history_entry B df i)).
Proof.
  unfold history_entry, in_range.
  destruct (filter _ df); simpl Forecasting.safety_score;
    [split; unfold Qle; simpl; lia|apply lookup_bounds].
Qed.

Lemma temporal_breakdown_range (df_current : list Row) :
  in_range (day_safety_score (temporal_breakdown_of B df_current))
  /\ in_range (night_safety_score (temporal_breakdown_of B df_current)).
Proof.
  unfold temporal_breakdown_of, in_range.
  destruct df_current; simpl day_safety_score; simpl night_safety_score.
  - repeat split; unfold Qle; simpl; lia.
  - split; apply lookup_bounds.
Qed.

Lemma category_entry_range (df_current : list Row) (cat : string) (w : Q)
                           (e : CategoryEntry) :
  category_entry B df_current cat w = Some e ->
  in_range (entry_safety_score e) /\ in_range (category_percentile e).
Proof.
  unfold category_entry, in_range.
  destruct (length _ =? 0)%nat; [discriminate|].
  intro H. injection H as <-. cbn [entry_safety_score category_percentile].
  apply lookup_bounds.
Qed.

End ResponseFacts.

Lemma py_int_range (q : Q) : in_range q -> (0 <= py_int q <= 100)%Z.
Proof.
  intros [H0 H100]. unfold py_int.
  assert (Hn : (0 <= Qnum q)%Z).
  { unfold Qle in H0. simpl in H0. lia. }
  rewrite Z.quot_div_nonneg by lia.
  change (Qnum q / Z.pos (Qden q))%Z with (Qfloor (Qnum q # Qden q)).
  destruct q as [n d]. simpl Qnum. simpl Qden. split.
  - rewrite <- (Qfloor_Z 0). now apply Qfloor_resp_le.
  - rewrite <- (Qfloor_Z 100). now apply Qfloor_resp_le.
Qed.

(** X14.  Every score of a response lies between 0 and 100: the current
    score and its percentile, the day and night scores, the safety score of
    each year of the history, the safety score and percentile of each
    category, and the city percentile of the benchmark. *)
Theorem response_scores_in_range
    {numpy : NumPy} {clock : Clock} {stats : Forecasting.StatsLibrary}
    {pandas : Pandas} (B : Baseline) (tbl : Ingest.Table)
    (lat lon radius_km : Q) (resp : ScoreResponse) :
  calculate_score B tbl lat lon radius_km = Some resp ->
  in_range (current_score resp)
  /\ in_range (overall_percentile resp)
  /\ in_range (day_safety_score (temporal_breakdown resp))
  /\ in_range (night_safety_score (temporal_breakdown resp))
  /\ Forall (fun h => in_range (Forecasting.safety_score h)) (history resp)
  /\ Forall (fun ce => in_range (entry_safety_score (snd ce))
                       /\ in_range (category_percentile (snd ce)))
            (category_breakdown resp)
  /\ (0 <= city_percentile (benchmark resp) <= 100)%Z.
Proof.
  intro H. apply calculate_score_shape in H.
  destruct H as [->|[rows [_ [_ ->]]]].
  - unfold in_range. cbn.
    repeat match goal with |- _ /\ _ => split end;
      try constructor; try (unfold Qle; simpl; lia); lia.
  - unfold respond.
    cbn [current_score overall_percentile temporal_breakdown history
         category_breakdown benchmark].
    pose proof (current_score_and_percentile_range B (current_rows rows))
      as [Hs Hp].
    pose proof (temporal_breakdown_range B (current_rows rows)) as [Hd Hn].
    repeat match goal with |- _ /\ _ => split end; try assumption.
    + apply Forall_forall. intros h Hin. unfold history_of in Hin.
      apply in_map_iff in Hin. destruct Hin as [i [<- _]].
      apply history_entry_range.
    + apply Forall_forall. intros [cat e] Hin.
      apply category_breakdown_of_In, breakdown_loop_In in Hin.
      destruct Hin as [w [_ He]]. simpl.
      now apply (category_entry_range B (current_rows rows) cat w).
    + unfold benchmark_of. cbn [city_percentile].
      apply py_int_range. unfold in_range in *. split; lra.
    + unfold benchmark_of. cbn [city_percentile].
      apply py_int_range. unfold in_range in *. split; lra.
Qed.

Lemma response_scores_in_range_witness :
  exists resp,
    calculate_score (numpy := example_numpy) (clock := example_clock)
                    (stats := example_stats) (pandas := example_pandas)
                    no_baseline assaults_table
                    city_hall_lat city_hall_lon (8 # 10) = Some resp
    /\ in_range (current_score resp)
    /\ (0 <= city_percentile (benchmark resp) <= 100)%Z.
Proof.
  eexists. split; [vm_compute; reflexivity|].
  pose proof (response_scores_in_range
                (numpy := example_numpy) (clock := example_clock)
                (stats := example_stats) (pandas := example_pandas)
                no_baseline assaults_table city_hall_lat city_hall_lon
                (8 # 10) _ eq_refl) as [H1 [_ [_ [_ [_ [_ H2]]]]]].
  split; [exact H1|exact H2].
Defined.

(** ** The history *)

(** The incidents a history counts. *)
Definition total_incidents (h : list Forecasting.HistoryEntry) : Z :=
  fold_right Z.add 0%Z (map Forecasting.incident_count h).

(** Rows aged from 0 days up to, but not including, [n] years of 365 days. *)
Definition aged_below (n : nat) (df : list Row) : list Row :=
  filter (fun r => (0 <=? days_old r)%Z && (days_old r <? Z.of_nat n * 365)%Z) df.

Lemma insert_by_year_last (h : Forecasting.HistoryEntry)
                          (l : list Forecasting.HistoryEntry) :
  Forall (fun x => (Forecasting.year x < Forecasting.year h)%Z) l ->
  insert_by_year h l = (l ++ [h])%list.
Proof.
  induction 1 as [|x l Hx Hl IH]; simpl; [reflexivity|].
  destruct (Z.leb_spec (Forecasting.year h) (Forecasting.year x)); [lia|].
  now rewrite IH.
Qed.

Lemma sorted_by_year_descending (g : nat -> Forecasting.HistoryEntry) (base : Z) :
  (forall i, Forecasting.year (g i) = (base - Z.of_nat i)%Z) ->
  forall n s, sorted_by_year (map g (seq s n)) = rev (map g (seq s n)).
Proof.
  intros Hg. induction n as [|n IH]; intro s; [reflexivity|].
  cbn [seq map]. unfold sorted_by_year in *. cbn [fold_right rev].
  rewrite IH. apply insert_by_year_last.
  apply Forall_forall. intros x Hx. apply in_rev in Hx.
  apply in_map_iff in Hx. destruct Hx as [j [<- Hj]].
  apply in_seq in Hj. rewrite !Hg. lia.
Qed.

Lemma filter_split_length {A} (f g h : A -> bool) (l : list A) :
  (forall x, f x = g x || h x) ->
  (forall x, g x && h x = false) ->
  length (filter f l) = (length (filter g l) + length (filter h l))%nat.
Proof.
  intros Hor Hdis. induction l as [|x l IH]; simpl; [reflexivity|].
  rewrite Hor. specialize (Hdis x).
  destruct (g x), (h x); simpl in *; try discriminate; lia.
Qed.

Section HistoryFacts.
Context {numpy : NumPy} {clock : Clock}.
Variable B : Baseline.

Lemma history_entry_year (df : list Row) (i : nat) :
  Forecasting.year (history_entry B df i) = (now_year - Z.of_nat i)%Z.
Proof.
  unfold history_entry. destruct (filter _ df); reflexivity.
Qed.

Lemma history_entry_count (df : list Row) (i : nat) :
  Forecasting.incident_count (history_entry B df i)
  = Z.of_nat (length (filter (fun r =>
                        (Z.of_nat i * 365 <=? days_old r)%Z
                        && (days_old r <? (Z.of_nat i + 1) * 365)%Z) df)).
Proof.
  unfold history_entry. destruct (filter _ df); reflexivity.
Qed.

Lemma history_counts (df : list Row) (n s : nat) :
  s = 0%nat ->
  total_incidents (map (history_entry B df) (seq s n))
  = Z.of_nat (length (aged_below n df)).
Proof.
  intros ->. induction n as [|n IH].
  - simpl. unfold aged_below. rewrite filter_nothing; [reflexivity|].
    intros r _. apply andb_false_iff.
    destruct (Z.leb_spec 0 (days_old r)); [right|now left].
    apply Z.ltb_ge. lia.
  - rewrite seq_S, map_app. unfold total_incidents in *.
    rewrite map_app, fold_right_app. cbn [map fold_right seq].
    rewrite Z.add_0_r.
    assert (Hshift : forall (l : list Z) (z : Z),
               fold_right Z.add z l = (fold_right Z.add 0 l + z)%Z).
    { induction l as [|a l IHl]; intro z; simpl; [lia|].
      rewrite IHl. lia. }
    rewrite Hshift, IH, history_entry_count. cbn [Nat.add].
    unfold aged_below.
    rewrite (filter_split_length
               (fun r => (0 <=? days_old r)%Z
                         && (days_old r <? Z.of_nat (S n) * 365)%Z)
               (fun r => (0 <=? days_old r)%Z
                         && (days_old r <? Z.of_nat n * 365)%Z)
               (fun r => (Z.of_nat n * 365 <=? days_old r)%Z
                         && (days_old r <? (Z.of_nat n + 1) * 365)%Z)).
    + lia.
    + intro r.
      destruct (Z.leb_spec 0 (days_old r));
        destruct (Z.ltb_spec (days_old r) (Z.of_nat (S n) * 365));
        destruct (Z.ltb_spec (days_old r) (Z.of_nat n * 365));
        destruct (Z.leb_spec (Z.of_nat n * 365) (days_old r));
        destruct (Z.ltb_spec (days_old r) ((Z.of_nat n + 1) * 365));
        simpl; try reflexivity; lia.
    + intro r.
      destruct (Z.leb_spec 0 (days_old r));
        destruct (Z.ltb_spec (days_old r) (Z.of_nat n * 365));
        destruct (Z.leb_spec (Z.of_nat n * 365) (days_old r));
        destruct (Z.ltb_spec (days_old r) ((Z.of_nat n + 1) * 365));
        simpl; try reflexivity; lia.
Qed.

End HistoryFacts.

(** X15.  A response built from rows in the radius has a history of exactly
    ten years, the current year first and each entry one year before the
    previous one; the forecast is computed on that history in ascending year
    order; and the incident counts of the ten years add up to the number of
    rows aged from 0 to 3649 days (each such row is counted in exactly one
    year, future-dated and older rows in none). *)
Theorem response_history
    {numpy : NumPy} {clock : Clock} {stats : Forecasting.StatsLibrary}
    {pandas : Pandas} (B : Baseline) (tbl : Ingest.Table)
    (lat lon radius_km : Q) (rows : list Row) :
  rows_in_radius tbl lat lon radius_km = Some rows -> rows <> [] ->
  exists resp,
    calculate_score B tbl lat lon radius_km = Some resp
    /\ map Forecasting.year (history resp)
       = map (fun i => (now_year - Z.of_nat i)%Z) (seq 0 10)
    /\ forecast resp
       = Some (Forecasting.select_best_forecast (rev (history resp)))
    /\ total_incidents (history resp) = Z.of_nat (length (aged_below 10 rows)).
Proof.
  intros E Hne. exists (respond B rows).
  split; [now apply calculate_score_respond|].
  unfold respond. cbn [history forecast]. unfold history_of.
  split; [|split].
  - rewrite map_map. apply map_ext. intro i. apply history_entry_year.
  - f_equal. f_equal.
    apply (sorted_by_year_descending _ now_year (history_entry_year B rows)).
  - now apply history_counts.
Qed.

Lemma response_history_witness :
  exists resp,
    calculate_score (numpy := example_numpy) (clock := example_clock)
                    (stats := example_stats) (pandas := example_pandas)
                    no_baseline assaults_table
                    city_hall_lat city_hall_lon (8 # 10) = Some resp
    /\ map Forecasting.year (history resp)
       = [2026; 2025; 2024; 2023; 2022; 2021; 2020; 2019; 2018; 2017]%Z
    /\ total_incidents (history resp) = 6%Z.
Proof.
  destruct (response_history
              (numpy := example_numpy) (clock := example_clock)
              (stats := example_stats) (pandas := example_pandas)
              no_baseline assaults_table city_hall_lat city_hall_lon (8 # 10)
              (map (fun r => mkRow r
                             (if String.eqb (Ingest.date r) ten_days_ago
                              then 10 else 400)%Z 15)
                   assaults_table)
              ltac:(vm_compute; reflexivity) ltac:(discriminate))
    as [resp [Hr [Hy [_ Hc]]]].
  exists resp. split; [exact Hr|]. split.
  - rewrite Hy. reflexivity.
  - rewrite Hc. reflexivity.
Defined.

(** ** The risk tags *)

Lemma weighted_category_tag (cat : string) :
  In cat (map fst WEIGHTS) ->
  contains "Safe" (String.append "High " cat) = false.
Proof.
  simpl. intro H.
  repeat (destruct H as [<-|H]; [reflexivity|]). destruct H.
Qed.

Lemma category_tag_negative (cat : string) :
  contains "High" (String.append "High " cat) = true.
Proof. reflexivity. Qed.

Section TagFacts.
Context {numpy : NumPy} {pandas : Pandas}.
Variable B : Baseline.

Lemma breakdown_keys_weighted (df_current : list Row) (ce : string * CategoryEntry) :
  In ce (category_breakdown_of B df_current) -> In (fst ce) (map fst WEIGHTS).
Proof.
  destruct ce as [cat e]. intro H.
  apply category_breakdown_of_In, breakdown_loop_In in H.
  destruct H as [w [Hin _]]. apply in_map_iff. exists (cat, w). now split.
Qed.

(** The two lists of tags, for a breakdown whose keys are in the weight
    table. *)
Lemma risk_tags_of_lists (score : Q) (temporal : TemporalBreakdown)
                         (breakdown : list (string * CategoryEntry)) :
  (forall ce, In ce breakdown -> In (fst ce) (map fst WEIGHTS)) ->
  let rt := risk_tags_of score temporal breakdown in
  positive rt = (if Qle_bool 80 score then ["High Safety Area"] else [])
  /\ negative rt
     = ((if Qle_bool 80 score then ["High Safety Area"]
         else if Qle_bool score 40 then ["High Crime Area"] else [])
        ++ (if Qltb (night_safety_score temporal) (day_safety_score temporal - 20)
            then ["Nighttime Risk"] else [])
        ++ map (fun ce => String.append "High " (fst ce))
               (filter (fun ce => Qltb (entry_safety_score (snd ce)) 50)
                       breakdown))%list.
Proof.
  intros Hkeys rt. subst rt. unfold risk_tags_of.
  cbn [positive negative]. split.
  - rewrite !filter_app.
    rewrite (filter_nothing (fun t => contains "Safe" t)
               (map (fun ce => String.append "High " (fst ce)) _)).
    + destruct (Qle_bool 80 score); [|destruct (Qle_bool score 40)];
        destruct (Qltb _ _); reflexivity.
    + intros t Ht. apply in_map_iff in Ht. destruct Ht as [ce [<- Hce]].
      apply weighted_category_tag, Hkeys.
      apply filter_In in Hce. tauto.
  - apply filter_everything. intros t Ht.
    apply in_app_or in Ht. destruct Ht as [Ht|Ht].
    { destruct (Qle_bool 80 score); [|destruct (Qle_bool score 40)];
        simpl in Ht;
        first [destruct Ht as [<-|[]]; reflexivity | destruct Ht]. }
    apply in_app_or in Ht. destruct Ht as [Ht|Ht].
    { destruct (Qltb _ _); simpl in Ht;
        first [destruct Ht as [<-|[]]; reflexivity | destruct Ht]. }
    apply in_map_iff in Ht. destruct Ht as [ce [<- _]].
    rewrite category_tag_negative. reflexivity.
Qed.

End TagFacts.

(** X16.  In a response built from rows in the radius every tag is listed
    as negative, so each positive tag is a negative tag too: the positive
    list is "High Safety Area" alone when the current score is 80 or more,
    a tag the negative list then holds as well, and is empty otherwise. *)
Theorem response_risk_tags
    {numpy : NumPy} {clock : Clock} {stats : Forecasting.StatsLibrary}
    {pandas : Pandas} (B : Baseline) (tbl : Ingest.Table)
    (lat lon radius_km : Q) (rows : list Row) :
  rows_in_radius tbl lat lon radius_km = Some rows -> rows <> [] ->
  exists resp,
    calculate_score B tbl lat lon radius_km = Some resp
    /\ incl (positive (risk_tags resp)) (negative (risk_tags resp))
    /\ (80 <= current_score resp ->
        positive (risk_tags resp) = ["High Safety Area"]
        /\ In "High Safety Area" (negative (risk_tags resp)))
    /\ (current_score resp < 80 -> positive (risk_tags resp) = []).
Proof.
  intros E Hne. exists (respond B rows).
  split; [now apply calculate_score_respond|].
  unfold respond. cbn [risk_tags current_score].
  set (score := fst (current_score_and_percentile B (current_rows rows))).
  destruct (risk_tags_of_lists score
              (temporal_breakdown_of B (current_rows rows))
              (category_breakdown_of B (current_rows rows))
              (breakdown_keys_weighted B (current_rows rows)))
    as [Hpos Hneg].
  rewrite Hpos, Hneg. clear Hpos Hneg.
  split; [|split].
  - intros t Ht. destruct (Qle_bool 80 score); [|destruct Ht].
    apply in_or_app. now left.
  - intro H. apply Qle_bool_iff in H. rewrite H.
    split; [reflexivity|]. apply in_or_app. left. now left.
  - intro H. apply Qle_bool_false in H. rewrite H. reflexivity.
Qed.

Lemma response_risk_tags_witness :
  exists resp,
    calculate_score (numpy := example_numpy) (clock := example_clock)
                    (stats := example_stats) (pandas := example_pandas)
                    (mkBaseline [1; 2; 3; 40; 50] []) assaults_table
                    city_hall_lat city_hall_lon (8 # 10) = Some resp
    /\ 80 <= current_score resp
    /\ positive (risk_tags resp) = ["High Safety Area"]
    /\ In "High Safety Area" (negative (risk_tags resp)).
Proof.
  destruct (response_risk_tags
              (numpy := example_numpy) (clock := example_clock)
              (stats := example_stats) (pandas := example_pandas)
              (mkBaseline [1; 2; 3; 40; 50] []) assaults_table
              city_hall_lat city_hall_lon (8 # 10)
              (map (fun r => mkRow r
                             (if String.eqb (Ingest.date r) ten_days_ago
                              then 10 else 400)%Z 15)
                   assaults_table)
              ltac:(vm_compute; reflexivity) ltac:(discriminate))
    as [resp [Hr [_ [Hhigh _]]]].
  assert (Hscore : 80 <= current_score resp).
  { assert (Hs : option_map current_score
                   (calculate_score (numpy := example_numpy)
                      (clock := example_clock) (stats := example_stats)
                      (pandas := example_pandas)
                      (mkBaseline [1; 2; 3; 40; 50] []) assaults_table
                      city_hall_lat city_hall_lon (8 # 10))
                 = Some (833 # 10)) by (vm_compute; reflexivity).
    rewrite Hr in Hs. simpl in Hs. injection Hs as ->.
    unfold Qle. simpl. lia. }
  exists resp. split; [exact Hr|]. split; [exact Hscore|].
  exact (Hhigh Hscore).
Defined.

(** ** Which incidents a response depends on *)

Section FrameFacts.
Context {numpy : NumPy} {clock : Clock} {stats : Forecasting.StatsLibrary}
        {pandas : Pandas}.
Variable B : Baseline.

(** The response is a function of the candidates within the radius. *)
Lemma calculate_score_of_candidates (tbl : Ingest.Table) (lat lon radius_km : Q) :
  calculate_score B tbl lat lon radius_km
  = match within_radius lat lon radius_km
            (fetch_candidates tbl lat lon radius_km) with
    | [] => Some base_response
    | df => match preprocess df with
            | Some rows => Some (respond B rows)
            | None => None
            end
    end.
Proof.
  unfold calculate_score.
  destruct (fetch_candidates tbl lat lon radius_km) as [|c df]; reflexivity.
Qed.

Lemma candidates_without (t1 t2 : Ingest.Table) (r0 : Ingest.Incident)
                         (lat lon radius_km : Q) :
  radius_km < great_circle_km lat lon (Ingest.lat r0) (Ingest.lon r0)
  \/ String.leb (sql_date_years_ago 10) (Ingest.date r0) = false ->
  within_radius lat lon radius_km
    (fetch_candidates (t1 ++ r0 :: t2)%list lat lon radius_km)
  = within_radius lat lon radius_km
      (fetch_candidates (t1 ++ t2)%list lat lon radius_km).
Proof.
  intro H. unfold within_radius, fetch_candidates.
  rewrite !filter_app. f_equal. cbn [filter].
  destruct H as [Hfar|Hold].
  - apply Qle_bool_false in Hfar.
    match goal with
    | |- context [if ?c then _ else _] => destruct c
    end; [|reflexivity].
    cbn [filter]. rewrite Hfar. reflexivity.
  - rewrite Hold, andb_false_r. reflexivity.
Qed.

End FrameFacts.

(** X17.  An incident farther from the query point than the radius, or
    dated before the ten-year cut-off, never changes the response: with it
    or without it in the table the result is the same. *)
Theorem far_incident_ignored
    {numpy : NumPy} {clock : Clock} {stats : Forecasting.StatsLibrary}
    {pandas : Pandas} (B : Baseline) (t1 t2 : Ingest.Table)
    (r0 : Ingest.Incident) (lat lon radius_km : Q) :
  radius_km < great_circle_km lat lon (Ingest.lat r0) (Ingest.lon r0)
  \/ String.leb (sql_date_years_ago 10) (Ingest.date r0) = false ->
  calculate_score B (t1 ++ r0 :: t2)%list lat lon radius_km
  = calculate_score B (t1 ++ t2)%list lat lon radius_km.
Proof.
  intro H. rewrite !calculate_score_of_candidates.
  now rewrite (candidates_without t1 t2 r0 lat lon radius_km H).
Qed.

(** An assault of ten days ago in Ottawa. *)
Definition ottawa_incident : Ingest.Incident :=
  Ingest.mkIncident 7
    (Ingest.mkRecord "A-7" ten_days_ago (4542 # 100) (- (7570 # 100))
                     "Assault" "Assault" "Unknown" "Unknown" "example.csv").

Lemma far_incident_ignored_witness :
  calculate_score (numpy := example_numpy) (clock := example_clock)
                  (stats := example_stats) (pandas := example_pandas)
                  no_baseline (assaults_table ++ ottawa_incident :: [])%list
                  city_hall_lat city_hall_lon (8 # 10)
  = calculate_score (numpy := example_numpy) (clock := example_clock)
                    (stats := example_stats) (pandas := example_pandas)
                    no_baseline (assaults_table ++ [])%list
                    city_hall_lat city_hall_lon (8 # 10).
Proof.
  apply (far_incident_ignored (numpy := example_numpy) (clock := example_clock)).
  left. vm_compute. reflexivity.
Defined.

(** ** A missing benchmark file *)

(** X18.  Without a benchmark baseline (the file is missing or unreadable)
    a query with an in-radius incident of the last 365 days is answered 50
    throughout: current score and percentile 50, day and night 50, every
    category at 50 with a city average of 0, every history year at 100 (no
    incident) or 50, the status "Low Safety", and no risk tag at all. *)
Theorem missing_baseline_scores_50
    {numpy : NumPy} {clock : Clock} {stats : Forecasting.StatsLibrary}
    {pandas : Pandas} (tbl : Ingest.Table)
    (lat lon radius_km : Q) (rows : list Row) :
  rows_in_radius tbl lat lon radius_km = Some rows ->
  current_rows rows <> [] ->
  exists resp,
    calculate_score no_baseline tbl lat lon radius_km = Some resp
    /\ current_score resp = 50 /\ overall_percentile resp = 50
    /\ temporal_breakdown resp = mkTemporal 50 50
    /\ Forall (fun ce => entry_safety_score (snd ce) = 50
                         /\ category_percentile (snd ce) = 50
                         /\ city_avg_incidents (snd ce) = 0%Z)
              (category_breakdown resp)
    /\ Forall (fun h => Forecasting.safety_score h = 100
                        \/ Forecasting.safety_score h = 50)
              (history resp)
    /\ benchmark resp = mkBenchmark "Low Safety" 50 50
    /\ risk_tags resp = mkRiskTags [] [].
Proof.
  intros E Hcur. exists (respond no_baseline rows).
  assert (Hne : rows <> []).
  { intros ->. apply Hcur. reflexivity. }
  split; [now apply calculate_score_respond|].
  unfold respond.
  cbn [current_score overall_percentile temporal_breakdown category_breakdown
       history benchmark risk_tags].
  assert (Hsp : current_score_and_percentile no_baseline (current_rows rows)
                = (50, 50)).
  { unfold current_score_and_percentile.
    destruct (current_rows rows); [congruence|reflexivity]. }
  assert (Htemp : temporal_breakdown_of no_baseline (current_rows rows)
                  = mkTemporal 50 50).
  { unfold temporal_breakdown_of.
    destruct (current_rows rows); [congruence|reflexivity]. }
  assert (Hcats : Forall (fun ce => entry_safety_score (snd ce) = 50
                                    /\ category_percentile (snd ce) = 50
                                    /\ city_avg_incidents (snd ce) = 0%Z)
                         (category_breakdown_of no_baseline (current_rows rows))).
  { apply Forall_forall. intros [cat e] Hin.
    apply category_breakdown_of_In, breakdown_loop_In in Hin.
    destruct Hin as [w [_ He]]. unfold category_entry in He.
    destruct (length _ =? 0)%nat; [discriminate|].
    injection He as <-. cbn. repeat split. }
  rewrite Hsp, Htemp. cbn [fst snd].
  repeat match goal with |- _ /\ _ => split end;
    try reflexivity; try exact Hcats.
  - apply Forall_forall. intros h Hin. unfold history_of in Hin.
    apply in_map_iff in Hin. destruct Hin as [i [<- _]].
    unfold history_entry. destruct (filter _ rows); [now left|now right].
  - unfold risk_tags_of. cbn [day_safety_score night_safety_score].
    rewrite (filter_nothing (fun ce => Qltb (entry_safety_score (snd ce)) 50)).
    + reflexivity.
    + intros ce Hce. rewrite Forall_forall in Hcats.
      destruct (Hcats ce Hce) as [-> _]. reflexivity.
Qed.

Lemma missing_baseline_scores_50_witness :
  exists resp,
    calculate_score (numpy := example_numpy) (clock := example_clock)
                    (stats := example_stats) (pandas := example_pandas)
                    no_baseline assaults_table
                    city_hall_lat city_hall_lon (8 # 10) = Some resp
    /\ current_score resp = 50
    /\ benchmark resp = mkBenchmark "Low Safety" 50 50.
Proof.
  destruct (missing_baseline_scores_50
              (numpy := example_numpy) (clock := example_clock)
              (stats := example_stats) (pandas := example_pandas)
              assaults_table city_hall_lat city_hall_lon (8 # 10)
              (map (fun r => mkRow r
                             (if String.eqb (Ingest.date r) ten_days_ago
                              then 10 else 400)%Z 15)
                   assaults_table)
              ltac:(vm_compute; reflexivity) ltac:(discriminate))
    as [resp [Hr [Hs [_ [_ [_ [_ [Hb _]]]]]]]].
  exists resp. repeat split; assumption.
Defined.

(** ** The entries of the category breakdown *)

Section BreakdownFacts.
Context {numpy : NumPy} {pandas : Pandas}.
Variable B : Baseline.

Lemma breakdown_loop_nodup (weights : list (string * Q)) (df_current : list Row) :
  NoDup (map fst weights) ->
  NoDup (map fst (breakdown_loop B weights df_current)).
Proof.
  induction weights as [|[cat w] weights IH]; intro H; simpl; [constructor|].
  inversion H as [|? ? Hcat Hnd]; subst.
  destruct (category_entry B df_current cat w); simpl; [|now apply IH].
  constructor; [|now apply IH].
  intro Hin. apply Hcat. now apply breakdown_loop_keys in Hin.
Qed.

Lemma category_entry_count (df_current : list Row) (cat : string) (w : Q)
                           (e : CategoryEntry) :
  category_entry B df_current cat w = Some e ->
  let cat_df := filter (fun r => String.eqb (row_category r) cat) df_current in
  entry_incident_count e = length cat_df
  /\ (0 < length cat_df)%nat
  /\ weighted_impact e = py_round1 (Qsum (map score cat_df)).
Proof.
  unfold category_entry.
  destruct (Nat.eqb_spec
              (length (filter (fun r => String.eqb (row_category r) cat)
                              df_current)) 0) as [|Hne]; [discriminate|].
  intro H. injection H as <-. cbn. repeat split. lia.
Qed.

End BreakdownFacts.

(** X19.  In a response built from rows in the radius each category is
    listed at most once, and the entry of a category reports as incident
    count the number of rows of that category among the rows of the last 365
    days (never zero) and as weighted impact the sum of their decayed scores
    rounded to 1 decimal. *)
Theorem response_category_counts
    {numpy : NumPy} {clock : Clock} {stats : Forecasting.StatsLibrary}
    {pandas : Pandas} (B : Baseline) (tbl : Ingest.Table)
    (lat lon radius_km : Q) (rows : list Row) :
  rows_in_radius tbl lat lon radius_km = Some rows -> rows <> [] ->
  exists resp,
    calculate_score B tbl lat lon radius_km = Some resp
    /\ NoDup (map fst (category_breakdown resp))
    /\ Forall (fun ce =>
                 let cat_df :=
                   filter (fun r => String.eqb (row_category r) (fst ce))
                          (current_rows rows) in
                 entry_incident_count (snd ce) = length cat_df
                 /\ (0 < length cat_df)%nat
                 /\ weighted_impact (snd ce)
                    = py_round1 (Qsum (map score cat_df)))
              (category_breakdown resp).
Proof.
  intros E Hne. exists (respond B rows).
  split; [now apply calculate_score_respond|].
  unfold respond. cbn [category_breakdown]. split.
  - unfold category_breakdown_of.
    destruct (current_rows rows); [constructor|].
    apply breakdown_loop_nodup.
    rewrite <- Benchmarks.weights_agree. apply Benchmarks.weights_keys_nodup.
  - apply Forall_forall. intros [cat e] Hin.
    apply category_breakdown_of_In, breakdown_loop_In in Hin.
    destruct Hin as [w [_ He]].
    exact (category_entry_count B (current_rows rows) cat w e He).
Qed.

Lemma response_category_counts_witness :
  exists resp,
    calculate_score (numpy := example_numpy) (clock := example_clock)
                    (stats := example_stats) (pandas := example_pandas)
                    no_baseline hate_crime_table
                    city_hall_lat city_hall_lon (8 # 10) = Some resp
    /\ NoDup (map fst (category_breakdown resp)).
Proof.
  destruct (response_category_counts
              (numpy := example_numpy) (clock := example_clock)
              (stats := example_stats) (pandas := example_pandas)
              no_baseline hate_crime_table city_hall_lat city_hall_lon (8 # 10)
              (map (fun r => mkRow r 10 (weight_of (Ingest.category r)))
                   hate_crime_table)
              ltac:(vm_compute; reflexivity) ltac:(discriminate))
    as [resp [Hr [Hnd _]]].
  exists resp. split; assumption.
Defined.

End ScoringProperties.

(* ================================================================== *)
(** * generate_grid_benchmarks.py: the grid and the raw scores *)
(* ================================================================== *)

Module BenchmarksProperties.
Import Numeric PyString Platform Benchmarks.
Local Open Scope string_scope.

(** [d.get(key, 0)] *)
Definition get (key : string) (d : list (string * Q)) : Q :=
  match lookup key d with
  | Some v => v
  | None => 0
  end.

Section Nearby.
Context {numpy : NumPy}.

(** The rows [calculate_raw_score] sums over: inside the coarse box, then
    within the radius. *)
Definition nearby_rows (df : list Row) (lat0 lon0 radius_km : Q) : list Row :=
  filter (fun r =>
            Qle_bool (great_circle_km lat0 lon0 (lat r) (lon r)) radius_km)
         (filter (fun r =>
                    Qle_bool (lat0 - (1 # 100)) (lat r)
                    && Qle_bool (lat r) (lat0 + (1 # 100))
                    && Qle_bool (lon0 - (15 # 1000)) (lon r)
                    && Qle_bool (lon r) (lon0 + (15 # 1000)))
                 df).

End Nearby.

(** ** Sums *)

Lemma fold_left_Qplus (l : list Q) (a : Q) :
  fold_left Qplus l a == a + Qsum l.
Proof.
  unfold Qsum. revert a. induction l as [|x l IH]; intro a; simpl.
  - ring.
  - rewrite (IH (a + x)), (IH (0 + x)). ring.
Qed.

Lemma Qsum_cons (x : Q) (l : list Q) : Qsum (x :: l) == x + Qsum l.
Proof.
  unfold Qsum at 1. simpl. rewrite fold_left_Qplus. ring.
Qed.

Lemma add_to_total (key : string) (v : Q) (d : list (string * Q)) :
  Qsum (map snd (add_to key v d)) == Qsum (map snd d) + v.
Proof.
  induction d as [|[k x] d IH]; simpl.
  - rewrite Qsum_cons. unfold Qsum. simpl. ring.
  - destruct (String.eqb k key); simpl; rewrite !Qsum_cons.
    + ring.
    + rewrite IH. ring.
Qed.

Lemma add_to_get (key : string) (v : Q) (d : list (string * Q)) (cat : string) :
  get cat (add_to key v d)
  == get cat d + (if String.eqb key cat then v else 0).
Proof.
  unfold get. induction d as [|[k x] d IH]; simpl.
  - destruct (String.eqb key cat); ring.
  - destruct (String.eqb_spec k key) as [->|Hne]; simpl.
    + destruct (String.eqb key cat); ring.
    + destruct (String.eqb_spec k cat) as [->|Hne'].
      * destruct (String.eqb_spec key cat) as [->|]; [congruence|ring].
      * exact IH.
Qed.

Section SumFacts.
Context {numpy : NumPy}.

Lemma category_sums_fold (rows : list Row) (d : list (string * Q)) (cat : string) :
  Qsum (map snd (fold_left (fun d r => add_to (category r) (score r) d) rows d))
    == Qsum (map snd d) + Qsum (map score rows)
  /\ get cat (fold_left (fun d r => add_to (category r) (score r) d) rows d)
     == get cat d
        + Qsum (map score (filter (fun r => String.eqb (category r) cat) rows)).
Proof.
  revert d. induction rows as [|r rows IH]; intro d; simpl.
  - unfold Qsum. simpl. split; ring.
  - destruct (IH (add_to (category r) (score r) d)) as [H1 H2]. split.
    + rewrite H1, add_to_total, Qsum_cons. ring.
    + rewrite H2, add_to_get.
      destruct (String.eqb (category r) cat); simpl;
        [rewrite Qsum_cons|]; ring.
Qed.

(** The result in terms of the nearby rows. *)
Lemma calculate_raw_score_nearby (df : list Row) (lat0 lon0 radius_km : Q) :
  calculate_raw_score df lat0 lon0 radius_km
  = match nearby_rows df lat0 lon0 radius_km with
    | [] => (0, [])
    | nearby => (Qsum (map score nearby), category_sums nearby)
    end.
Proof.
  unfold calculate_raw_score, nearby_rows.
  destruct (filter _ df) as [|r subset]; [reflexivity|].
  destruct (filter _ (r :: subset)); reflexivity.
Qed.

End SumFacts.

(** X20.  The raw score of a grid point is the sum of the decayed scores of
    the incidents near it; the value kept for a category is the sum over the
    near incidents of that category (0 for a category without any); and the
    values of all categories add up to the raw score.  Without a near
    incident the score is 0 and no category has a value. *)
Theorem calculate_raw_score_sums {numpy : NumPy}
    (df : list Row) (lat0 lon0 radius_km : Q) :
  let nearby := nearby_rows df lat0 lon0 radius_km in
  let result := calculate_raw_score df lat0 lon0 radius_km in
  fst result == Qsum (map score nearby)
  /\ (forall cat,
        get cat (snd result)
        == Qsum (map score (filter (fun r => String.eqb (category r) cat) nearby)))
  /\ Qsum (map snd (snd result)) == fst result
  /\ (nearby = [] -> result = (0, [])).
Proof.
  intros nearby result. subst result nearby.
  rewrite calculate_raw_score_nearby.
  destruct (nearby_rows df lat0 lon0 radius_km) as [|r nearby'] eqn:E.
  - cbn [fst snd].
    split; [reflexivity|]. split; [intro cat; reflexivity|].
    split; reflexivity.
  - set (nearby := r :: nearby'). cbn [fst snd]. unfold category_sums.
    split; [reflexivity|]. split; [|split].
    + intro cat. destruct (category_sums_fold nearby [] cat) as [_ H].
      rewrite H. unfold get. simpl. ring.
    + destruct (category_sums_fold nearby [] "") as [H _].
      rewrite H. unfold Qsum at 1. simpl. ring.
    + discriminate.
Qed.

(** ** The grid *)

Lemma np_arange_bounds (start stop step x : Q) :
  0 < step -> In x (np_arange start stop step) -> start <= x /\ x < stop.
Proof.
  intros Hstep Hin. unfold np_arange in Hin.
  apply in_map_iff in Hin. destruct Hin as [i [<- Hi]].
  apply in_seq in Hi. destruct Hi as [_ Hi]. simpl in Hi.
  set (c := Qceiling ((stop - start) / step)) in *.
  assert (Hi0 : 0 <= inject_Z (Z.of_nat i)).
  { change 0 with (inject_Z 0). rewrite <- Zle_Qle. lia. }
  assert (Hlt : inject_Z (Z.of_nat i) < (stop - start) / step).
  { apply Qle_lt_trans with (inject_Z (c - 1)).
    - rewrite <- Zle_Qle. lia.
    - apply Qceiling_lt. }
  assert (Hmul : inject_Z (Z.of_nat i) * step < stop - start).
  { apply Qlt_le_trans with ((stop - start) / step * step).
    - apply Qmult_lt_compat_r; assumption.
    - apply Qle_lteq. right. field. intro H0. rewrite H0 in Hstep.
      apply (Qlt_irrefl 0 Hstep). }
  assert (Hpos : 0 <= inject_Z (Z.of_nat i) * step).
  { apply Qmult_le_0_compat; [exact Hi0|now apply Qlt_le_weak]. }
  generalize dependent (inject_Z (Z.of_nat i) * step). intros m Hm Hp.
  split; lra.
Qed.

(** X21.  When the cosine of the reference latitude is positive, every grid
    point lies in the city's bounding box: latitude from 43.58 up to, but
    not including, 43.85, and longitude from -79.64 up to, but not
    including, -79.12. *)
Theorem grid_points_in_bounding_box {numpy : NumPy} (la lo : Q) :
  0 < np_cos_radians (437 # 10) ->
  In (la, lo) grid_points ->
  (4358 # 100) <= la /\ la < (4385 # 100)
  /\ - (7964 # 100) <= lo /\ lo < - (7912 # 100).
Proof.
  intros Hcos Hin. unfold grid_points in Hin.
  apply in_flat_map in Hin. destruct Hin as [la' [Hla Hin]].
  apply in_map_iff in Hin. destruct Hin as [lo' [Heq Hlo]].
  injection Heq as -> ->.
  unfold lats in Hla. unfold lons in Hlo.
  apply np_arange_bounds in Hla; [|reflexivity].
  apply np_arange_bounds in Hlo.
  - tauto.
  - unfold GRID_RESOLUTION_KM.
    apply Qlt_shift_div_l; [|lra].
    apply Qmult_lt_0_compat; [reflexivity|exact Hcos].
Qed.

(** The second point of the first row of the grid, under the example
    cosine. *)
Definition second_grid_point : Q * Q :=
  ((4358 # 100) + inject_Z (Z.of_nat 0) * (GRID_RESOLUTION_KM / 111),
   - (7964 # 100)
   + inject_Z (Z.of_nat 1)
     * (GRID_RESOLUTION_KM
        / (111 * np_cos_radians (NumPy := Scoring.example_numpy) (437 # 10)))).

Lemma grid_points_in_bounding_box_witness :
  (4358 # 100) <= fst second_grid_point
  /\ fst second_grid_point < (4385 # 100)
  /\ - (7964 # 100) <= snd second_grid_point
  /\ snd second_grid_point < - (7912 # 100).
Proof.
  apply (grid_points_in_bounding_box (numpy := Scoring.example_numpy)).
  - reflexivity.
  - unfold grid_points, second_grid_point. cbn [fst snd].
    apply in_flat_map. eexists. split.
    + unfold lats, np_arange. apply in_map_iff. exists 0%nat. split.
      * reflexivity.
      * apply in_seq. vm_compute. split; [apply le_n|].
        repeat constructor.
    + apply in_map_iff. eexists. split; [reflexivity|].
      unfold lons, np_arange. apply in_map_iff. exists 1%nat. split.
      * reflexivity.
      * apply in_seq. vm_compute. split; [repeat constructor|].
        repeat constructor.
Defined.

(** X22.  The generator and the scoring engine give every category the same
    weight, the tabled one or 1 for a category outside the table, and no
    weight is below 1. *)
Theorem weights_match (category : string) :
  weight_of category = Scoring.weight_of category
  /\ 1 <= weight_of category.
Proof.
  split; [reflexivity|].
  unfold weight_of, WEIGHTS. simpl.
  repeat match goal with
         | |- context [if ?c then _ else _] => destruct c
         end; unfold Qle; simpl; lia.
Qed.

End BenchmarksProperties.

(* ================================================================== *)
(** * main.py: the two scoring endpoints *)
(* ================================================================== *)

Module Api.
Import Numeric PyString Platform Scoring.
Local Open Scope string_scope.

(** [pgeocode.Nominatim('ca').query_postal_code]: the coordinates of a code,
    or nothing when the latitude it returns is NaN. *)
Class Geocoder := {
  query_postal_code : string -> option (Q * Q)
}.

(** What an endpoint answers: the response with its [pincode] and
    [coordinates], the 400 error with its detail, or the failure of
    [calculate_score] itself. *)
Inductive Answer {pandas : Pandas} :=
| Scored (pincode : string) (lat lon : Q) (result : ScoreResponse)
| BadRequest (detail : string)
| ServerError.

(** [s.replace(" ", "")] *)
Fixpoint remove_spaces (s : string) : string :=
  match s with
  | EmptyString => EmptyString
  | String c s' =>
      if Ascii.eqb c " " then remove_spaces s' else String c (remove_spaces s')
  end.

Definition upper_ascii (c : ascii) : ascii :=
  let n := nat_of_ascii c in
  if ((97 <=? n) && (n <=? 122))%nat then ascii_of_nat (n - 32) else c.

(** [s.upper()] on ASCII text *)
Fixpoint upper (s : string) : string :=
  match s with
  | EmptyString => EmptyString
  | String c s' => String (upper_ascii c) (upper s')
  end.

(** [pincode.replace(" ", "").upper()] *)
Definition normalize (pincode : string) : string :=
  upper (remove_spaces pincode).

Section Endpoints.
Context {numpy : NumPy} {clock : Clock} {stats : Forecasting.StatsLibrary}
        {pandas : Pandas} {nomi : Geocoder}.
Variable BENCHMARKS : Baseline.
Variable crimes : Ingest.Table.

(** The default [radius_km] of [calculate_score]. *)
Definition default_radius : Q := 8 # 10.

Definition score_at (pincode : string) (lat lon : Q) : Answer :=
  match calculate_score BENCHMARKS crimes lat lon default_radius with
  | Some result => Scored pincode lat lon result
  | None => ServerError
  end.

(** The coordinates of a normalized code: the full code, else its first
    three characters when it has more than three. *)
Definition resolve (pincode : string) : option (Q * Q) :=
  match query_postal_code pincode with
  | Some info => Some info
  | None =>
      if (3 <? String.length pincode)%nat
      then query_postal_code (substring 0 3 pincode)
      else None
  end.

(** [GET /score?pincode=...] *)
Definition get_score (pincode : string) : Answer :=
  let pincode := normalize pincode in
  match resolve pincode with
  | None => BadRequest "Invalid postal code or coordinates not found."
  | Some (lat, lon) => score_at pincode lat lon
  end.

(** [GET /score/coords?lat=...&lon=...] *)
Definition get_score_by_coords (lat lon : Q) : Answer :=
  score_at "N/A" lat lon.

End Endpoints.

(** ** Facts about the normalization *)

Lemma upper_ascii_idempotent (c : ascii) :
  upper_ascii (upper_ascii c) = upper_ascii c.
Proof.
  destruct c as [[] [] [] [] [] [] [] []]; reflexivity.
Qed.

Lemma upper_ascii_space (c : ascii) :
  Ascii.eqb (upper_ascii c) " " = Ascii.eqb c " ".
Proof.
  destruct c as [[] [] [] [] [] [] [] []]; reflexivity.
Qed.

Lemma upper_idempotent (s : string) : upper (upper s) = upper s.
Proof.
  induction s as [|c s IH]; simpl; [reflexivity|].
  now rewrite upper_ascii_idempotent, IH.
Qed.

Lemma remove_spaces_upper (s : string) :
  remove_spaces (upper s) = upper (remove_spaces s).
Proof.
  induction s as [|c s IH]; simpl; [reflexivity|].
  rewrite upper_ascii_space. destruct (Ascii.eqb c " "); simpl; now rewrite IH.
Qed.

Lemma remove_spaces_idempotent (s : string) :
  remove_spaces (remove_spaces s) = remove_spaces s.
Proof.
  induction s as [|c s IH]; simpl; [reflexivity|].
  destruct (Ascii.eqb c " ") eqn:E; simpl; [exact IH|].
  now rewrite E, IH.
Qed.

Lemma normalize_idempotent (s : string) : normalize (normalize s) = normalize s.
Proof.
  unfold normalize.
  now rewrite remove_spaces_upper, remove_spaces_idempotent, upper_idempotent.
Qed.

Lemma normalize_append_space (s t : string) :
  normalize (s ++ " " ++ t) = normalize (s ++ t).
Proof.
  unfold normalize. f_equal.
  change (" " ++ t) with (String " " t).
  induction s as [|c s IH]; simpl; [reflexivity|].
  destruct (Ascii.eqb c " "); now rewrite IH.
Qed.

(** X23.  The postal-code endpoint does not see spaces or the case of ASCII
    letters: a code, the code with a space inserted anywhere, the code in
    upper case, and the normalized code the answer carries all get the same
    answer. *)
Theorem get_score_normalized
    {numpy : NumPy} {clock : Clock} {stats : Forecasting.StatsLibrary}
    {pandas : Pandas} {nomi : Geocoder}
    (B : Baseline) (crimes : Ingest.Table) (s t : string) :
  get_score B crimes (normalize s) = get_score B crimes s
  /\ get_score B crimes (upper s) = get_score B crimes s
  /\ get_score B crimes (s ++ " " ++ t) = get_score B crimes (s ++ t).
Proof.
  unfold get_score. split; [|split].
  - now rewrite normalize_idempotent.
  - unfold normalize. now rewrite remove_spaces_upper, upper_idempotent.
  - now rewrite normalize_append_space.
Qed.

(** X24.  The postal-code endpoint answers 400, with the detail "Invalid
    postal code or coordinates not found.", exactly when the geocoder knows
    neither the normalized code nor, for a code of more than three
    characters, its first three characters; otherwise it answers as the
    coordinate endpoint does at the resolved coordinates, but for the
    [pincode] field, which is the normalized code instead of "N/A". *)
Theorem get_score_resolves
    {numpy : NumPy} {clock : Clock} {stats : Forecasting.StatsLibrary}
    {pandas : Pandas} {nomi : Geocoder}
    (B : Baseline) (crimes : Ingest.Table) (pincode : string) :
  let code := normalize pincode in
  match get_score B crimes pincode with
  | BadRequest detail =>
      detail = "Invalid postal code or coordinates not found."
      /\ query_postal_code code = None
      /\ ((3 < String.length code)%nat ->
          query_postal_code (substring 0 3 code) = None)
  | Scored pc lat lon result =>
      pc = code
      /\ (query_postal_code code = Some (lat, lon)
          \/ (query_postal_code code = None
              /\ (3 < String.length code)%nat
              /\ query_postal_code (substring 0 3 code) = Some (lat, lon)))
      /\ get_score_by_coords B crimes lat lon = Scored "N/A" lat lon result
  | ServerError =>
      exists lat lon,
        resolve code = Some (lat, lon)
        /\ get_score_by_coords B crimes lat lon = ServerError
  end.
Proof.
  intro code. unfold get_score. fold code. unfold resolve.
  destruct (query_postal_code code) as [[lat lon]|] eqn:Efull.
  - unfold get_score_by_coords, score_at.
    destruct (calculate_score B crimes lat lon default_radius)
      as [result|] eqn:Ec.
    + split; [reflexivity|]. split; [now left|]. now rewrite Ec.
    + exists lat, lon. split; [reflexivity|]. now rewrite Ec.
  - destruct (Nat.ltb_spec 3 (String.length code)) as [Hlong|Hshort].
    + destruct (query_postal_code (substring 0 3 code)) as [[lat lon]|] eqn:Efsa.
      * unfold get_score_by_coords, score_at.
        destruct (calculate_score B crimes lat lon default_radius)
          as [result|] eqn:Ec.
        -- split; [reflexivity|]. split; [|now rewrite Ec].
           right. repeat split; assumption.
        -- exists lat, lon. split; [reflexivity|]. now rewrite Ec.
      * split; [reflexivity|]. split; [reflexivity|]. intros _. reflexivity.
    + split; [reflexivity|]. split; [reflexivity|]. intro H. lia.
Qed.

End Api.
